(** * Zava ticket processing: extraction, stage triggers and document store

    A shallow embedding of the backend services of the ticket pipeline
    ([backend/app/services]) together with the properties of its
    specification.

    Modelling conventions.
    - Python [str] values are [string]s; the character-level functions
      ([strip], [upper], [lower]) are the ASCII ones.
    - Python [float] and [int] values are exact rationals ([Q]) and integers
      ([Z]); [round(x, 2)] is rounding to the nearest hundredth, ties to even,
      on the exact value.
    - Documents are JSON values; a Python [dict] is an association list in
      insertion order whose keys are pairwise distinct ([wf_json]).
    - Effects (the in-memory ticket table, the clock, the remote stage
      functions, the random generator) are threaded through a state and
      exception monad over [World]. *)

From Stdlib Require Import String Ascii List ZArith QArith Qround Qabs Bool Lia.
From Stdlib Require Import Sorted Permutation.
From stdpp Require Import base option strings gmap.
Import ListNotations.

Set Default Proof Using "Type".
Local Open Scope string_scope.
Local Open Scope Z_scope.

(* ================================================================== *)
(** ** Python string primitives *)
(* ================================================================== *)

Module PyStr.

(** [c.isspace()] for an ASCII character. *)
Definition is_space (c : ascii) : bool :=
  let n := nat_of_ascii c in
  ((9 <=? n) && (n <=? 13) || (28 <=? n) && (n <=? 32))%nat.

Definition is_upper (c : ascii) : bool :=
  let n := nat_of_ascii c in ((65 <=? n) && (n <=? 90))%nat.

Definition is_lower (c : ascii) : bool :=
  let n := nat_of_ascii c in ((97 <=? n) && (n <=? 122))%nat.

Definition is_digit (c : ascii) : bool :=
  let n := nat_of_ascii c in ((48 <=? n) && (n <=? 57))%nat.

Definition upper_char (c : ascii) : ascii :=
  if is_lower c then ascii_of_nat (nat_of_ascii c - 32) else c.

Definition lower_char (c : ascii) : ascii :=
  if is_upper c then ascii_of_nat (nat_of_ascii c + 32) else c.

Fixpoint map_chars (f : ascii -> ascii) (s : string) : string :=
  match s with
  | EmptyString => EmptyString
  | String c r => String (f c) (map_chars f r)
  end.

(** [s.upper()] and [s.lower()]. *)
Definition upper : string -> string := map_chars upper_char.
Definition lower : string -> string := map_chars lower_char.

Fixpoint all_chars (p : ascii -> bool) (s : string) : bool :=
  match s with
  | EmptyString => true
  | String c r => p c && all_chars p r
  end.

Fixpoint lstrip (s : string) : string :=
  match s with
  | EmptyString => EmptyString
  | String c r => if is_space c then lstrip r else s
  end.

Fixpoint rstrip (s : string) : string :=
  match s with
  | EmptyString => EmptyString
  | String c r =>
      match rstrip r with
      | EmptyString => if is_space c then EmptyString else String c EmptyString
      | r' => String c r'
      end
  end.

(** [s.strip()]. *)
Definition strip (s : string) : string := rstrip (lstrip s).

(** [s.rstrip(c)] for a one-character argument. *)
Fixpoint rstrip_char (x : ascii) (s : string) : string :=
  match s with
  | EmptyString => EmptyString
  | String c r =>
      match rstrip_char x r with
      | EmptyString => if Ascii.eqb c x then EmptyString else String c EmptyString
      | r' => String c r'
      end
  end.

(** [s.startswith(p)]. *)
Definition startswith (p s : string) : bool := String.prefix p s.

(** [sub in s]. *)
Fixpoint contains (sub s : string) : bool :=
  String.prefix sub s ||
  match s with
  | EmptyString => false
  | String _ r => contains sub r
  end.

Fixpoint rev_string (s : string) : string :=
  match s with
  | EmptyString => EmptyString
  | String c r => rev_string r ++ String c EmptyString
  end.

(** [s.endswith(p)]. *)
Definition endswith (p s : string) : bool :=
  String.prefix (rev_string p) (rev_string s).

(** [s.split("\n")]: never empty, one more piece than there are
    newlines. *)
Fixpoint split_lines (s : string) : list string :=
  match s with
  | EmptyString => [EmptyString]
  | String c r =>
      if Ascii.eqb c "010"%char then EmptyString :: split_lines r
      else match split_lines r with
           | [] => [String c EmptyString]
           | l :: ls => String c l :: ls
           end
  end.

(** The first whitespace-separated word: [s.split()[0]], when there is
    one. *)
Fixpoint take_word (s : string) : string :=
  match s with
  | EmptyString => EmptyString
  | String c r => if is_space c then EmptyString else String c (take_word r)
  end.

Definition first_word (s : string) : option string :=
  match lstrip s with
  | EmptyString => None
  | w => Some (take_word w)
  end.

(** [", ".join(parts)] and friends. *)
Fixpoint join (sep : string) (parts : list string) : string :=
  match parts with
  | [] => EmptyString
  | [p] => p
  | p :: ps => p ++ sep ++ join sep ps
  end.

(** Decimal rendering of an integer, as [str(n)] prints it. *)
Definition digit_char (d : Z) : ascii := ascii_of_nat (48 + Z.to_nat d).

Fixpoint digits_fuel (fuel : nat) (n : Z) (acc : string) : string :=
  match fuel with
  | O => acc
  | S f =>
      let acc' := String (digit_char (n mod 10)) acc in
      if n <? 10 then acc' else digits_fuel f (n / 10) acc'
  end.

Definition str_nonneg (n : Z) : string :=
  digits_fuel (S (Z.to_nat (Z.log2 n))) n EmptyString.

Definition str_int (n : Z) : string :=
  if n <? 0 then String "-"%char (str_nonneg (- n)) else str_nonneg n.

End PyStr.

(* ================================================================== *)
(** ** JSON documents and Python dictionaries *)
(* ================================================================== *)

#[warnings="-register-all"]
Inductive json : Type :=
| JNull
| JBool (b : bool)
| JInt (n : Z)
| JFloat (q : Q)
| JStr (s : string)
| JList (xs : list json)
| JObj (kvs : list (string * json)).

(** A [dict] with string keys, in insertion order. *)
Abbreviation dict := (list (string * json)).

Module Dict.
Section Values.

Context {V : Type}.

(** [d.get(k)]: [None] when the key is absent. *)
Fixpoint get (k : string) (d : list (string * V)) : option V :=
  match d with
  | [] => None
  | (k', v) :: r => if String.eqb k k' then Some v else get k r
  end.

(** [d[k] = v]: replaces the value in place, or appends a new key. *)
Fixpoint set (k : string) (v : V) (d : list (string * V))
    : list (string * V) :=
  match d with
  | [] => [(k, v)]
  | (k', v') :: r =>
      if String.eqb k k' then (k', v) :: r else (k', v') :: set k v r
  end.

Definition keys (d : list (string * V)) : list string := map fst d.

(** [k in d]. *)
Definition mem (k : string) (d : list (string * V)) : bool :=
  match get k d with Some _ => true | None => false end.

(** [{**base, **overlay}] and [base.update(overlay)]. *)
Definition update (base overlay : list (string * V)) : list (string * V) :=
  fold_left (fun d kv => set (fst kv) (snd kv) d) overlay base.

(** [d.setdefault(k, v)]. *)
Definition setdefault (k : string) (v : V) (d : list (string * V))
    : list (string * V) :=
  if mem k d then d else set k v d.

End Values.
End Dict.

(** Python truthiness: [bool(v)]. *)
Definition truthy (v : json) : bool :=
  match v with
  | JNull => false
  | JBool b => b
  | JInt n => negb (n =? 0)
  | JFloat q => negb (Qeq_bool q 0)
  | JStr s => negb (String.eqb s "")
  | JList xs => match xs with [] => false | _ => true end
  | JObj kvs => match kvs with [] => false | _ => true end
  end.

(** [a or b]. *)
Definition py_or (a b : json) : json := if truthy a then a else b.

(** [v == "literal"] for a string literal: only a [str] with the same
    characters is equal to it. *)
Definition eq_str (v : json) (s : string) : bool :=
  match v with JStr t => String.eqb t s | _ => false end.

(** Numeric view of a value in arithmetic and comparisons; [bool] is a
    subclass of [int]. *)
Definition as_number (v : json) : option Q :=
  match v with
  | JInt n => Some (inject_Z n)
  | JFloat q => Some q
  | JBool b => Some (if b then 1%Q else 0%Q)
  | _ => None
  end.

(** Keys are pairwise distinct at every depth: what every Python [dict]
    satisfies. *)
Fixpoint nodup_keys (ks : list string) : bool :=
  match ks with
  | [] => true
  | k :: r => negb (existsb (String.eqb k) r) && nodup_keys r
  end.

Fixpoint wf_json (v : json) : bool :=
  match v with
  | JList xs => forallb wf_json xs
  | JObj kvs =>
      nodup_keys (map fst kvs)
      && (fix wf_vals (l : dict) : bool :=
            match l with
            | [] => true
            | (_, x) :: r => wf_json x && wf_vals r
            end) kvs
  | _ => true
  end.

Definition wf_dict (d : dict) : bool := wf_json (JObj d).

(** [doc[k1][k2]...]: the value at a path of keys, when every step is an
    object that has the key. *)
Fixpoint get_path (p : list string) (v : json) : option json :=
  match p with
  | [] => Some v
  | k :: r =>
      match v with
      | JObj d => match Dict.get k d with
                  | Some x => get_path r x
                  | None => None
                  end
      | _ => None
      end
  end.

(* ================================================================== *)
(** ** Wall clock: [datetime.now(timezone.utc)] *)
(* ================================================================== *)

Module Clock.

(** The clock counts microseconds since 1970-01-01T00:00:00Z. *)
Definition us_per_day : Z := 86400000000.

Definition day_of (clock : Z) : Z := clock / us_per_day.

(** Proleptic Gregorian (year, month, day) of a day number. *)
Definition civil_from_days (z0 : Z) : Z * Z * Z :=
  let z := z0 + 719468 in
  let era := z / 146097 in
  let doe := z - era * 146097 in
  let yoe := (doe - doe / 1460 + doe / 36524 - doe / 146096) / 365 in
  let y := yoe + era * 400 in
  let doy := doe - (365 * yoe + yoe / 4 - yoe / 100) in
  let mp := (5 * doy + 2) / 153 in
  let d := doy - (153 * mp + 2) / 5 + 1 in
  let m := if mp <? 10 then mp + 3 else mp - 9 in
  ((if m <=? 2 then y + 1 else y), m, d).

(** A number zero-padded to [width] digits. *)
Fixpoint zeros (n : nat) : string :=
  match n with O => EmptyString | S k => String "0"%char (zeros k) end.

Definition pad (width : nat) (n : Z) : string :=
  let s := PyStr.str_int n in
  zeros (width - String.length s) ++ s.

(** [d.strftime("%Y-%m-%d")] and [d.strftime("%Y%m%d")]. *)
Definition fmt_date (sep : string) (day : Z) : string :=
  let '(y, m, d) := civil_from_days day in
  pad 4 y ++ sep ++ pad 2 m ++ sep ++ pad 2 d.

(** [datetime.now(timezone.utc).isoformat()]. *)
Definition isoformat (clock : Z) : string :=
  let tod := clock mod us_per_day in
  let secs := tod / 1000000 in
  let us := tod mod 1000000 in
  fmt_date "-" (day_of clock) ++ "T"
  ++ pad 2 (secs / 3600) ++ ":" ++ pad 2 ((secs / 60) mod 60) ++ ":"
  ++ pad 2 (secs mod 60)
  ++ (if us =? 0 then "" else "." ++ pad 6 us)
  ++ "+00:00".

End Clock.

(* ================================================================== *)
(** ** The world the services run in *)
(* ================================================================== *)

(** The body of a response as [response.json()] sees it: a JSON value, or
    text it rejects with the given message. *)
Inductive http_body : Type :=
| JsonBody (v : json)
| NotJson (decode_error : string).

(** What one [client.post(...)] of [httpx] does: a response or one of the
    two transport exceptions the callers distinguish; [HttpFailure] is any
    other exception, with its message. Each comes with the time it took,
    in microseconds. *)
Inductive http_outcome : Type :=
| HttpResponse (status : Z) (body : http_body)
| HttpTimeout (msg : string)
| HttpConnectError (msg : string)
| HttpFailure (msg : string).

(** Observable actions besides writes to the ticket table. *)
Inductive event : Type :=
| EvPost (url : string) (function_key : option string) (ticket_id : string)
| EvSleep (seconds : Z).

Record World : Type := mkWorld {
  tickets : gmap string dict;          (* memory_store._tickets *)
  clock : Z;                           (* microseconds since the epoch *)
  remote : list (http_outcome * Z);    (* what the next posts will meet *)
  randoms : list Z;                    (* what random.randint will draw *)
  code_mappings : json;                (* contents of code_mappings.json *)
  trace : list event                   (* posts and sleeps, oldest first *)
}.

Definition with_tickets (t : gmap string dict) (w : World) : World :=
  mkWorld t (clock w) (remote w) (randoms w) (code_mappings w) (trace w).

(** Python exceptions, as far as the handlers tell them apart. *)
Inductive exn : Type :=
| TimeoutException (msg : string)
| ConnectError (msg : string)
| PyError (msg : string).

(** [str(e)]. *)
Definition exn_message (e : exn) : string :=
  match e with
  | TimeoutException msg | ConnectError msg | PyError msg => msg
  end.

Inductive outcome (A : Type) : Type :=
| Ret (a : A)
| Raise (e : exn).
Arguments Ret {A} a.
Arguments Raise {A} e.

(** State and exception monad: effects done before an exception stay. *)
Definition M (A : Type) : Type := World -> outcome A * World.

Definition ret {A} (a : A) : M A := fun w => (Ret a, w).
Definition raise {A} (e : exn) : M A := fun w => (Raise e, w).
Definition bind {A B} (m : M A) (f : A -> M B) : M B :=
  fun w => match m w with
           | (Ret a, w') => f a w'
           | (Raise e, w') => (Raise e, w')
           end.
(** [try: m  except ...: h e]. *)
Definition try_catch {A} (m : M A) (h : exn -> M A) : M A :=
  fun w => match m w with
           | (Ret a, w') => (Ret a, w')
           | (Raise e, w') => h e w'
           end.

Declare Scope py_scope.
Delimit Scope py_scope with py.
Notation "'do' x <- m ; k" := (bind m (fun x => k))
  (at level 10, x name, m at level 100, k at level 200) : py_scope.
Notation "'do' ' p <- m ; k" := (bind m (fun x => match x with p => k end))
  (at level 10, p pattern, m at level 100, k at level 200) : py_scope.
Notation "m ;; k" := (bind m (fun _ => k))
  (at level 100, k at level 200, right associativity) : py_scope.
Local Open Scope py_scope.

(** Lifting of partial pure steps: [None] is the Python exception named by
    [msg]. *)
Definition orRaise {A} (msg : string) (o : option A) : M A :=
  match o with Some a => ret a | None => raise (PyError msg) end.

(** [time.perf_counter()], in microseconds, and the elapsed milliseconds
    since [start]: [int((time.perf_counter() - start_time) * 1000)]. *)
Definition perf_counter : M Z := fun w => (Ret (clock w), w).

Definition elapsed_ms (start : Z) : M Z :=
  do now <- perf_counter; ret ((now - start) / 1000).

Definition log_event (e : event) : M unit :=
  fun w => (Ret tt,
            mkWorld (tickets w) (clock w) (remote w) (randoms w)
                    (code_mappings w) (trace w ++ [e])).

Definition advance (us : Z) : M unit :=
  fun w => (Ret tt,
            mkWorld (tickets w) (clock w + us) (remote w) (randoms w)
                    (code_mappings w) (trace w)).

(** [time.sleep(seconds)]. *)
Definition sleep (seconds : Z) : M unit :=
  log_event (EvSleep seconds) ;; advance (seconds * 1000000).

(** [random.randint(lo, hi)]: the next draw, brought into the range. *)
Definition randint (lo hi : Z) : M Z :=
  fun w => match randoms w with
           | [] => (Ret lo, w)
           | r :: rs =>
               (Ret (lo + r mod (hi - lo + 1)),
                mkWorld (tickets w) (clock w) (remote w) rs
                        (code_mappings w) (trace w))
           end.

(** [with httpx.Client(timeout=...) as client: client.post(url, json=
    {"ticketId": ticket_id}, headers=...)]: consumes the next remote
    outcome; with none left nothing listens at the address. *)
Definition http_post (url : string) (function_key : option string)
    (ticket_id : string) : M (Z * http_body) :=
  log_event (EvPost url function_key ticket_id) ;;
  (fun w =>
     match remote w with
     | [] => (Raise (ConnectError "All connection attempts failed"), w)
     | (o, dt) :: rest =>
         let w' := mkWorld (tickets w) (clock w + dt) rest (randoms w)
                           (code_mappings w) (trace w) in
         match o with
         | HttpResponse status body => (Ret (status, body), w')
         | HttpTimeout msg => (Raise (TimeoutException msg), w')
         | HttpConnectError msg => (Raise (ConnectError msg), w')
         | HttpFailure msg => (Raise (PyError msg), w')
         end
     end).

(** The world after one post that took [dt] and left [rest] of the
    script, and after a sleep. *)
Definition posted (e : event) (dt : Z) (rest : list (http_outcome * Z))
    (w : World) : World :=
  mkWorld (tickets w) (clock w + dt) rest (randoms w) (code_mappings w)
          (trace w ++ [e]).

Definition slept (seconds : Z) (w : World) : World :=
  mkWorld (tickets w) (clock w + seconds * 1000000) (remote w) (randoms w)
          (code_mappings w) (trace w ++ [EvSleep seconds]).

(* ================================================================== *)
(** ** memory_store.py *)
(* ================================================================== *)

Module memory_store.

(** [_now_iso()]. *)
Definition _now_iso : M string := fun w => (Ret (Clock.isoformat (clock w)), w).

(** [get_ticket]: a copy of the stored document, [None] when the id is
    unknown (or the stored document is empty). *)
Definition get_ticket (ticket_id : string) : M (option dict) :=
  fun w => match tickets w !! ticket_id with
           | Some doc => (Ret (if truthy (JObj doc) then Some doc else None), w)
           | None => (Ret None, w)
           end.

(** The value that ends up under a key [k] of [base] when the overlay
    holds [v] there: objects merge, anything else replaces. *)
Fixpoint merge_value (old : option json) (v : json) {struct v} : json :=
  match v with
  | JObj ov =>
      match old with
      | Some (JObj bv) =>
          JObj ((fix merge_items (base : dict) (overlay : dict) {struct overlay}
                   : dict :=
                   match overlay with
                   | [] => base
                   | (k, x) :: rest =>
                       merge_items
                         (Dict.set k (merge_value (Dict.get k base) x) base)
                         rest
                   end) bv ov)
      | _ => v
      end
  | _ => v
  end.

(** [_deep_merge(base, overlay)]: for every item [(k, v)] of the overlay
    in order, recurse when both [v] and [base.get(k)] are dicts, else
    [base[k] = v]. *)
Fixpoint _deep_merge (base : dict) (overlay : dict) : dict :=
  match overlay with
  | [] => base
  | (k, v) :: rest =>
      _deep_merge (Dict.set k (merge_value (Dict.get k base) v) base) rest
  end.

(** [update_ticket]: read-modify-write of one stored document. *)
Definition update_ticket (ticket_id : string) (updates : dict)
    : M (option dict) :=
  fun w =>
    match tickets w !! ticket_id with
    | None => (Ret None, w)
    | Some current =>
        let merged := _deep_merge current updates in
        let current' :=
          Dict.set "updatedAt" (JStr (Clock.isoformat (clock w))) merged in
        (Ret (Some current'),
         with_tickets (<[ticket_id := current']> (tickets w)) w)
    end.

(** [cosmos_client.update_ticket] differs in the merge only:
    [current.update(updates)] replaces top-level values wholesale. *)
Definition update_ticket_shallow (ticket_id : string) (updates : dict)
    : M (option dict) :=
  fun w =>
    match tickets w !! ticket_id with
    | None => (Ret None, w)
    | Some current =>
        let merged := Dict.update current updates in
        let current' :=
          Dict.set "updatedAt" (JStr (Clock.isoformat (clock w))) merged in
        (Ret (Some current'),
         with_tickets (<[ticket_id := current']> (tickets w)) w)
    end.

(** [ticket_id = doc.get("ticketId") or doc.get("id")]. *)
Definition ticket_id_of (doc : dict) : json :=
  py_or (match Dict.get "ticketId" doc with Some v => v | None => JNull end)
        (match Dict.get "id" doc with Some v => v | None => JNull end).

(** What [create_ticket] stores: the document with the four defaults. *)
Definition with_defaults (ticket_id : json) (created updated : string)
    (doc : dict) : dict :=
  Dict.setdefault "updatedAt" (JStr updated)
    (Dict.setdefault "createdAt" (JStr created)
       (Dict.setdefault "ticketId" ticket_id
          (Dict.setdefault "id" ticket_id doc))).

(** [create_ticket]. The table is keyed by strings, as the ids of every
    caller are: a document whose id is a number or [True] is outside this
    development ([None]). A list or a dict as id cannot be hashed, and
    [_tickets[ticket_id] = stored] raises [TypeError]. *)
Definition create_ticket (doc : dict) : option (M dict) :=
  let ticket_id := ticket_id_of doc in
  if negb (truthy ticket_id) then
    Some (raise (PyError "Document must have 'ticketId'"))
  else
    match ticket_id with
    | JStr key =>
        Some (do created <- _now_iso;
              do updated <- _now_iso;
              let stored := with_defaults ticket_id created updated doc in
              (fun w => (Ret stored,
                         with_tickets (<[key := stored]> (tickets w)) w)))
    | JList _ => Some (raise (PyError "unhashable type: 'list'"))
    | JObj _ => Some (raise (PyError "unhashable type: 'dict'"))
    | _ => None
    end.

(** [delete_ticket]. *)
Definition delete_ticket (ticket_id : string) : M bool :=
  fun w =>
    match tickets w !! ticket_id with
    | Some _ => (Ret true, with_tickets (delete ticket_id (tickets w)) w)
    | None => (Ret false, w)
    end.

End memory_store.

(* ================================================================== *)
(** ** Dynamic typing: attribute access, formatting, arithmetic *)
(* ================================================================== *)

(** What the interpreter and the [datetime] library provide and this
    development takes as given: [repr] of floats and containers, and
    [datetime.fromisoformat(s).date()] as a day number ([None] when the
    string is rejected with [ValueError]). *)
Class PyLib : Type := {
  py_repr : json -> string;
  fromisoformat : string -> option Z
}.

Module Py.

(** [type(v).__name__]. *)
Definition type_name (v : json) : string :=
  match v with
  | JNull => "NoneType"
  | JBool _ => "bool"
  | JInt _ => "int"
  | JFloat _ => "float"
  | JStr _ => "str"
  | JList _ => "list"
  | JObj _ => "dict"
  end.

Definition attribute_error (v : json) (attr : string) : exn :=
  PyError ("'" ++ type_name v ++ "' object has no attribute '" ++ attr ++ "'").

(** [v.get(k, default)]: only a [dict] has the method. *)
Definition get (v : json) (k : string) (default : json) : M json :=
  match v with
  | JObj d => ret (match Dict.get k d with Some x => x | None => default end)
  | _ => raise (attribute_error v "get")
  end.

(** [d.get(key, default)] for a key that is itself a document value:
    lists and dicts cannot be hashed, and only a [str] can be among the
    keys of a JSON object. *)
Definition get_by_value (v : json) (key : json) (default : json) : M json :=
  match v with
  | JObj d =>
      match key with
      | JList _ | JObj _ =>
          raise (PyError ("unhashable type: '" ++ type_name key ++ "'"))
      | JStr k => ret (match Dict.get k d with Some x => x | None => default end)
      | _ => ret default
      end
  | _ => raise (attribute_error v "get")
  end.

(** [str(v)], as an f-string interpolates it. *)
Definition str `{PyLib} (v : json) : string :=
  match v with
  | JStr s => s
  | JNull => "None"
  | JBool true => "True"
  | JBool false => "False"
  | JInt n => PyStr.str_int n
  | _ => py_repr v
  end.

(** The [TypeError] of [v > n] or [v < n] against an [int] literal. *)
Definition compare_error (op : string) (v : json) : exn :=
  PyError ("'" ++ op ++ "' not supported between instances of '"
           ++ type_name v ++ "' and 'int'").

(** [a < b] on numbers. *)
Definition ltb (a b : Q) : bool :=
  match (a ?= b)%Q with Lt => true | _ => false end.

(** Nearest integer, ties to the even one. *)
Definition round_half_even (x : Q) : Z :=
  let f := Qfloor x in
  match (x - inject_Z f ?= 1 # 2)%Q with
  | Lt => f
  | Gt => f + 1
  | Eq => if Z.even f then f else f + 1
  end.

(** [round(x, 2)]. *)
Definition round2 (x : Q) : Q := (inject_Z (round_half_even (x * 100)) / 100)%Q.

(** Digits in groups of three: [f"{n:,}"] for [0 <= n]. *)
Fixpoint group_fuel (fuel : nat) (n : Z) : string :=
  match fuel with
  | O => PyStr.str_int n
  | S f =>
      if n <? 1000 then PyStr.str_int n
      else group_fuel f (n / 1000) ++ "," ++ Clock.pad 3 (n mod 1000)
  end.

Definition group_thousands (n : Z) : string :=
  group_fuel (Z.to_nat (Z.log2 n)) n.

(** [f"{x:,.2f}"]. *)
Definition format_money (x : Q) : string :=
  let cents := round_half_even (Qabs x * 100) in
  (match (x ?= 0)%Q with Lt => "-" | _ => "" end)
  ++ group_thousands (cents / 100) ++ "." ++ Clock.pad 2 (cents mod 100).

End Py.

(* ================================================================== *)
(** ** config.py *)
(* ================================================================== *)

Record Settings : Type := {
  app_env : string;
  content_understanding_endpoint : string;
  content_understanding_key : string;
  azure_client_id : string;
  stage_b_function_url : string;
  stage_b_function_key : string;
  stage_c_function_url : string;
  stage_c_function_key : string;
  disable_simulation_fallback : bool
}.

Definition nonempty (s : string) : bool := negb (String.eqb s "").

Definition is_development (s : Settings) : bool :=
  String.eqb (app_env s) "development".

Definition use_managed_identity (s : Settings) : bool :=
  nonempty (azure_client_id s).

Definition content_understanding_configured (s : Settings) : bool :=
  if negb (nonempty (content_understanding_endpoint s)) then false
  else if nonempty (content_understanding_key s) then true
  else use_managed_identity s.

(** [url] with the route [path] ensured at its end. *)
Definition ensure_path (path url : string) : string :=
  let trimmed := PyStr.rstrip_char "/"%char url in
  if nonempty url && negb (PyStr.endswith path trimmed)
  then trimmed ++ path else url.

Definition stage_b_url (s : Settings) : string :=
  ensure_path "/api/process-ticket" (stage_b_function_url s).

Definition stage_c_url (s : Settings) : string :=
  ensure_path "/api/process-invoice" (stage_c_function_url s).

(* ================================================================== *)
(** ** storage.py *)
(* ================================================================== *)

(** The facade, with Cosmos DB not configured: every call goes to
    [memory_store]. *)
Module storage.
Definition get_ticket := memory_store.get_ticket.
Definition update_ticket := memory_store.update_ticket.
End storage.

(* ================================================================== *)
(** ** The remote stage caller

    [ai_processing.trigger_ai_processing] and
    [invoice_processing.trigger_invoice_processing] are the same function
    up to the names collected in [Stage]; [trigger] is that function. *)
(* ================================================================== *)

Module remote_stage.
Section WithPyLib.

Context `{PyLib}.

Record Stage : Type := {
  letter : string;                     (* "B" / "C" *)
  accepted : list string;              (* statuses the guard lets through *)
  expected : string;                   (* the one the message names *)
  record_field : string;               (* "aiProcessing" / "invoiceProcessing" *)
  function_url : Settings -> string;   (* settings.stage_b_url / stage_c_url *)
  function_key : Settings -> string;
  timeout_seconds : Z;                 (* STAGE_B/C_TIMEOUT_SECONDS *)
  retry_delay : Z;                     (* RETRY_503_DELAY_SECONDS *)
  simulate : dict -> string -> M dict  (* the local simulation *)
}.

Definition failure (error : json) : dict :=
  [("error", error); ("success", JBool false)].

(** [result = response.json(); result["processingTimeMs"] = elapsed_ms;
    return {"success": True, **result}]. *)
Definition success_of (body : http_body) (elapsed : Z) : M dict :=
  match body with
  | NotJson msg => raise (PyError msg)
  | JsonBody (JObj result) =>
      ret (Dict.update [("success", JBool true)]
             (Dict.set "processingTimeMs" (JInt elapsed) result))
  | JsonBody (JList _) =>
      raise (PyError "list indices must be integers or slices, not str")
  | JsonBody v =>
      raise (PyError ("'" ++ Py.type_name v
                      ++ "' object does not support item assignment"))
  end.

(** [result = response.json(); return {"error": result.get("error",
    "Status conflict"), "success": False}]. *)
Definition conflict_of (body : http_body) : M dict :=
  match body with
  | NotJson msg => raise (PyError msg)
  | JsonBody v =>
      do e <- Py.get v "error" (JStr "Status conflict");
      ret (failure e)
  end.

(** The write of the error paths: status [error] and the stage's record
    with the message. *)
Definition persist_error (st : Stage) (ticket_id error_msg : string)
    (elapsed : Z) : M (option dict) :=
  storage.update_ticket ticket_id
    [ ("status", JStr "error");
      (record_field st,
        JObj [ ("status", JStr "error");
               ("errorMessage", JStr error_msg);
               ("processingTimeMs", JInt elapsed) ]) ].

Definition post (st : Stage) (settings : Settings) (ticket_id : string)
    : M (Z * http_body) :=
  http_post (function_url st settings)
    (if nonempty (function_key st settings)
     then Some (function_key st settings) else None)
    ticket_id.

(** The single retry after a 503: [Some result] when it answered 200 with
    a usable body, [None] when it answered anything else or raised
    anything ([except Exception as retry_err]). *)
Definition retry_once (st : Stage) (settings : Settings)
    (ticket_id : string) (start_time : Z) : M (option dict) :=
  sleep (retry_delay st) ;;
  try_catch
    (do '(status, body) <- post st settings ticket_id;
     if status =? 200 then
       do elapsed <- elapsed_ms start_time;
       do result <- success_of body elapsed;
       ret (Some result)
     else ret None)
    (fun _ => ret None).

Definition strict_message (st : Stage) (status : Z) : string :=
  "Stage " ++ letter st ++ " function returned " ++ PyStr.str_int status
  ++ " and simulation fallback is disabled".

Definition timeout_message (st : Stage) : string :=
  "Stage " ++ letter st ++ " function timed out after "
  ++ PyStr.str_int (timeout_seconds st) ++ "s".

Definition failed_message (st : Stage) (msg : string) : string :=
  "Stage " ++ letter st ++ " call failed: " ++ msg.

(** What follows a response that is neither 200, 404 nor 409, once the
    retry (if any) has failed: the strict-mode error, or the local
    simulation. *)
Definition fallback_or_error (st : Stage) (settings : Settings)
    (ticket : dict) (ticket_id : string) (start_time status : Z) : M dict :=
  if disable_simulation_fallback settings then
    do elapsed <- elapsed_ms start_time;
    let error_msg := strict_message st status in
    persist_error st ticket_id error_msg elapsed ;;
    ret (failure (JStr error_msg))
  else simulate st ticket ticket_id.

(** The body of the [try] block. *)
Definition call_remote (st : Stage) (settings : Settings)
    (ticket : dict) (ticket_id : string) (start_time : Z) : M dict :=
  do '(status, body) <- post st settings ticket_id;
  do elapsed <- elapsed_ms start_time;
  if status =? 200 then success_of body elapsed
  else if status =? 404 then
    ret (failure (JStr "Ticket not found by processing function"))
  else if status =? 409 then conflict_of body
  else
    (* Retry once on 503 (cold start) before falling back *)
    do retried <- (if status =? 503
                   then retry_once st settings ticket_id start_time
                   else ret None);
    match retried with
    | Some result => ret result
    | None =>
        fallback_or_error st settings ticket ticket_id start_time status
    end.

(** The three [except] clauses. *)
Definition handle (st : Stage) (ticket : dict) (ticket_id : string)
    (start_time : Z) (e : exn) : M dict :=
  match e with
  | TimeoutException _ =>
      do elapsed <- elapsed_ms start_time;
      let error_msg := timeout_message st in
      persist_error st ticket_id error_msg elapsed ;;
      ret (failure (JStr error_msg))
  | ConnectError _ => simulate st ticket ticket_id
  | PyError msg =>
      do elapsed <- elapsed_ms start_time;
      let error_msg := failed_message st msg in
      persist_error st ticket_id error_msg elapsed ;;
      ret (failure (JStr error_msg))
  end.

Definition status_of (ticket : dict) : json :=
  match Dict.get "status" ticket with Some v => v | None => JStr "" end.

(** [current_status not in (...)]. *)
Definition guard_rejects (st : Stage) (current_status : json) : bool :=
  negb (existsb (eq_str current_status) (accepted st)).

Definition trigger (st : Stage) (settings : Settings) (ticket_id : string)
    : M dict :=
  do start_time <- perf_counter;
  (* Validate the ticket is in the correct status *)
  do found <- storage.get_ticket ticket_id;
  match found with
  | None => ret (failure (JStr ("Ticket '" ++ ticket_id ++ "' not found")))
  | Some ticket =>
      let current_status := status_of ticket in
      if guard_rejects st current_status then
        ret [ ("error",
                JStr ("Ticket is in status '" ++ Py.str current_status
                      ++ "', expected '" ++ expected st ++ "'"));
              ("success", JBool false);
              ("ticketId", JStr ticket_id);
              ("currentStatus", current_status) ]
      else if negb (nonempty (function_url st settings)) then
        simulate st ticket ticket_id
      else if is_development settings
              && PyStr.contains "localhost" (function_url st settings) then
        simulate st ticket ticket_id
      else
        try_catch (call_remote st settings ticket ticket_id start_time)
                  (handle st ticket ticket_id start_time)
  end.

(** The configuration under which [trigger] goes to the network. *)
Definition uses_remote (st : Stage) (settings : Settings) : bool :=
  nonempty (function_url st settings)
  && negb (is_development settings
           && PyStr.contains "localhost" (function_url st settings)).

Definition post_event (st : Stage) (settings : Settings)
    (ticket_id : string) : event :=
  EvPost (function_url st settings)
    (if nonempty (function_key st settings)
     then Some (function_key st settings) else None)
    ticket_id.

(** The world after the first post (which took [dt1] and left [script])
    and what the retry meets after the cooldown. *)
Definition after_first_post (st : Stage) (settings : Settings)
    (ticket_id : string) (dt1 : Z) (script : list (http_outcome * Z))
    (w : World) : World :=
  posted (post_event st settings ticket_id) dt1 script w.

Definition second_post (st : Stage) (settings : Settings)
    (ticket_id : string) (dt1 : Z) (script : list (http_outcome * Z))
    (w : World) : outcome (Z * http_body) * World :=
  post st settings ticket_id
    (slept (retry_delay st)
       (after_first_post st settings ticket_id dt1 script w)).

End WithPyLib.
End remote_stage.

(* ================================================================== *)
(** ** invoice_processing.py: the stage-3 local simulation *)
(* ================================================================== *)

Module invoice_processing.
Section WithPyLib.

Context `{PyLib}.

Definition STAGE_C_TIMEOUT_SECONDS : Z := 240.
Definition RETRY_503_DELAY_SECONDS : Z := 10.

(** [_load_code_mappings()]: the parsed reference file. *)
Definition _load_code_mappings : M json :=
  fun w => (Ret (code_mappings w), w).

(** [total_amount > 0]: the first comparison decides whether the value
    is a number at all. *)
Definition number_of (v : json) : M Q :=
  match as_number v with
  | Some q => ret q
  | None => raise (Py.compare_error ">" v)
  end.

(** [bool(invoice_number) and (invoice_number.startswith("INV-") or
    invoice_number.startswith("DC-") or invoice_number.startswith("FRT-")
    or len(invoice_number) > 5)]. *)
Definition invoice_number_check (invoice_number : json) : M bool :=
  if truthy invoice_number then
    match invoice_number with
    | JStr s =>
        ret (PyStr.startswith "INV-" s || PyStr.startswith "DC-" s
             || PyStr.startswith "FRT-" s
             || (5 <? String.length s)%nat)
    | v => raise (Py.attribute_error v "startswith")
    end
  else ret false.

(** The due-date block: [(due_date_valid, past_due)]. A value that is
    not a [str] makes [fromisoformat] raise [TypeError], which the code
    catches like [ValueError]. *)
Definition due_date_check (due_date : json) (today : Z) : bool * bool :=
  if truthy due_date then
    match due_date with
    | JStr s =>
        match fromisoformat s with
        | Some day => (true, day <? today)
        | None => (false, false)
        end
    | _ => (false, false)
    end
  else (true, false).

Definition agent_name : string := "invoice-processing-agent (local-sim)".

(** What the simulation reads off the ticket before it decides
    anything ([vendor_code] and [ai_flags] are read and not used). *)
Record Inputs : Type := {
  invoice_number : json;
  vendor_name : json;
  total_amount : json;
  due_date : json;
  next_action : json
}.

Definition read_inputs (ticket : dict) : M Inputs :=
  do extraction <- Py.get (JObj ticket) "extraction" (JObj []);
  do cu <- Py.get extraction "contentUnderstanding" (JObj []);
  do ai <- Py.get (JObj ticket) "aiProcessing" (JObj []);
  do invoice_number <- Py.get cu "invoiceNumber" (JStr "");
  do vendor_name <- Py.get cu "vendorName" (JStr "Unknown Vendor");
  do total_amount <- Py.get cu "totalAmount" (JInt 0);
  do due_date <- Py.get cu "dueDate" (JStr "");
  do next_action <- Py.get ai "nextAction" (JStr "");
  do codes <- Py.get ai "standardizedCodes" JNull;
  do vendor_code <- Py.get (py_or codes (JObj [])) "vendorCode" (JStr "");
  do ai_flags <- Py.get ai "flags" (JList []);
  ret {| invoice_number := invoice_number;
         vendor_name := vendor_name;
         total_amount := total_amount;
         due_date := due_date;
         next_action := next_action |}.

Definition skipped_message (next_action : json) : string :=
  "Ticket nextAction is '" ++ Py.str next_action
  ++ "', not 'invoice_processing'. Skipped.".

Definition _simulate_invoice_processing (ticket : dict) (ticket_id : string)
    : M dict :=
  do start_time <- perf_counter;
  do mappings <- _load_code_mappings;
  do '(Build_Inputs invoice_number vendor_name total_amount due_date
                    next_action) <- read_inputs ticket;
  do now <- perf_counter;
  let now_iso := Clock.isoformat now in
  let today := Clock.day_of now in
  (* Handle skipped processing *)
  if truthy next_action && negb (eq_str next_action "invoice_processing")
  then
    do elapsed <- elapsed_ms start_time;
    let update_payload : dict :=
      [ ("status", JStr "invoice_processed");
        ("invoiceProcessing",
          JObj [ ("status", JStr "skipped");
                 ("completedAt", JStr now_iso);
                 ("agentName", JStr agent_name);
                 ("agentVersion", JStr "1");
                 ("validations", JNull);
                 ("paymentSubmission", JNull);
                 ("errors", JList [JStr (skipped_message next_action)]);
                 ("processingTimeMs", JInt (elapsed + 120)) ]) ] in
    storage.update_ticket ticket_id update_payload ;;
    ret (Dict.update [("success", JBool true)] update_payload)
  else
    (* Step 1: validate invoice fields *)
    do vendor_codes <- Py.get mappings "vendor_codes" (JObj []);
    do vendor_mappings <- Py.get vendor_codes "mappings" (JObj []);
    do vendor_info <- Py.get_by_value vendor_mappings vendor_name (JObj []);
    do vendor_approved <- Py.get vendor_info "approved" (JBool true);
    let '(due_date_valid, past_due) := due_date_check due_date today in
    do invoice_number_valid <- invoice_number_check invoice_number;
    do amount <- number_of total_amount;
    let amount_valid := Py.ltb 0 amount && Py.ltb amount 500000 in
    let budget_available := Py.ltb amount 100000 in
    let validations : dict :=
      [ ("invoiceNumberValid", JBool invoice_number_valid);
        ("amountCorrect", JBool amount_valid);
        ("dueDateValid", JBool due_date_valid);
        ("vendorApproved", vendor_approved);
        ("budgetAvailable", JBool budget_available) ] in
    let all_valid := forallb truthy (map snd validations) in
    let errors : list json :=
      concat
        [ (if invoice_number_valid then []
           else [JStr ("Invoice number '" ++ Py.str invoice_number
                       ++ "' has invalid format.")]);
          (if amount_valid then []
           else [JStr ("Amount $" ++ Py.format_money amount
                       ++ " is outside acceptable range.")]);
          (if due_date_valid then []
           else [JStr ("Due date '" ++ Py.str due_date
                       ++ "' is not a valid date.")]);
          (if truthy vendor_approved then []
           else [JStr ("Vendor '" ++ Py.str vendor_name
                       ++ "' is not on the approved vendor list.")]);
          (if budget_available then []
           else [JStr ("Amount $" ++ Py.format_money amount
                       ++ " exceeds department budget threshold.")]) ] in
    (* Step 2: submit payment (if valid) *)
    do payment_submission <-
      (if all_valid then
         do draw <- randint 10000 99999;
         ret [ ("submitted", JBool true);
               ("paymentId",
                 JStr ("PAY-" ++ Clock.fmt_date "" today ++ "-"
                       ++ PyStr.str_int draw));
               ("submittedAt", JStr now_iso);
               ("expectedPaymentDate",
                 JStr (Clock.fmt_date "-"
                         (today + (if past_due then 1 else 3))));
               ("paymentMethod", JStr "ACH Transfer");
               ("status", JStr "submitted") ]
       else
         ret [ ("submitted", JBool false);
               ("paymentId", JNull);
               ("submittedAt", JNull);
               ("expectedPaymentDate", JNull);
               ("paymentMethod", JNull);
               ("status", JStr "not_submitted") ]);
    do elapsed <- elapsed_ms start_time;
    (* Step 3: persist results *)
    let update_payload : dict :=
      [ ("status", JStr "invoice_processed");
        ("invoiceProcessing",
          JObj [ ("status", JStr "completed");
                 ("completedAt", JStr now_iso);
                 ("agentName", JStr agent_name);
                 ("agentVersion", JStr "1");
                 ("validations", JObj validations);
                 ("paymentSubmission", JObj payment_submission);
                 ("errors", JList errors);
                 ("processingTimeMs", JInt (elapsed + 1200)) ]) ] in
    storage.update_ticket ticket_id update_payload ;;
    ret (Dict.update [("success", JBool true)] update_payload).

Definition stage_c : remote_stage.Stage :=
  {| remote_stage.letter := "C";
     remote_stage.accepted := ["ai_processed"; "invoice_processing"; "error"];
     remote_stage.expected := "ai_processed";
     remote_stage.record_field := "invoiceProcessing";
     remote_stage.function_url := stage_c_url;
     remote_stage.function_key := stage_c_function_key;
     remote_stage.timeout_seconds := STAGE_C_TIMEOUT_SECONDS;
     remote_stage.retry_delay := RETRY_503_DELAY_SECONDS;
     remote_stage.simulate := _simulate_invoice_processing |}.

Definition trigger_invoice_processing
    (settings : Settings) (ticket_id : string) : M dict :=
  remote_stage.trigger stage_c settings ticket_id.

End WithPyLib.
End invoice_processing.

(* ================================================================== *)
(** ** ai_processing.py *)
(* ================================================================== *)

Module ai_processing.
Section WithSimulation.

Context `{PyLib}.

(** The stage-2 local simulation is taken as given: what it computes from
    the reference tables plays no part in the properties below. *)
Variable _simulate_ai_processing : dict -> string -> M dict.

Definition STAGE_B_TIMEOUT_SECONDS : Z := 240.
Definition RETRY_503_DELAY_SECONDS : Z := 10.

Definition stage_b : remote_stage.Stage :=
  {| remote_stage.letter := "B";
     remote_stage.accepted := ["extracted"; "ai_processing"; "error"];
     remote_stage.expected := "extracted";
     remote_stage.record_field := "aiProcessing";
     remote_stage.function_url := stage_b_url;
     remote_stage.function_key := stage_b_function_key;
     remote_stage.timeout_seconds := STAGE_B_TIMEOUT_SECONDS;
     remote_stage.retry_delay := RETRY_503_DELAY_SECONDS;
     remote_stage.simulate := _simulate_ai_processing |}.

Definition trigger_ai_processing
    (settings : Settings) (ticket_id : string) : M dict :=
  remote_stage.trigger stage_b settings ticket_id.

End WithSimulation.
End ai_processing.

(** The two stages of the pipeline that are served remotely: stage 2 with
    whatever local simulation it is given, and stage 3. *)
Definition pipeline_stage `{PyLib} (st : remote_stage.Stage) : Prop :=
  (exists sim, st = ai_processing.stage_b sim)
  \/ st = invoice_processing.stage_c.


(* ================================================================== *)
(** ** More of the interpreter: iteration, arithmetic, comparison,
    formatting *)
(* ================================================================== *)

(** What differs between versions of the interpreter: the text of the
    exception that subscripting a [dict] with a slice raises
    ([TypeError: unhashable type: 'slice'] before Python 3.12,
    [KeyError: slice(None, 3, None)] from 3.12 on). *)
Class Interpreter : Type := {
  dict_slice_error : string
}.

Module Builtins.

(** A Python number as arithmetic produces it: [int] or [float]. *)
Inductive num : Type :=
| NInt (n : Z)
| NFloat (q : Q).

Definition num_value (x : num) : Q :=
  match x with NInt n => inject_Z n | NFloat q => q end.

Definition num_truthy (x : num) : bool := negb (Qeq_bool (num_value x) 0).

Definition num_type (x : num) : string :=
  match x with NInt _ => "int" | NFloat _ => "float" end.

(** The operand as a number: [bool] counts as [int]. *)
Definition to_num (v : json) : option num :=
  match v with
  | JInt n => Some (NInt n)
  | JBool b => Some (NInt (if b then 1 else 0))
  | JFloat q => Some (NFloat q)
  | _ => None
  end.

(** [x + v] and [x - v] for a number [x]. *)
Definition arith (op : string) (fz : Z -> Z -> Z) (fq : Q -> Q -> Q)
    (x : num) (v : json) : outcome num :=
  match to_num v with
  | Some y =>
      Ret match x, y with
          | NInt a, NInt b => NInt (fz a b)
          | _, _ => NFloat (fq (num_value x) (num_value y))
          end
  | None =>
      Raise (PyError ("unsupported operand type(s) for " ++ op ++ ": '"
                      ++ num_type x ++ "' and '" ++ Py.type_name v ++ "'"))
  end.

Definition add : num -> json -> outcome num := arith "+" Z.add Qplus.
Definition sub : num -> json -> outcome num := arith "-" Z.sub Qminus.

(** [for x in v]: the items of a list, the characters of a [str], the
    keys of a [dict]. *)
Fixpoint chars (s : string) : list json :=
  match s with
  | EmptyString => []
  | String c r => JStr (String c EmptyString) :: chars r
  end.

Definition iter (v : json) : outcome (list json) :=
  match v with
  | JList xs => Ret xs
  | JStr s => Ret (chars s)
  | JObj d => Ret (map (fun kv => JStr (fst kv)) d)
  | _ => Raise (PyError ("'" ++ Py.type_name v ++ "' object is not iterable"))
  end.

(** [len(v)]. *)
Definition len (v : json) : outcome Z :=
  match v with
  | JList xs => Ret (Z.of_nat (length xs))
  | JStr s => Ret (Z.of_nat (String.length s))
  | JObj d => Ret (Z.of_nat (length d))
  | _ => Raise (PyError ("object of type '" ++ Py.type_name v
                         ++ "' has no len()"))
  end.

(** [v[:n]]. *)
Definition take `{Interpreter} (n : nat) (v : json) : outcome json :=
  match v with
  | JList xs => Ret (JList (firstn n xs))
  | JStr s => Ret (JStr (String.substring 0 n s))
  | JObj _ => Raise (PyError dict_slice_error)
  | _ => Raise (PyError ("'" ++ Py.type_name v
                         ++ "' object is not subscriptable"))
  end.

(** [a == b]: numbers by value ([bool] included), strings and [None] by
    identity of content, lists item by item, dicts key by key. *)
Fixpoint eq (a b : json) {struct a} : bool :=
  match a with
  | JNull => match b with JNull => true | _ => false end
  | JStr s => match b with JStr t => String.eqb s t | _ => false end
  | JList xs =>
      match b with
      | JList ys =>
          (fix eq_items (xs ys : list json) {struct xs} : bool :=
             match xs, ys with
             | [], [] => true
             | x :: xs', y :: ys' => eq x y && eq_items xs' ys'
             | _, _ => false
             end) xs ys
      | _ => false
      end
  | JObj d =>
      match b with
      | JObj e =>
          (length d =? length e)%nat
          && (fix eq_values (d : dict) {struct d} : bool :=
                match d with
                | [] => true
                | (k, v) :: r =>
                    match Dict.get k e with
                    | Some v' => eq v v'
                    | None => false
                    end && eq_values r
                end) d
      | _ => false
      end
  | _ =>
      match as_number a, as_number b with
      | Some x, Some y => Qeq_bool x y
      | _, _ => false
      end
  end.

(** [s < t] on strings: by the codes of their characters. *)
Fixpoint str_lt (s t : string) : bool :=
  match s, t with
  | _, EmptyString => false
  | EmptyString, String _ _ => true
  | String a s', String b t' =>
      (nat_of_ascii a <? nat_of_ascii b)%nat
      || ((nat_of_ascii a =? nat_of_ascii b)%nat && str_lt s' t')
  end.

Definition compare_error (less : bool) (a b : string) : exn :=
  PyError ("'" ++ (if less then "<" else ">")
           ++ "' not supported between instances of '" ++ a ++ "' and '"
           ++ b ++ "'").

(** [a < b] ([less]) and [a > b]: numbers by value, strings by
    character codes, lists by their first differing items; any other
    pair is a [TypeError]. *)
Fixpoint cmp (less : bool) (a b : json) {struct a} : outcome bool :=
  match a with
  | JList xs =>
      match b with
      | JList ys =>
          (fix cmp_items (xs ys : list json) {struct xs} : outcome bool :=
             match xs, ys with
             | x :: xs', y :: ys' =>
                 if eq x y then cmp_items xs' ys' else cmp less x y
             | _, _ =>
                 Ret (if less then (length xs <? length ys)%nat
                      else (length ys <? length xs)%nat)
             end) xs ys
      | _ => Raise (compare_error less "list" (Py.type_name b))
      end
  | JStr s =>
      match b with
      | JStr t => Ret (if less then str_lt s t else str_lt t s)
      | _ => Raise (compare_error less "str" (Py.type_name b))
      end
  | _ =>
      match as_number a, as_number b with
      | Some x, Some y => Ret (if less then Py.ltb x y else Py.ltb y x)
      | _, _ =>
          Raise (compare_error less (Py.type_name a) (Py.type_name b))
      end
  end.

(** [a > float("inf")]. *)
Definition above_infinity (a : json) : outcome bool :=
  match as_number a with
  | Some _ => Ret false
  | None => Raise (compare_error false (Py.type_name a) "float")
  end.

(** [f"{v:,.2f}"]. *)
Definition format_2f (v : json) : outcome string :=
  match as_number v with
  | Some q => Ret (Py.format_money q)
  | None =>
      match v with
      | JStr _ =>
          Raise (PyError "Unknown format code 'f' for object of type 'str'")
      | _ =>
          Raise (PyError ("unsupported format string passed to "
                          ++ Py.type_name v ++ ".__format__"))
      end
  end.

(** [sep.join(xs)]: every item has to be a [str]. *)
Fixpoint strings_from (i : Z) (xs : list json) : outcome (list string) :=
  match xs with
  | [] => Ret []
  | JStr s :: r =>
      match strings_from (i + 1) r with
      | Ret l => Ret (s :: l)
      | Raise e => Raise e
      end
  | v :: _ =>
      Raise (PyError ("sequence item " ++ PyStr.str_int i
                      ++ ": expected str instance, " ++ Py.type_name v
                      ++ " found"))
  end.

Definition join (sep : string) (xs : list json) : outcome string :=
  match strings_from 0 xs with
  | Ret l => Ret (PyStr.join sep l)
  | Raise e => Raise e
  end.

End Builtins.

(* ================================================================== *)
(** ** ai_processing.py: the stage-2 local simulation *)
(* ================================================================== *)

Module ai_simulation.
Section WithPyLib.

Context `{PyLib} `{Interpreter}.

Definition lift {A} (o : outcome A) : M A := fun w => (o, w).

(** [_load_code_mappings()]: the parsed reference file. *)
Definition _load_code_mappings : M json :=
  fun w => (Ret (code_mappings w), w).

(** [table.get(name, {}).get("mappings", {})]. *)
Definition mappings_of (mappings : json) (name : string) : M json :=
  do table <- Py.get mappings name (JObj []);
  Py.get table "mappings" (JObj []).

Definition agent_name : string := "information-processing-agent (local-sim)".

(** What the loop over the line items collects. *)
Record Scan : Type := {
  product_codes : list json;
  first_category : json;
  price_discrepancy_detected : bool
}.

(** [expected_range.get("max", float("inf"))]: [None] is the
    infinity. *)
Definition range_max_of (expected_range : json) : M (option json) :=
  match expected_range with
  | JObj d => ret (Dict.get "max" d)
  | v => raise (Py.attribute_error v "get")
  end.

(** The test of a unit price against the expected range of its product:
    [expected_range and unit_price and (unit_price < range_min or
    unit_price > range_max)]. *)
Definition out_of_range (expected_range unit_price : json) : M bool :=
  if truthy expected_range && truthy unit_price then
    do range_min <- Py.get expected_range "min" (JInt 0);
    do range_max <- range_max_of expected_range;
    do below <- lift (Builtins.cmp true unit_price range_min);
    if below then ret true
    else
      match range_max with
      | Some top => lift (Builtins.cmp false unit_price top)
      | None => lift (Builtins.above_infinity unit_price)
      end
  else ret false.

(** The body of the loop over the line items. *)
Definition scan_item (product_mappings : json) (acc : Scan) (item : json)
    : M Scan :=
  do raw_code <- Py.get item "productCode" (JStr "");
  do pinfo <- Py.get_by_value product_mappings raw_code (JObj []);
  do std_code <-
    Py.get pinfo "standardCode"
      (JStr ("ZAVA-" ++ Py.str raw_code ++ "-STD"));
  do category <-
    (if truthy (first_category acc) then ret (first_category acc)
     else Py.get pinfo "category" (JStr "General"));
  (* Check unit price against expected range *)
  do expected_range <- Py.get pinfo "expectedPriceRange" (JObj []);
  do unit_price <- Py.get item "unitPrice" (JInt 0);
  do out <- out_of_range expected_range unit_price;
  ret {| product_codes := (product_codes acc ++ [std_code])%list;
         first_category := category;
         price_discrepancy_detected :=
           price_discrepancy_detected acc || out |}.

Fixpoint scan_items (product_mappings : json) (items : list json)
    (acc : Scan) : M Scan :=
  match items with
  | [] => ret acc
  | item :: rest =>
      do acc' <- scan_item product_mappings acc item;
      scan_items product_mappings rest acc'
  end.

(** [sum(item.get("amount", 0) for item in line_items)]. *)
Fixpoint sum_amounts (items : list json) (acc : Builtins.num)
    : M Builtins.num :=
  match items with
  | [] => ret acc
  | item :: rest =>
      do amount <- Py.get item "amount" (JInt 0);
      do acc' <- lift (Builtins.add acc amount);
      sum_amounts rest acc'
  end.

(** [subtotal and computed_subtotal and abs(computed_subtotal -
    subtotal) > 0.01]. *)
Definition amount_discrepancy_of (subtotal : json)
    (computed_subtotal : Builtins.num) : M bool :=
  if truthy subtotal && Builtins.num_truthy computed_subtotal then
    do difference <- lift (Builtins.sub computed_subtotal subtotal);
    ret (Py.ltb (1 # 100) (Qabs (Builtins.num_value difference)))
  else ret false.

(** [datetime.fromisoformat(due_date).date() < today], [False] when the
    value is rejected ([ValueError], [TypeError]). *)
Definition past_due_of (due_date : json) (today : Z) : bool :=
  match due_date with
  | JStr s =>
      match fromisoformat s with
      | Some day => day <? today
      | None => false
      end
  | _ => false
  end.

(** The [if]/[elif] chain: the key of the action and the flags. *)
Definition decide (vendor_approved : json)
    (price_discrepancy_detected amount_discrepancy : bool)
    (hazardous due_date : json) (today : Z) : string * list string :=
  if negb (truthy vendor_approved) then
    ("vendor_not_approved", ["UNAPPROVED_VENDOR"])
  else if price_discrepancy_detected || amount_discrepancy then
    ("amount_discrepancy_detected",
     ["AMOUNT_DISCREPANCY"; "MANUAL_REVIEW_REQUIRED"])
  else if truthy hazardous then
    ("hazardous_materials_present", ["HAZARDOUS"; "EHS_REVIEW_REQUIRED"])
  else if truthy due_date && past_due_of due_date today then
    ("past_due_invoice", ["PAST_DUE"; "EXPEDITED_PAYMENT"])
  else ("valid_invoice_all_checks_pass", []).

(** [i.get("description", "item") for i in ...]. *)
Fixpoint descriptions_of (items : list json) : M (list json) :=
  match items with
  | [] => ret []
  | i :: rest =>
      do description <- Py.get i "description" (JStr "item");
      do more <- descriptions_of rest;
      ret (description :: more)
  end.

(** [", ".join(... for i in line_items[:3])], with [" and n more"] for
    a longer list. *)
Definition item_desc_of (line_items : json) : M string :=
  do shown <- lift (Builtins.take 3 line_items);
  do items <- lift (Builtins.iter shown);
  do descriptions <- descriptions_of items;
  do item_desc <- lift (Builtins.join ", " descriptions);
  do count <- lift (Builtins.len line_items);
  ret (if 3 <? count
       then item_desc ++ " and " ++ PyStr.str_int (count - 3) ++ " more"
       else item_desc).

(** [0.78 if not vendor_approved else (0.85 if "AMOUNT_DISCREPANCY" in
    flags else 0.95)]. *)
Definition confidence_of (vendor_approved : json) (flags : list string) : Q :=
  if negb (truthy vendor_approved) then 78 # 100
  else if existsb (String.eqb "AMOUNT_DISCREPANCY") flags then 85 # 100
  else 95 # 100.

Definition _simulate_ai_processing (ticket : dict) (ticket_id : string)
    : M dict :=
  do start_time <- perf_counter;
  do mappings <- _load_code_mappings;
  do extraction <- Py.get (JObj ticket) "extraction" (JObj []);
  do cu <- Py.get extraction "contentUnderstanding" (JObj []);
  do vendor_name <- Py.get cu "vendorName" (JStr "Unknown Vendor");
  do total_amount <- Py.get cu "totalAmount" (JInt 0);
  do invoice_number <- Py.get cu "invoiceNumber" (JStr "N/A");
  do due_date <- Py.get cu "dueDate" (JStr "");
  do hazardous <- Py.get cu "hazardousFlag" (JBool false);
  do line_items <- Py.get cu "lineItems" (JList []);
  (* Step 1: look up vendor code *)
  do vendor_mappings <- mappings_of mappings "vendor_codes";
  do vendor_info <- Py.get_by_value vendor_mappings vendor_name (JObj []);
  do vendor_code <- Py.get vendor_info "vendorCode" (JStr "UNKNOWN-000");
  do vendor_approved <- Py.get vendor_info "approved" (JBool true);
  (* Step 2: look up product codes *)
  do product_mappings <- mappings_of mappings "product_codes";
  do items <- lift (Builtins.iter line_items);
  do scan <-
    scan_items product_mappings items
      {| product_codes := []; first_category := JStr "";
         price_discrepancy_detected := false |};
  (* Step 3: look up department code *)
  do dept_mappings <- mappings_of mappings "department_codes";
  do dept_info <-
    Py.get_by_value dept_mappings (first_category scan) (JObj []);
  do department_code <-
    Py.get dept_info "departmentCode" (JStr "PROC-GEN-000");
  do cost_center <- Py.get dept_info "costCenter" (JStr "CC-0000");
  (* Step 4: determine next action and flags *)
  do action_mappings <- mappings_of mappings "action_codes";
  do subtotal <- Py.get cu "subtotal" (JInt 0);
  do computed_subtotal <- sum_amounts items (Builtins.NInt 0);
  do amount_discrepancy <- amount_discrepancy_of subtotal computed_subtotal;
  do today <- perf_counter;
  let '(action_key, flags) :=
    decide vendor_approved (price_discrepancy_detected scan)
      amount_discrepancy hazardous due_date (Clock.day_of today) in
  do action_info <- Py.get action_mappings action_key (JObj []);
  do next_action <-
    Py.get action_info "nextAction" (JStr "invoice_processing");
  (* Step 5: build summary *)
  do item_desc <- item_desc_of line_items;
  do amount_text <- lift (Builtins.format_2f total_amount);
  do description <- Py.get action_info "description" next_action;
  let summary_parts :=
    concat
      [ [ "Invoice " ++ Py.str invoice_number ++ " from "
          ++ Py.str vendor_name ++ " for $" ++ amount_text ++ ".";
          if nonempty item_desc then "Items: " ++ item_desc ++ "." else "" ];
        (match flags with
         | [] => []
         | _ => ["Flags: " ++ PyStr.join ", " flags ++ "."]
         end);
        [ "Action: " ++ Py.str description ++ "." ] ] in
  let summary := PyStr.join " " (List.filter nonempty summary_parts) in
  do elapsed <- elapsed_ms start_time;
  (* Step 6: persist results *)
  do now <- perf_counter;
  let update_payload : dict :=
    [ ("status", JStr "ai_processed");
      ("aiProcessing",
        JObj [ ("status", JStr "completed");
               ("completedAt", JStr (Clock.isoformat now));
               ("agentName", JStr agent_name);
               ("agentVersion", JStr "1");
               ("standardizedCodes",
                 JObj [ ("vendorCode", vendor_code);
                        ("productCodes", JList (product_codes scan));
                        ("departmentCode", department_code);
                        ("costCenter", cost_center) ]);
               ("summary", JStr summary);
               ("nextAction", next_action);
               ("flags", JList (map JStr flags));
               ("confidence", JFloat (confidence_of vendor_approved flags));
               ("processingTimeMs", JInt (elapsed + 850)) ]) ] in
  storage.update_ticket ticket_id update_payload ;;
  ret (Dict.update [("success", JBool true)] update_payload).

(** Stage 2 with its local simulation. *)
Definition stage_b : remote_stage.Stage :=
  ai_processing.stage_b _simulate_ai_processing.

Definition trigger_ai_processing (settings : Settings) (ticket_id : string)
    : M dict :=
  ai_processing.trigger_ai_processing _simulate_ai_processing settings
    ticket_id.

End WithPyLib.
End ai_simulation.

(* ================================================================== *)
(** ** extraction.py: the structured field extractor *)
(* ================================================================== *)

Module extraction.

(** One entry of [lineItems]. *)
Record LineItem : Type := {
  description : string;
  productCode : string;
  quantity : Q;
  unitPrice : Q;
  amount : Q
}.

(** The result record of the extractor tiers, as far as this development
    follows it: the header fields read by the columnar reconstruction,
    the vendor lines, the line items and the error text. The dates, the
    amounts, the payment terms, the confidence scores and the special
    fields (date parsing and regular-expression searches over the whole
    text) are left out; no property below reads them. *)
Record CuResult : Type := {
  invoiceNumber : string;
  vendorName : string;
  vendorAddress : string;
  poNumber : string;
  currency : string;
  lineItems : list LineItem;
  error : option string
}.

(** A PDF as the extractor sees it: whether there are bytes at all, and
    the text [extract_full_text] gets out of them (empty when PyMuPDF
    fails). *)
Record Pdf : Type := {
  byte_count : nat;
  full_text : string
}.

(** [_empty_cu_result(error_msg)]. *)
Definition _empty_cu_result (error_msg : string) : CuResult :=
  {| invoiceNumber := ""; vendorName := ""; vendorAddress := "";
     poNumber := ""; currency := "USD"; lineItems := [];
     error := Some error_msg |}.

(** *** Line-item amounts *)

Definition is_zero (q : Q) : bool := Qeq_bool q 0.

(** The body of the loop of [_fix_line_item_amounts]. *)
Definition fix_item (item : LineItem) : LineItem :=
  if is_zero (amount item) then
    let qty := quantity item in
    let unit_price := unitPrice item in
    if negb (is_zero qty) && negb (is_zero unit_price) then
      {| description := description item;
         productCode := productCode item;
         quantity := quantity item;
         unitPrice := unitPrice item;
         amount := Py.round2 (qty * unit_price) |}
    else item
  else item.

Definition _fix_line_item_amounts (cu_result : CuResult) : CuResult :=
  {| invoiceNumber := invoiceNumber cu_result;
     vendorName := vendorName cu_result;
     vendorAddress := vendorAddress cu_result;
     poNumber := poNumber cu_result;
     currency := currency cu_result;
     lineItems := map fix_item (lineItems cu_result);
     error := error cu_result |}.

(** *** Columnar header block *)

(** [stripped == label.upper()] for [stripped = line.strip().upper()]. *)
Definition label_matches (line label : string) : bool :=
  String.eqb (PyStr.upper (PyStr.strip line)) (PyStr.upper label).

(** The inner loop: the first label that the line matches and that has
    no index yet. *)
Fixpoint first_unset (line : string) (labels : list string)
    (label_indices : list (string * nat)) : option string :=
  match labels with
  | [] => None
  | label :: rest =>
      if label_matches line label && negb (Dict.mem label label_indices)
      then Some label
      else first_unset line rest label_indices
  end.

(** The outer loop, from line number [i] on. *)
Fixpoint find_labels (labels : list string) (lines : list string) (i : nat)
    (label_indices : list (string * nat)) : list (string * nat) :=
  match lines with
  | [] => label_indices
  | line :: rest =>
      match first_unset line labels label_indices with
      | Some label =>
          find_labels labels rest (S i) (Dict.set label i label_indices)
      | None => find_labels labels rest (S i) label_indices
      end
  end.

(** [sorted(pairs, key=lambda x: x[1])]: stable. *)
Fixpoint insert_by_index (p : string * nat) (sorted : list (string * nat))
    : list (string * nat) :=
  match sorted with
  | [] => [p]
  | q :: rest =>
      if (snd p <? snd q)%nat then p :: sorted
      else q :: insert_by_index p rest
  end.

Definition sorted_by_index (pairs : list (string * nat))
    : list (string * nat) :=
  fold_right insert_by_index [] pairs.

(** [lines[i].strip() if i < len(lines) else ""]. *)
Definition line_value (lines : list string) (i : nat) : string :=
  match nth_error lines i with
  | Some line => PyStr.strip line
  | None => ""
  end.

(** The loop over [enumerate(sorted_pairs)], from [offset] on. *)
Fixpoint assign_values (lines : list string) (last_label_idx : nat)
    (sorted_pairs : list (string * nat)) (offset : nat)
    (results : list (string * string)) : list (string * string) :=
  match sorted_pairs with
  | [] => results
  | (label, _) :: rest =>
      assign_values lines last_label_idx rest (S offset)
        (Dict.set label (line_value lines (last_label_idx + 1 + offset))
           results)
  end.

(** [for label in labels: if label not in results: results[label] = ""]. *)
Definition fill_missing (labels : list string)
    (results : list (string * string)) : list (string * string) :=
  fold_left (fun res label => Dict.setdefault label "" res) labels results.

Definition _extract_columnar_block (lines : list string)
    (labels : list string) : list (string * string) :=
  let label_indices := find_labels labels lines 0 [] in
  match label_indices with
  | [] => fill_missing labels []
  | _ =>
      let sorted_pairs := sorted_by_index label_indices in
      let last_label_idx := snd (List.last sorted_pairs ("", O)) in
      let results := assign_values lines last_label_idx sorted_pairs 0 [] in
      fill_missing labels results
  end.

(** *** The reconstruction, said by position

    The declarative reading the code is compared with: a label is
    located at the first line that matches it; the boundary is the
    largest such line; a located label takes the value line whose
    offset is the number of located labels that come before it in the
    document. *)
Fixpoint label_line (lines : list string) (label : string) : option nat :=
  match lines with
  | [] => None
  | line :: rest =>
      if label_matches line label then Some O
      else option_map S (label_line rest label)
  end.

Definition located (lines labels : list string) : list nat :=
  flat_map (fun label => match label_line lines label with
                         | Some i => [i]
                         | None => []
                         end) labels.

Definition boundary (lines labels : list string) : nat :=
  fold_right Nat.max O (located lines labels).

Definition rank (lines labels : list string) (i : nat) : nat :=
  length (List.filter (fun j => (j <? i)%nat) (located lines labels)).

Definition columnar_by_position (lines labels : list string)
    (label : string) : string :=
  match label_line lines label with
  | None => ""
  | Some i =>
      line_value lines (boundary lines labels + 1 + rank lines labels i)
  end.

(** The located labels with their lines, in declaration order, and
    lists of pairs in strictly increasing line order. *)
Definition located_pairs (lines : list string) (ls : list string)
    : list (string * nat) :=
  flat_map (fun label => match label_line lines label with
                         | Some i => [(label, i)]
                         | None => []
                         end) ls.

Definition increasing (l : list (string * nat)) : Prop :=
  StronglySorted (fun p q => (snd p < snd q)%nat) l.

(** [d.get(k, "")]. *)
Definition get_or_empty (k : string) (d : list (string * string)) : string :=
  match Dict.get k d with Some v => v | None => "" end.

(** *** Line items *)

Definition is_code_char (c : ascii) : bool :=
  PyStr.is_upper c || PyStr.is_digit c || Ascii.eqb c "-"%char.

(** The leading run of upper-case letters and what follows it. *)
Fixpoint span_upper (s : string) : nat * string :=
  match s with
  | String c r =>
      if PyStr.is_upper c then let '(n, rest) := span_upper r in (S n, rest)
      else (O, s)
  | EmptyString => (O, s)
  end.

(** The part after [^[A-Z]{2,5}-], when the line starts that way. *)
Definition code_tail (line : string) : option string :=
  let '(n, rest) := span_upper line in
  match rest with
  | String "-"%char tail =>
      if ((2 <=? n) && (n <=? 5))%nat then Some tail else None
  | _ => None
  end.

(** [re.match(r"^[A-Z]{2,5}-[A-Z0-9-]+$", line)]. *)
Definition matches_code (line : string) : bool :=
  match code_tail line with
  | Some tail => nonempty tail && PyStr.all_chars is_code_char tail
  | None => false
  end.

(** [re.match(r"^[A-Z]{2,5}-[A-Z0-9-]+-$", line)]. *)
Definition matches_wrapped_code (line : string) : bool :=
  match code_tail line with
  | Some tail =>
      (2 <=? String.length tail)%nat
      && PyStr.all_chars is_code_char tail
      && PyStr.endswith "-" tail
  | None => false
  end.

(** [re.match(r"^[A-Z0-9]+$", line)]. *)
Definition matches_continuation (line : string) : bool :=
  nonempty line
  && PyStr.all_chars (fun c => PyStr.is_upper c || PyStr.is_digit c) line.

Definition digit_of (c : ascii) : Z := Z.of_nat (nat_of_ascii c) - 48.

(** [int(s)] for a string of digits (the empty string counts 0). *)
Fixpoint digits_value (acc : Z) (s : string) : Z :=
  match s with
  | EmptyString => acc
  | String c r => digits_value (10 * acc + digit_of c) r
  end.

Fixpoint remove_commas (s : string) : string :=
  match s with
  | EmptyString => EmptyString
  | String c r =>
      if Ascii.eqb c ","%char then remove_commas r
      else String c (remove_commas r)
  end.

(** The text before the first dot and the text after it. *)
Fixpoint split_dot (s : string) : option (string * string) :=
  match s with
  | EmptyString => None
  | String c r =>
      if Ascii.eqb c "."%char then Some (EmptyString, r)
      else match split_dot r with
           | Some (a, b) => Some (String c a, b)
           | None => None
           end
  end.

(** [re.match(r"^\$?([\d,]+\.\d{2})$", line)] and
    [float(group(1).replace(",", ""))]. *)
Definition parse_amount (line : string) : option Q :=
  let body := match line with
              | String "$"%char r => r
              | _ => line
              end in
  match split_dot body with
  | Some (whole, String d1 (String d2 EmptyString)) =>
      if nonempty whole
         && PyStr.all_chars
              (fun c => PyStr.is_digit c || Ascii.eqb c ","%char) whole
         && PyStr.is_digit d1 && PyStr.is_digit d2
      then
        Some (Qmake (100 * digits_value 0 (remove_commas whole)
                     + 10 * digit_of d1 + digit_of d2) 100)
      else None
  | _ => None
  end.

(** [re.match(r"^(\d+)$", line)] and [float(group(1))]. *)
Definition parse_quantity (line : string) : option Q :=
  if nonempty line && PyStr.all_chars PyStr.is_digit line
  then Some (inject_Z (digits_value 0 line))
  else None.

(** The search for the table: the line after the last ["AMOUNT"] header
    seen, and the first line from there on that mentions a total. *)
Fixpoint find_table (lines : list string) (i : nat)
    (table_start : option nat) : option (nat * nat) :=
  match lines with
  | [] => None
  | line :: rest =>
      let stripped := PyStr.strip line in
      let table_start :=
        if String.eqb stripped "AMOUNT" || String.eqb stripped "Amount"
        then Some (S i) else table_start in
      match table_start with
      | Some start =>
          if PyStr.contains "Subtotal" stripped
             || PyStr.contains "TOTAL" stripped
          then Some (start, i)
          else find_table rest (S i) table_start
      | None => find_table rest (S i) table_start
      end
  end.

(** The tokenizer state: finished items, description parts, the pending
    code and the numbers seen for it. *)
Record Pending : Type := {
  items : list LineItem;
  current_desc_parts : list string;
  current_code : string;
  amounts_buffer : list Q
}.

(** The finished item, when a code and three numbers are pending. *)
Definition pending_item (st : Pending) : option LineItem :=
  match amounts_buffer st with
  | qty :: unit_price :: amount :: _ =>
      if nonempty (current_code st) then
        Some {| description := PyStr.join " " (current_desc_parts st);
                productCode := current_code st;
                quantity := qty;
                unitPrice := unit_price;
                amount := amount |}
      else None
  | _ => None
  end.

(** One line of the table, the six checks in their order. *)
Definition tokenize_line (st : Pending) (line : string) : Pending :=
  if matches_code line && negb (PyStr.endswith "-" line) then
    {| items := items st; current_desc_parts := current_desc_parts st;
       current_code := line; amounts_buffer := amounts_buffer st |}
  else if matches_wrapped_code line then
    {| items := items st; current_desc_parts := current_desc_parts st;
       current_code := line; amounts_buffer := amounts_buffer st |}
  else if nonempty (current_code st)
          && PyStr.endswith "-" (current_code st)
          && matches_continuation line then
    {| items := items st; current_desc_parts := current_desc_parts st;
       current_code := current_code st ++ line;
       amounts_buffer := amounts_buffer st |}
  else
    match parse_amount line with
    | Some value =>
        {| items := items st; current_desc_parts := current_desc_parts st;
           current_code := current_code st;
           amounts_buffer := (amounts_buffer st ++ [value])%list |}
    | None =>
        match parse_quantity line with
        | Some value =>
            if nonempty (current_code st) then
              {| items := items st;
                 current_desc_parts := current_desc_parts st;
                 current_code := current_code st;
                 amounts_buffer := (amounts_buffer st ++ [value])%list |}
            else
              (* a description line; nothing can be pending without a code *)
              {| items := items st;
                 current_desc_parts :=
                   (current_desc_parts st ++ [line])%list;
                 current_code := current_code st;
                 amounts_buffer := amounts_buffer st |}
        | None =>
            match pending_item st with
            | Some item =>
                {| items := (items st ++ [item])%list;
                   current_desc_parts := [line];
                   current_code := "";
                   amounts_buffer := [] |}
            | None =>
                {| items := items st;
                   current_desc_parts :=
                     (current_desc_parts st ++ [line])%list;
                   current_code := current_code st;
                   amounts_buffer := amounts_buffer st |}
            end
        end
    end.

Definition _extract_line_items_multiline (lines : list string)
    : list LineItem :=
  match find_table lines 0 None with
  | None => []
  | Some (table_start, table_end) =>
      let table_lines :=
        List.filter (fun l => nonempty l)
          (map PyStr.strip
             (firstn (table_end - table_start) (skipn table_start lines))) in
      let st :=
        fold_left tokenize_line table_lines
          {| items := []; current_desc_parts := []; current_code := "";
             amounts_buffer := [] |} in
      match pending_item st with
      | Some item => (items st ++ [item])%list
      | None => items st
      end
  end.

(** *** The fallback tier *)

(** The line after the first line that reads ["INVOICE"]. *)
Fixpoint find_vendor_address (lines : list string) : string :=
  match lines with
  | [] => ""
  | line :: rest =>
      if String.eqb (PyStr.strip line) "INVOICE" then
        match rest with
        | next :: _ => PyStr.strip next
        | [] => ""
        end
      else find_vendor_address rest
  end.

Definition _extract_fallback (pdf_bytes : Pdf) : CuResult :=
  let text := full_text pdf_bytes in
  if negb (nonempty text) then
    _empty_cu_result "Could not extract text from PDF."
  else
    let lines := PyStr.split_lines text in
    let vendor_name :=
      match lines with l :: _ => PyStr.strip l | [] => "" end in
    let vendor_address := find_vendor_address lines in
    let invoice_header :=
      _extract_columnar_block lines
        ["INVOICE NUMBER"; "INVOICE DATE"; "DUE DATE"; "PO NUMBER"] in
    {| invoiceNumber := get_or_empty "INVOICE NUMBER" invoice_header;
       vendorName := vendor_name;
       vendorAddress := vendor_address;
       poNumber := get_or_empty "PO NUMBER" invoice_header;
       currency := "USD";
       lineItems := _extract_line_items_multiline lines;
       error := None |}.

(** *** The cascade *)

(** [if pdf_bytes:]. *)
Definition has_bytes (pdf_bytes : option Pdf) : option Pdf :=
  match pdf_bytes with
  | Some pdf => if (0 <? byte_count pdf)%nat then Some pdf else None
  | None => None
  end.

Section Cascade.

(** The cloud call [_extract_with_cu_sdk(blob_url, settings)] with its
    mapping into the result record, taken as given. *)
Variable _extract_with_cu_sdk : string -> Settings -> CuResult.

Definition extract_with_content_understanding (settings : Settings)
    (blob_url : string) (pdf_bytes : option Pdf)
    (extraction_method : string) : CuResult :=
  if String.eqb extraction_method "regex" then
    match has_bytes pdf_bytes with
    | Some pdf => _extract_fallback pdf
    | None =>
        _empty_cu_result "Regex extraction requested but no PDF bytes."
    end
  else if String.eqb extraction_method "cu" then
    if content_understanding_configured settings then
      _fix_line_item_amounts (_extract_with_cu_sdk blob_url settings)
    else
      match has_bytes pdf_bytes with
      | Some pdf => _extract_fallback pdf
      | None =>
          _empty_cu_result
            "Content Understanding not configured and no PDF bytes."
      end
  else
    if content_understanding_configured settings then
      _fix_line_item_amounts (_extract_with_cu_sdk blob_url settings)
    else
      match has_bytes pdf_bytes with
      | Some pdf => _extract_fallback pdf
      | None =>
          _empty_cu_result
            "Content Understanding not configured and no PDF bytes provided."
      end.

End Cascade.

End extraction.

(* ================================================================== *)
(** ** extraction.py: the auto-chain of [process_extraction]

    The [try] block that follows the persisting of the extraction result:
    stage 2 is triggered, and stage 3 after it when the next action asks
    for it. Each step leaves a debug marker under [_autochain]. *)
(* ================================================================== *)

Module auto_chain.
Section WithPyLib.

Context `{PyLib}.
Variable _simulate_ai_processing : dict -> string -> M dict.
Variable settings : Settings.

Definition lift {A} (o : outcome A) : M A := fun w => (o, w).

(** [storage.update_ticket(ticket_id, {"_autochain": {"stage": ...,
    "ts": datetime.now(timezone.utc).isoformat(), ...}})]. *)
Definition mark (ticket_id stage : string) (extra : dict) : M unit :=
  do ts <- memory_store._now_iso;
  storage.update_ticket ticket_id
    [("_autochain",
       JObj (("stage", JStr stage) :: ("ts", JStr ts) :: extra))] ;;
  ret tt.

(** [str(x)[:n]]. *)
Definition truncated (n : nat) (s : string) : string :=
  String.substring 0 n s.

(** [list(d.keys())]. *)
Definition key_list (d : dict) : json := JList (map (fun kv => JStr (fst kv)) d).

Definition get_or (k : string) (default : json) (d : dict) : json :=
  match Dict.get k d with Some v => v | None => default end.

(** [agent_out = ai_result.get("agentOutput") or {}]. *)
Definition agent_out_of (ai_result : dict) : json :=
  py_or (get_or "agentOutput" JNull ai_result) (JObj []).

(** [next_act = agent_out.get("next_action", "") or
    ai_result.get("nextAction", "")]. *)
Definition next_action_of (ai_result : dict) : outcome json :=
  match agent_out_of ai_result with
  | JObj agent_out =>
      Ret (py_or (get_or "next_action" (JStr "") agent_out)
                 (get_or "nextAction" (JStr "") ai_result))
  | v => Raise (Py.attribute_error v "get")
  end.

(** [next_act.strip().lower().split()[0] if next_act else ""]. *)
Definition normalized (next_act : json) : outcome string :=
  if truthy next_act then
    match next_act with
    | JStr s =>
        match PyStr.first_word (PyStr.lower (PyStr.strip s)) with
        | Some word => Ret word
        | None => Raise (PyError "list index out of range")
        end
    | v => Raise (Py.attribute_error v "strip")
    end
  else Ret "".

(** ["invoice_processing" in next_act.lower() if next_act else False]:
    evaluated after [normalized], so on a [str] or a falsy value. *)
Definition should_invoice (next_act : json) : bool :=
  match next_act with
  | JStr s => PyStr.contains "invoice_processing" (PyStr.lower s)
  | _ => false
  end.

(** The inner [try]: cooldown, stage 3, markers. *)
Definition chain_stage_c (ticket_id : string) : M unit :=
  try_catch
    (sleep 30 ;;
     mark ticket_id "calling_stage_c" [] ;;
     do inv_result <-
       invoice_processing.trigger_invoice_processing settings ticket_id;
     mark ticket_id "stage_c_done"
       [("success", get_or "success" JNull inv_result)])
    (fun inv_err =>
       mark ticket_id "stage_c_error"
         [("error", JStr (truncated 500 (exn_message inv_err)))]).

Definition after_stage_b (ticket_id : string) (ai_result : dict) : M unit :=
  if truthy (get_or "success" JNull ai_result) then
    do next_act <- lift (next_action_of ai_result);
    do next_act_normalized <- lift (normalized next_act);
    let agent_out := agent_out_of ai_result in
    mark ticket_id "checking_next_action"
      [ ("next_action", next_act);
        ("next_act_normalized", JStr next_act_normalized);
        ("should_invoice", JBool (should_invoice next_act));
        ("agent_out_keys",
          if truthy agent_out
          then match agent_out with JObj d => key_list d | _ => JList [] end
          else JList []) ] ;;
    if should_invoice next_act then chain_stage_c ticket_id
    else mark ticket_id "skipped_stage_c" [("next_action", next_act)]
  else
    mark ticket_id "stage_b_not_success"
      [("ai_result",
         JObj (map (fun kv => (fst kv, JStr (truncated 200 (Py.str (snd kv)))))
                   ai_result))].

Definition auto_chain (ticket_id : string) : M unit :=
  try_catch
    (mark ticket_id "calling_stage_b" [] ;;
     do ai_result <-
       ai_processing.trigger_ai_processing _simulate_ai_processing settings
         ticket_id;
     mark ticket_id "stage_b_done"
       [ ("success", get_or "success" JNull ai_result);
         ("result_keys", key_list ai_result) ] ;;
     after_stage_b ticket_id ai_result)
    (fun chain_err =>
       mark ticket_id "stage_b_exception"
         [("error", JStr (truncated 500 (exn_message chain_err)))]).

End WithPyLib.
End auto_chain.

(* ================================================================== *)
(** ** routers/tickets.py: the endpoints that trigger a stage by hand *)
(* ================================================================== *)

Module routers.

(** What [background_tasks.add_task] queues. *)
Inductive task : Type :=
| RunStageB (ticket_id : string)
| RunStageC (ticket_id : string).

(** The outcome of an endpoint: a body with the task it queued, or an
    [HTTPException]. *)
Inductive reply : Type :=
| Queued (queued : task) (body : dict)
| HTTPException (status_code : Z) (detail : string).

Section WithPyLib.

Context `{PyLib}.

Definition not_found (ticket_id : string) : reply :=
  HTTPException 404 ("Ticket " ++ ticket_id ++ " not found.").

(** [POST /api/tickets/{ticket_id}/process-ai]. *)
Definition trigger_ai_processing (ticket_id : string) : M reply :=
  do doc <- storage.get_ticket ticket_id;
  match doc with
  | None => ret (not_found ticket_id)
  | Some doc =>
      let current_status :=
        match Dict.get "status" doc with Some v => v | None => JStr "" end in
      if negb (existsb (eq_str current_status)
                 ["extracted"; "ai_processing"; "error"])
      then
        ret (HTTPException 409
               ("Ticket is in status '" ++ Py.str current_status
                ++ "', must be 'extracted' to trigger AI processing."))
      else
        ret (Queued (RunStageB ticket_id)
               [ ("ticketId", JStr ticket_id);
                 ("message",
                   JStr ("AI processing queued for ticket " ++ ticket_id
                         ++ "."));
                 ("previousStatus", current_status) ])
  end.

(** [POST /api/tickets/{ticket_id}/process-invoice]. *)
Definition trigger_invoice_processing (ticket_id : string) : M reply :=
  do doc <- storage.get_ticket ticket_id;
  match doc with
  | None => ret (not_found ticket_id)
  | Some doc =>
      let current_status :=
        match Dict.get "status" doc with Some v => v | None => JStr "" end in
      if negb (existsb (eq_str current_status)
                 ["ai_processed"; "invoice_processing"; "error"])
      then
        ret (HTTPException 409
               ("Ticket is in status '" ++ Py.str current_status
                ++ "', must be 'ai_processed' to trigger invoice processing."))
      else
        ret (Queued (RunStageC ticket_id)
               [ ("ticketId", JStr ticket_id);
                 ("message",
                   JStr ("Invoice processing queued for ticket " ++ ticket_id
                         ++ "."));
                 ("previousStatus", current_status) ])
  end.

End WithPyLib.
End routers.

(** *** Observations on a run

    A field of the returned dict ([None] when the run raised), and a path
    into the document stored under an id afterwards. *)
Definition result_field {A} (k : string) (run : outcome dict * A)
    : option json :=
  match fst run with
  | Ret r => Dict.get k r
  | Raise _ => None
  end.

Definition returned {A} (run : outcome dict * A) : dict :=
  match fst run with
  | Ret r => r
  | Raise _ => []
  end.

Definition result_path {A} (p : list string) (run : outcome dict * A)
    : option json :=
  match fst run with
  | Ret r => get_path p (JObj r)
  | Raise _ => None
  end.

Definition stored_path (p : list string) (ticket_id : string) (w : World)
    : option json :=
  match tickets w !! ticket_id with
  | Some doc => get_path p (JObj doc)
  | None => None
  end.

(** Two worlds that differ at most in the [_autochain] markers and the
    [updatedAt] stamps of the stored tickets. *)
Definition only_marked (w w' : World) : Prop :=
  clock w' = clock w /\ remote w' = remote w /\ randoms w' = randoms w
  /\ code_mappings w' = code_mappings w /\ trace w' = trace w
  /\ forall ticket_id,
       (is_Some (tickets w' !! ticket_id) <-> is_Some (tickets w !! ticket_id))
       /\ forall p k, hd_error p = Some k -> k <> "_autochain" ->
                      k <> "updatedAt" ->
                      stored_path p ticket_id w' = stored_path p ticket_id w.

(** *** What a computation does not do

    [quiet m]: no post and no sleep. [read_only m]: the world is left as
    it was. [never_raises m]: every run returns.
    [python_errors_only m]: what is raised is never one of the two
    transport exceptions of [httpx]. [all_or_nothing m]: a run that
    raises leaves the world as it was. *)
Definition quiet {A} (m : M A) : Prop :=
  forall w, trace (snd (m w)) = trace w.

Definition read_only {A} (m : M A) : Prop :=
  forall w, snd (m w) = w.

Definition never_raises {A} (m : M A) : Prop :=
  forall w, exists a, fst (m w) = Ret a.

Definition python_errors_only {A} (m : M A) : Prop :=
  forall w e, fst (m w) = Raise e -> exists msg, e = PyError msg.

Definition all_or_nothing {A} (m : M A) : Prop :=
  forall w e w', m w = (Raise e, w') -> w' = w.

(** [returns P m]: every run of [m] that returns satisfies [P] (of the
    world before, the result and the world after). *)
Definition returns {A} (P : World -> A -> World -> Prop) (m : M A) : Prop :=
  forall w a w', m w = (Ret a, w') -> P w a w'.

(** Two worlds that differ at most in the ticket stored under
    [ticket_id] and in the state of the random generator, and a
    computation that changes nothing else. *)
Definition changes_only_ticket (ticket_id : string) (w w' : World) : Prop :=
  clock w' = clock w /\ remote w' = remote w
  /\ code_mappings w' = code_mappings w /\ trace w' = trace w
  /\ forall other, other <> ticket_id ->
       tickets w' !! other = tickets w !! other.

Definition local_to {A} (ticket_id : string) (m : M A) : Prop :=
  forall w, changes_only_ticket ticket_id w (snd (m w)).

(** *** What a patch mentions

    [untouched p base patch]: walking the path [p] down the patch, some key
    of [p] is absent from the patch at a depth down to which both the
    patch and the stored document hold objects. *)
Fixpoint untouched (p : list string) (base patch : json) : bool :=
  match p with
  | [] => false
  | k :: rest =>
      match patch with
      | JObj ov =>
          match Dict.get k ov with
          | None => true
          | Some v =>
              match v, base with
              | JObj _, JObj bv =>
                  match Dict.get k bv with
                  | Some (JObj b') => untouched rest (JObj b') v
                  | _ => false
                  end
              | _, _ => false
              end
          end
      | _ => false
      end
  end.

(** [written p base patch = Some v]: the patch holds [v] at the path [p],
    below a key whose value is written as a whole (that value is not an
    object, or the stored document has no object there to merge it
    into). *)
Fixpoint written (p : list string) (base patch : json) : option json :=
  match p with
  | [] => None
  | k :: rest =>
      match patch, base with
      | JObj ov, JObj bv =>
          match Dict.get k ov with
          | None => None
          | Some v =>
              match v, Dict.get k bv with
              | JObj _, Some (JObj b') => written rest (JObj b') v
              | _, _ => get_path rest v
              end
          end
      | _, _ => None
      end
  end.

(* ================================================================== *)
(** ** Sample data used by examples *)
(* ================================================================== *)

Module Sample.

Definition cu_fields : dict :=
  [ ("invoiceNumber", JStr "INV-2026-78432");
    ("vendorName", JStr "ABC Industrial Supplies");
    ("totalAmount", JFloat (1353125 # 100));
    ("dueDate", JStr "");
    ("lineItems", JList []) ].

Definition ai_fields (next_action : json) : dict :=
  [ ("status", JStr "completed");
    ("standardizedCodes", JObj [("vendorCode", JStr "VND-ABC-001")]);
    ("nextAction", next_action);
    ("flags", JList []) ].

(** A ticket as the pipeline leaves it after stage 2. *)
Definition ticket (status : string) (next_action : json) : dict :=
  [ ("id", JStr "ZAVA-0001");
    ("ticketId", JStr "ZAVA-0001");
    ("status", JStr status);
    ("updatedAt", JStr "2026-01-22T10:30:00+00:00");
    ("extraction",
      JObj [ ("status", JStr "completed");
             ("contentUnderstanding", JObj cu_fields) ]);
    ("aiProcessing", JObj (ai_fields next_action));
    ("invoiceProcessing", JObj [("status", JStr "pending")]) ].

Definition mappings : json :=
  JObj [ ("vendor_codes",
           JObj [("mappings",
                   JObj [("ABC Industrial Supplies",
                           JObj [("vendorCode", JStr "VND-ABC-001");
                                 ("approved", JBool true)])])]) ].

(** 2026-01-22T10:31:00Z, one ticket stored, the remote function
    behaving as [script] says. *)
Definition world (doc : dict) (script : list (http_outcome * Z)) : World :=
  mkWorld {[ "ZAVA-0001" := doc ]} 1769077860000000 script [4242]
          mappings [].

(** The patch the stage-3 strict-mode error path writes. *)
Definition error_patch : dict :=
  [ ("status", JStr "error");
    ("invoiceProcessing",
      JObj [ ("status", JStr "error");
             ("errorMessage", JStr "Stage C function timed out after 240s");
             ("processingTimeMs", JInt 240000) ]) ].

(** An instance of the library interface to run examples with.
    [iso_date] reads the calendar form ["YYYY-MM-DD"] only; [repr] prints
    floats by their decimal expansion (at most 17 fractional digits) and
    strings without escapes. *)
Definition days_from_civil (y0 m d : Z) : Z :=
  let y := if m <=? 2 then y0 - 1 else y0 in
  let era := y / 400 in
  let yoe := y - era * 400 in
  let mp := if 2 <? m then m - 3 else m + 9 in
  let doy := (153 * mp + 2) / 5 + d - 1 in
  let doe := yoe * 365 + yoe / 4 - yoe / 100 + doy in
  era * 146097 + doe - 719468.

Definition digit_value (c : ascii) : option Z :=
  if PyStr.is_digit c then Some (Z.of_nat (nat_of_ascii c) - 48) else None.

Fixpoint number_value (acc : Z) (cs : list ascii) : option Z :=
  match cs with
  | [] => Some acc
  | c :: r => match digit_value c with
              | Some v => number_value (10 * acc + v) r
              | None => None
              end
  end.

Definition iso_date (s : string) : option Z :=
  match list_ascii_of_string s with
  | [y1; y2; y3; y4; "-"%char; m1; m2; "-"%char; d1; d2] =>
      match number_value 0 [y1; y2; y3; y4], number_value 0 [m1; m2],
            number_value 0 [d1; d2] with
      | Some y, Some m, Some d =>
          let day := days_from_civil y m d in
          let '(y', m', d') := Clock.civil_from_days day in
          if (1 <=? y) && (y' =? y) && (m' =? m) && (d' =? d)
          then Some day else None
      | _, _, _ => None
      end
  | _ => None
  end.

Fixpoint fraction_digits (fuel : nat) (r d : Z) : string :=
  match fuel with
  | O => EmptyString
  | S f =>
      let r10 := r * 10 in
      String (PyStr.digit_char (r10 / d))
             (if r10 mod d =? 0 then EmptyString
              else fraction_digits f (r10 mod d) d)
  end.

Definition repr_float (q : Q) : string :=
  let n := Z.abs (Qnum q) in
  let d := Z.pos (Qden q) in
  (if Qnum q <? 0 then "-" else "")
  ++ PyStr.str_int (n / d) ++ "." ++ fraction_digits 17 (n mod d) d.

Definition dquote : string := String "034"%char EmptyString.

Definition repr_str (s : string) : string :=
  if PyStr.contains "'" s && negb (PyStr.contains dquote s)
  then dquote ++ s ++ dquote else "'" ++ s ++ "'".

Fixpoint repr (v : json) : string :=
  match v with
  | JNull => "None"
  | JBool true => "True"
  | JBool false => "False"
  | JInt n => PyStr.str_int n
  | JFloat q => repr_float q
  | JStr s => repr_str s
  | JList xs => "[" ++ PyStr.join ", " (map repr xs) ++ "]"
  | JObj kvs =>
      "{" ++ PyStr.join ", "
               ((fix items (l : dict) : list string :=
                   match l with
                   | [] => []
                   | (k, x) :: r => (repr_str k ++ ": " ++ repr x) :: items r
                   end) kvs)
      ++ "}"
  end.

#[export] Instance pylib : PyLib :=
  {| py_repr := repr; fromisoformat := iso_date |}.

(** A ticket that stage 2 sent to manual review, and what the stage-3
    simulation reads off it. *)
Definition held : dict := ticket "ai_processed" (JStr "manual_review").

Definition held_inputs : invoice_processing.Inputs :=
  {| invoice_processing.invoice_number := JStr "INV-2026-78432";
     invoice_processing.vendor_name := JStr "ABC Industrial Supplies";
     invoice_processing.total_amount := JFloat (1353125 # 100);
     invoice_processing.due_date := JStr "";
     invoice_processing.next_action := JStr "manual_review" |}.

(** A ticket whose invoice is over the budget threshold and from a
    vendor the reference table does not approve. *)
Definition over_budget : dict :=
  [ ("id", JStr "ZAVA-0001");
    ("ticketId", JStr "ZAVA-0001");
    ("status", JStr "ai_processed");
    ("extraction",
      JObj [ ("status", JStr "completed");
             ("contentUnderstanding",
               JObj [ ("invoiceNumber", JStr "77");
                      ("vendorName", JStr "Unlisted Traders");
                      ("totalAmount", JInt 250000);
                      ("dueDate", JStr "next month") ]) ]);
    ("aiProcessing", JObj [("nextAction", JStr "invoice_processing")]) ].

Definition strict_mappings : json :=
  JObj [ ("vendor_codes",
           JObj [("mappings",
                   JObj [("Unlisted Traders",
                           JObj [("approved", JBool false)])])]) ].

Definition audit_world : World :=
  mkWorld {[ "ZAVA-0001" := over_budget ]} 1769077860000000 [] [4242]
          strict_mappings [].

(** The ticket stage 2 has cleared for payment, and a remote function
    that is still starting up. *)
Definition cleared : dict := ticket "ai_processed" (JStr "invoice_processing").

Definition busy : http_outcome * Z :=
  (HttpResponse 503 (NotJson "Expecting value: line 1 column 1 (char 0)"),
   5000000).

(** The text of a two-item invoice, one line per printed cell; the first
    item is printed with a zero amount. *)
Definition invoice_lines : list string :=
  [ "Acme Freight"; "INVOICE"; "12 Dock Road";
    "INVOICE NUMBER"; "PO NUMBER"; "INV-2026-78432"; "PO-2026-1150";
    "DESCRIPTION"; "CODE"; "QTY"; "UNIT PRICE"; "AMOUNT";
    "Pallet wrap"; "heavy duty"; "PKG-WRAP-01"; "2"; "$5.00"; "$0.00";
    "Truck freight"; "FRT-TRUCK-LB-"; "BT"; "10"; "$1,250.50"; "$12,505.00";
    "Subtotal:"; "$12,505.00" ].

Definition newline : string := String "010"%char EmptyString.

Definition invoice_pdf : extraction.Pdf :=
  {| extraction.byte_count := 4821;
     extraction.full_text := PyStr.join newline invoice_lines |}.

(** What the cloud analyzer returned for the same invoice, mapped into
    the result record: it reports the first amount as zero too. *)
Definition cloud_result : extraction.CuResult :=
  {| extraction.invoiceNumber := "INV-2026-78432";
     extraction.vendorName := "Acme Freight";
     extraction.vendorAddress := "12 Dock Road";
     extraction.poNumber := "PO-2026-1150";
     extraction.currency := "USD";
     extraction.lineItems :=
       [ {| extraction.description := "Pallet wrap heavy duty";
            extraction.productCode := "PKG-WRAP-01";
            extraction.quantity := 2;
            extraction.unitPrice := 5;
            extraction.amount := 0 |};
         {| extraction.description := "Truck freight";
            extraction.productCode := "FRT-TRUCK-LB-BT";
            extraction.quantity := 10;
            extraction.unitPrice := 125050 # 100;
            extraction.amount := 12505 |} ];
     extraction.error := None |}.

Definition cloud (blob_url : string) (s : Settings) : extraction.CuResult :=
  cloud_result.

(** The header block of an invoice with the labels printed in the order
    the extractor declares them, and with the first two swapped. *)
Definition header_labels : list string :=
  ["INVOICE NUMBER"; "INVOICE DATE"; "DUE DATE"].

Definition header_lines : list string :=
  [ "Acme Freight"; "INVOICE";
    "INVOICE NUMBER"; "INVOICE DATE"; "DUE DATE";
    "INV-2026-78432"; "January 22, 2026"; "February 21, 2026" ].

Definition swapped_lines : list string :=
  [ "Acme Freight"; "INVOICE";
    "INVOICE DATE"; "INVOICE NUMBER"; "DUE DATE";
    "January 22, 2026"; "INV-2026-78432"; "February 21, 2026" ].

(** A ticket fresh out of stage 1, and the answer of the remote stage-2
    function with a given next action. *)
Definition extracted : dict := ticket "extracted" JNull.

Definition stage_b_answer (next_action : string) : http_outcome * Z :=
  (HttpResponse 200
     (JsonBody
        (JObj [ ("ticketId", JStr "ZAVA-0001");
                ("status", JStr "ai_processed");
                ("agentOutput",
                  JObj [ ("summary", JStr "Invoice INV-2026-78432.");
                         ("next_action", JStr next_action) ]) ])),
   3000000).

(** A stand-in for the stage-2 local simulation, for runs that do not
    reach it. *)
Definition no_simulation (ticket : dict) (ticket_id : string) : M dict :=
  raise (PyError "not reached").

(** The shape of what the stage-2 local simulation returns: the next
    action sits inside the [aiProcessing] record. *)
Definition simulated_ai_result : dict :=
  [ ("success", JBool true);
    ("status", JStr "ai_processed");
    ("aiProcessing",
      JObj [ ("status", JStr "completed");
             ("nextAction", JStr "invoice_processing");
             ("flags", JList []) ]) ].

(** An interpreter before Python 3.12. *)
#[export] Instance interpreter : Interpreter :=
  {| dict_slice_error := "unhashable type: 'slice'" |}.

(** A reference file with the four tables of [code_mappings.json]. *)
Definition reference : json :=
  JObj [ ("vendor_codes",
           JObj [("mappings",
                   JObj [ ("ABC Industrial Supplies",
                            JObj [ ("vendorCode", JStr "VND-ABC-001");
                                   ("approved", JBool true) ]);
                          ("Unlisted Traders",
                            JObj [ ("vendorCode", JStr "VND-UNL-009");
                                   ("approved", JBool false) ]) ])]);
         ("product_codes",
           JObj [("mappings",
                   JObj [ ("PKG-WRAP-01",
                            JObj [ ("standardCode", JStr "ZAVA-PKG-0001");
                                   ("category", JStr "Packaging");
                                   ("expectedPriceRange",
                                     JObj [ ("min", JInt 2);
                                            ("max", JInt 20) ]) ]) ])]);
         ("department_codes",
           JObj [("mappings",
                   JObj [ ("Packaging",
                            JObj [ ("departmentCode", JStr "PROC-PKG-010");
                                   ("costCenter", JStr "CC-1010") ]) ])]);
         ("action_codes",
           JObj [("mappings",
                   JObj [ ("valid_invoice_all_checks_pass",
                            JObj [ ("nextAction", JStr "invoice_processing");
                                   ("description",
                                     JStr "Proceed to invoice processing") ]);
                          ("hazardous_materials_present",
                            JObj [ ("nextAction", JStr "manual_review");
                                   ("description",
                                     JStr "Route to EHS review") ]) ])]) ].

(** A ticket fresh out of stage 1 with one line item, flagged as
    hazardous. *)
Definition hazardous_ticket : dict :=
  [ ("id", JStr "ZAVA-0001");
    ("ticketId", JStr "ZAVA-0001");
    ("status", JStr "extracted");
    ("extraction",
      JObj [ ("status", JStr "completed");
             ("contentUnderstanding",
               JObj [ ("invoiceNumber", JStr "INV-2026-78432");
                      ("vendorName", JStr "ABC Industrial Supplies");
                      ("totalAmount", JFloat (1353125 # 100));
                      ("subtotal", JInt 10);
                      ("dueDate", JStr "");
                      ("hazardousFlag", JBool true);
                      ("lineItems",
                        JList [ JObj [ ("description", JStr "Pallet wrap");
                                       ("productCode", JStr "PKG-WRAP-01");
                                       ("quantity", JInt 2);
                                       ("unitPrice", JInt 5);
                                       ("amount", JInt 10) ] ]) ]) ]);
    ("invoiceProcessing", JObj [("status", JStr "pending")]) ].

(** A development deployment: no remote stage functions. *)
Definition local_settings : Settings :=
  {| app_env := "development";
     content_understanding_endpoint := "";
     content_understanding_key := "";
     azure_client_id := "";
     stage_b_function_url := "http://localhost:7074/api/process-ticket";
     stage_b_function_key := "";
     stage_c_function_url := "http://localhost:7075/api/process-invoice";
     stage_c_function_key := "";
     disable_simulation_fallback := false |}.

(** A deployment with the cloud extraction configured, and one
    without. *)
Definition cloud_settings : Settings :=
  {| app_env := "production";
     content_understanding_endpoint := "https://zava-ai.example.net";
     content_understanding_key := "k3y";
     azure_client_id := "";
     stage_b_function_url := "https://zava-stage-b.example.net";
     stage_b_function_key := "";
     stage_c_function_url := "https://zava-stage-c.example.net";
     stage_c_function_key := "k3y";
     disable_simulation_fallback := false |}.

(** A deployment that reaches the remote stage functions. *)
Definition settings (strict : bool) : Settings :=
  {| app_env := "production";
     content_understanding_endpoint := "";
     content_understanding_key := "";
     azure_client_id := "";
     stage_b_function_url := "https://zava-stage-b.example.net";
     stage_b_function_key := "";
     stage_c_function_url := "https://zava-stage-c.example.net";
     stage_c_function_key := "k3y";
     disable_simulation_fallback := strict |}.

End Sample.

(* ================================================================== *)
(** * Properties *)
(* ================================================================== *)

(** ** Sanity checks of the primitives *)

Example strip_ex : PyStr.strip "  Invoice Number 	" = "Invoice Number".
Proof. reflexivity. Qed.

Example upper_ex : PyStr.upper "Po Number-7" = "PO NUMBER-7".
Proof. reflexivity. Qed.

Example split_lines_ex :
  PyStr.split_lines (String "a" (String "010" (String "010" "b")))
  = ["a"; ""; "b"].
Proof. reflexivity. Qed.

Example str_int_ex : PyStr.str_int 503 = "503" /\ PyStr.str_int 0 = "0"
                     /\ PyStr.str_int (-240) = "-240"
                     /\ PyStr.str_int 100000 = "100000".
Proof. repeat split; reflexivity. Qed.

Example isoformat_ex :
  Clock.isoformat 1769077800000000 = "2026-01-22T10:30:00+00:00"
  /\ Clock.isoformat 951782400000123 = "2000-02-29T00:00:00.000123+00:00"
  /\ Clock.fmt_date "" (Clock.day_of 1769077800000000 + 40) = "20260303".
Proof. repeat split; reflexivity. Qed.

Example format_money_ex :
  Py.format_money (1353125 # 100) = "13,531.25"
  /\ Py.format_money (250000000 # 1) = "250,000,000.00"
  /\ Py.format_money (-(1 # 1000)) = "-0.00"
  /\ Py.format_money (5 # 1000) = "0.00"
  /\ Py.format_money (15 # 1000) = "0.02"
  /\ Py.format_money (1000 # 1) = "1,000.00"
  /\ Py.format_money 0 = "0.00".
Proof. repeat split; reflexivity. Qed.

Example round2_ex :
  (Py.round2 (3 * (1999 # 100)) == 5997 # 100)%Q
  /\ (Py.round2 (7 * (1 # 3)) == 233 # 100)%Q.
Proof. split; reflexivity. Qed.

(** ** Dictionaries *)

Section DictFacts.

Context {V : Type}.
Implicit Types (d : list (string * V)) (v : V).

Lemma get_set_eq k v d : Dict.get k (Dict.set k v d) = Some v.
Proof.
  induction d as [|[k' v'] r IH]; simpl.
  - now rewrite String.eqb_refl.
  - destruct (String.eqb k k') eqn:E; simpl; rewrite E; auto.
Qed.

Lemma get_set_ne k k' v d :
  k <> k' -> Dict.get k (Dict.set k' v d) = Dict.get k d.
Proof.
  intros Hne. induction d as [|[k0 v0] r IH]; simpl.
  - destruct (String.eqb_spec k k'); congruence.
  - destruct (String.eqb_spec k' k0); simpl.
    + subst. destruct (String.eqb_spec k k0); congruence.
    + destruct (String.eqb_spec k k0); auto.
Qed.

Lemma keys_set_mem k v d :
  Dict.mem k d = true -> Dict.keys (Dict.set k v d) = Dict.keys d.
Proof.
  unfold Dict.mem, Dict.keys.
  induction d as [|[k0 v0] r IH]; simpl; [discriminate|].
  destruct (String.eqb_spec k k0); simpl; auto.
  intros H. now rewrite IH.
Qed.

Lemma existsb_eqb_false k (ks : list string) :
  existsb (String.eqb k) ks = false <-> ~ In k ks.
Proof.
  induction ks as [|a r IH]; simpl; [tauto|].
  rewrite orb_false_iff, IH.
  destruct (String.eqb_spec k a); split; intros; intuition congruence.
Qed.

Lemma get_none_iff k d : Dict.get k d = None <-> ~ In k (Dict.keys d).
Proof.
  unfold Dict.keys. induction d as [|[k0 v0] r IH]; simpl; [tauto|].
  destruct (String.eqb_spec k k0); subst.
  - split; [discriminate | intros H; exfalso; apply H; now left].
  - rewrite IH. intuition congruence.
Qed.

End DictFacts.

Lemma merge_value_obj bv ov :
  memory_store.merge_value (Some (JObj bv)) (JObj ov)
  = JObj (memory_store._deep_merge bv ov).
Proof. reflexivity. Qed.

(** ** The document store: deep merge *)

Section DeepMerge.

Import memory_store.

Lemma deep_merge_get_notin k overlay : forall base,
  Dict.get k overlay = None ->
  Dict.get k (_deep_merge base overlay) = Dict.get k base.
Proof.
  induction overlay as [|[k0 v0] rest IH]; intros base; simpl; [reflexivity|].
  destruct (String.eqb_spec k k0); [discriminate|].
  intros H. rewrite IH by assumption. now apply get_set_ne.
Qed.

Lemma deep_merge_get_in k v overlay : forall base,
  nodup_keys (map fst overlay) = true ->
  Dict.get k overlay = Some v ->
  Dict.get k (_deep_merge base overlay)
  = Some (merge_value (Dict.get k base) v).
Proof.
  induction overlay as [|[k0 v0] rest IH]; intros base; simpl; [discriminate|].
  rewrite andb_true_iff, negb_true_iff, existsb_eqb_false.
  intros [Hnotin Hnd].
  destruct (String.eqb_spec k k0) as [->|Hne]; intros Hget.
  - injection Hget as ->.
    rewrite deep_merge_get_notin by now apply get_none_iff.
    apply get_set_eq.
  - rewrite (IH _ Hnd Hget). now rewrite get_set_ne.
Qed.

Lemma wf_dict_nodup d : wf_dict d = true -> nodup_keys (map fst d) = true.
Proof. unfold wf_dict. simpl. now intros [? _]%andb_true_iff. Qed.

Lemma wf_dict_get d k v :
  wf_dict d = true -> Dict.get k d = Some v -> wf_json v = true.
Proof.
  unfold wf_dict. simpl. intros [_ H]%andb_true_iff. revert H.
  induction d as [|[k0 v0] r IH]; simpl; [discriminate|].
  intros [H0 Hr]%andb_true_iff.
  destruct (String.eqb k k0); [now intros [= <-] | now apply IH].
Qed.

(** Frame: a path the patch does not mention reads the same after the
    merge. *)
Lemma deep_merge_frame p : forall base patch,
  wf_dict patch = true ->
  untouched p (JObj base) (JObj patch) = true ->
  get_path p (JObj (_deep_merge base patch)) = get_path p (JObj base).
Proof.
  induction p as [|k rest IH]; intros base patch Hwf; simpl; [discriminate|].
  destruct (Dict.get k patch) as [v|] eqn:Hk.
  - destruct v; try discriminate.
    destruct (Dict.get k base) as [[| | | | | |b']|] eqn:Hb; try discriminate.
    intros Hu.
    rewrite (deep_merge_get_in k (JObj kvs) patch base
               (wf_dict_nodup _ Hwf) Hk), Hb, merge_value_obj.
    apply IH; [|assumption].
    exact (wf_dict_get _ _ _ Hwf Hk).
  - intros _. now rewrite deep_merge_get_notin.
Qed.

(** A value the patch writes as a whole is what the merged document
    holds. *)
Lemma deep_merge_written p : forall base patch v,
  wf_dict patch = true ->
  written p (JObj base) (JObj patch) = Some v ->
  get_path p (JObj (_deep_merge base patch)) = Some v.
Proof.
  induction p as [|k rest IH]; intros base patch v Hwf; simpl; [discriminate|].
  destruct (Dict.get k patch) as [x|] eqn:Hk; [|discriminate].
  rewrite (deep_merge_get_in k x patch base (wf_dict_nodup _ Hwf) Hk).
  pose proof (wf_dict_get _ _ _ Hwf Hk) as Hx.
  destruct x as [| | | | | |ov]; try (intros Hw; exact Hw).
  destruct (Dict.get k base) as [[| | | | | |b']|] eqn:Hb;
    try (intros Hw; exact Hw).
  intros Hw. rewrite merge_value_obj. now apply IH.
Qed.

End DeepMerge.

Section UpdateTicket.

Import memory_store.

Lemma get_path_set_other p k x d :
  hd_error p <> Some k -> p <> [] ->
  get_path p (JObj (Dict.set k x d)) = get_path p (JObj d).
Proof.
  destruct p as [|k0 rest]; [congruence|]. simpl. intros Hne _.
  rewrite get_set_ne; [reflexivity | congruence].
Qed.

(** An update of an unknown id changes nothing and reports absence. *)
Lemma update_ticket_absent ticket_id patch w :
  tickets w !! ticket_id = None ->
  update_ticket ticket_id patch w = (Ret None, w).
Proof. unfold update_ticket. now intros ->. Qed.

Lemma update_ticket_merge
    (ticket_id : string) (patch stored : dict) (w : World) :
  tickets w !! ticket_id = Some stored ->
  wf_dict patch = true ->
  exists doc',
    update_ticket ticket_id patch w
    = (Ret (Some doc'),
       with_tickets (<[ticket_id := doc']> (tickets w)) w)
    /\ (forall p, hd_error p <> Some "updatedAt" ->
          untouched p (JObj stored) (JObj patch) = true ->
          get_path p (JObj doc') = get_path p (JObj stored))
    /\ (forall p v, hd_error p <> Some "updatedAt" ->
          written p (JObj stored) (JObj patch) = Some v ->
          get_path p (JObj doc') = Some v)
    /\ Dict.get "updatedAt" doc' = Some (JStr (Clock.isoformat (clock w))).
Proof.
  intros Hst Hwf. unfold update_ticket. rewrite Hst.
  eexists. split; [reflexivity|]. split; [|split].
  - intros p Hp Hu.
    rewrite get_path_set_other; [now apply deep_merge_frame | assumption |].
    destruct p; [discriminate | congruence].
  - intros p v Hp Hw.
    rewrite get_path_set_other; [now apply deep_merge_written | assumption |].
    destruct p; [discriminate | congruence].
  - apply get_set_eq.
Qed.




End UpdateTicket.

(** ** Stage 3: the local simulation *)

Example iso_date_ex :
  Sample.iso_date "2026-02-21" = Some 20505
  /\ Sample.iso_date "2026-02-30" = None
  /\ Sample.iso_date "February 21, 2026" = None
  /\ Clock.fmt_date "-" 20505 = "2026-02-21".
Proof. repeat split; reflexivity. Qed.

Example repr_ex :
  Sample.repr (JObj [("a", JList [JFloat (5 # 2); JNull; JStr "x"])])
  = "{'a': [2.5, None, 'x']}".
Proof. reflexivity. Qed.

(** ** The remote stage caller *)

Lemma http_post_step url key tid w o dt rest :
  remote w = (o, dt) :: rest ->
  http_post url key tid w
  = (match o with
     | HttpResponse status body => Ret (status, body)
     | HttpTimeout msg => Raise (TimeoutException msg)
     | HttpConnectError msg => Raise (ConnectError msg)
     | HttpFailure msg => Raise (PyError msg)
     end,
     posted (EvPost url key tid) dt rest w).
Proof.
  intros Hr. unfold http_post, bind, log_event. cbn. rewrite Hr.
  destruct o; reflexivity.
Qed.

Lemma http_post_nobody url key tid w :
  remote w = [] ->
  http_post url key tid w
  = (Raise (ConnectError "All connection attempts failed"),
     mkWorld (tickets w) (clock w) [] (randoms w) (code_mappings w)
             (trace w ++ [EvPost url key tid])).
Proof.
  intros Hr. unfold http_post, bind, log_event. cbn. now rewrite Hr.
Qed.

Lemma sleep_step seconds w : sleep seconds w = (Ret tt, slept seconds w).
Proof. reflexivity. Qed.

Lemma get_ticket_found ticket_id w ticket :
  tickets w !! ticket_id = Some ticket -> ticket <> [] ->
  storage.get_ticket ticket_id w = (Ret (Some ticket), w).
Proof.
  intros Hs Hne. unfold storage.get_ticket, memory_store.get_ticket.
  rewrite Hs. destruct ticket; [congruence | reflexivity].
Qed.

Lemma get_ticket_world ticket_id w :
  snd (storage.get_ticket ticket_id w) = w.
Proof.
  unfold storage.get_ticket, memory_store.get_ticket.
  now destruct (tickets w !! ticket_id).
Qed.

Section RemoteStage.

Import remote_stage.
Context `{PyLib}.

Variables (st : Stage) (settings : Settings) (ticket_id : string).
Variables (w : World) (ticket : dict).

(** The ticket is stored, its status passes the guard and the settings
    send the call to the network. *)
Hypothesis Hstored : tickets w !! ticket_id = Some ticket.
Hypothesis Hnonempty : ticket <> [].
Hypothesis Hguard : guard_rejects st (status_of ticket) = false.
Hypothesis Hremote : uses_remote st settings = true.

Lemma trigger_calls_remote :
  trigger st settings ticket_id w
  = try_catch (call_remote st settings ticket ticket_id (clock w))
              (handle st ticket ticket_id (clock w)) w.
Proof using Hstored Hnonempty Hguard Hremote.
  unfold trigger, bind at 1, perf_counter. unfold bind at 1.
  rewrite (get_ticket_found _ _ _ Hstored Hnonempty), Hguard.
  unfold uses_remote in Hremote.
  apply andb_true_iff in Hremote as [Hurl Hdev].
  rewrite Hurl. cbn [negb].
  apply negb_true_iff in Hdev. now rewrite Hdev.
Qed.

Variables (dt1 : Z) (script : list (http_outcome * Z)).

Local Abbreviation w1 := (after_first_post st settings ticket_id dt1 script w).
Local Abbreviation second := (second_post st settings ticket_id dt1 script w).

Lemma post_first o :
  remote w = (o, dt1) :: script ->
  post st settings ticket_id w
  = (match o with
     | HttpResponse status body => Ret (status, body)
     | HttpTimeout msg => Raise (TimeoutException msg)
     | HttpConnectError msg => Raise (ConnectError msg)
     | HttpFailure msg => Raise (PyError msg)
     end, w1).
Proof. intros Hr. unfold post. now rewrite (http_post_step _ _ _ _ _ _ _ Hr). Qed.

Lemma second_world :
  trace (snd second)
  = (trace w ++ [post_event st settings ticket_id; EvSleep (retry_delay st);
                 post_event st settings ticket_id])%list
  /\ tickets (snd second) = tickets w
  /\ remote (snd second) = tl script.
Proof.
  unfold second_post, after_first_post, post, http_post, bind, log_event. cbn.
  destruct script as [|[o dt] rest]; cbn.
  - now rewrite <- !app_assoc.
  - destruct o; cbn; now rewrite <- !app_assoc.
Qed.

(** The retry hands back the success result exactly when it was answered
    200 with a JSON object. *)
Lemma retry_once_spec :
  retry_once st settings ticket_id (clock w) w1
  = (Ret match fst second with
         | Ret (200, JsonBody (JObj result)) =>
             Some (Dict.update [("success", JBool true)]
                     (Dict.set "processingTimeMs"
                        (JInt ((clock (snd second) - clock w) / 1000)) result))
         | _ => None
         end,
     snd second).
Proof.
  unfold retry_once, bind at 1. rewrite sleep_step.
  unfold try_catch, bind at 1. fold (second_post st settings ticket_id dt1 script w).
  destruct second as [[[s2 b2]|e] w3]; cbn [fst snd]; [|reflexivity].
  destruct (Z.eqb_spec s2 200) as [->|Hne].
  - unfold bind, elapsed_ms, perf_counter, bind, ret. cbn.
    destruct b2 as [[| | | | | |result]|]; reflexivity.
  - unfold ret. f_equal.
    destruct s2 as [|p|p]; try reflexivity.
    do 8 (destruct p; try reflexivity). congruence.
Qed.

(** What the [try] block does with a response to the first post. *)
Lemma call_remote_response s b1 :
  remote w = (HttpResponse s b1, dt1) :: script ->
  call_remote st settings ticket ticket_id (clock w) w
  = if s =? 200 then success_of b1 ((clock w1 - clock w) / 1000) w1
    else if s =? 404 then
      (Ret (failure (JStr "Ticket not found by processing function")), w1)
    else if s =? 409 then conflict_of b1 w1
    else if s =? 503 then
      match fst second with
      | Ret (200, JsonBody (JObj result)) =>
          (Ret (Dict.update [("success", JBool true)]
                  (Dict.set "processingTimeMs"
                     (JInt ((clock (snd second) - clock w) / 1000)) result)),
           snd second)
      | _ => fallback_or_error st settings ticket ticket_id (clock w) 503
               (snd second)
      end
    else fallback_or_error st settings ticket ticket_id (clock w) s w1.
Proof.
  intros Hr. unfold call_remote, bind at 1. rewrite (post_first _ Hr).
  unfold bind at 1, elapsed_ms, bind at 1, perf_counter, ret at 1.
  destruct (s =? 200); [reflexivity|].
  destruct (s =? 404); [reflexivity|].
  destruct (s =? 409); [reflexivity|].
  destruct (Z.eqb_spec s 503) as [->|Hne].
  - unfold bind at 1. rewrite retry_once_spec.
    destruct (fst second) as [[s2 [[| | | | | |result]|]]|e]; try reflexivity;
      destruct s2 as [|p|p]; try reflexivity;
      do 8 (destruct p; try reflexivity).
  - reflexivity.
Qed.

(** The write of the error paths, on a world that still holds the
    ticket. *)
Lemma persist_error_spec msg elapsed w' :
  record_field st <> "status" -> record_field st <> "updatedAt" ->
  tickets w' !! ticket_id = Some ticket ->
  exists doc',
    persist_error st ticket_id msg elapsed w'
    = (Ret (Some doc'), with_tickets (<[ticket_id := doc']> (tickets w')) w')
    /\ get_path ["status"] (JObj doc') = Some (JStr "error")
    /\ get_path [record_field st; "status"] (JObj doc') = Some (JStr "error")
    /\ get_path [record_field st; "errorMessage"] (JObj doc')
       = Some (JStr msg).
Proof.
  intros Hf1 Hf2 Hs. unfold persist_error, storage.update_ticket.
  assert (Hne : String.eqb (record_field st) "status" = false)
    by now apply String.eqb_neq.
  assert (Hne' : String.eqb "status" (record_field st) = false)
    by (apply String.eqb_neq; congruence).
  edestruct (update_ticket_merge ticket_id) as (doc' & Heq & _ & Hw & _);
    [exact Hs | | exists doc'; split; [exact Heq|]].
  - unfold wf_dict. cbn -[String.eqb]. now rewrite Hne'.
  - repeat split; apply Hw; cbn -[String.eqb]; try congruence;
      rewrite ?Hne, ?String.eqb_refl; try reflexivity;
      destruct (Dict.get (record_field st) ticket) as [[| | | | | |b']|];
      cbn -[String.eqb]; rewrite ?String.eqb_refl; reflexivity.
Qed.

(** Giving up on the remote function: in strict mode the error is
    persisted and reported, otherwise the local simulation runs (still
    inside the [try] block). *)
Lemma fallback_or_error_spec s w' :
  record_field st <> "status" -> record_field st <> "updatedAt" ->
  tickets w' !! ticket_id = Some ticket ->
  (disable_simulation_fallback settings = true ->
     exists doc',
       try_catch (fallback_or_error st settings ticket ticket_id (clock w) s)
                 (handle st ticket ticket_id (clock w)) w'
       = (Ret (failure (JStr (strict_message st s))),
          with_tickets (<[ticket_id := doc']> (tickets w')) w')
       /\ get_path ["status"] (JObj doc') = Some (JStr "error")
       /\ get_path [record_field st; "errorMessage"] (JObj doc')
          = Some (JStr (strict_message st s)))
  /\ (disable_simulation_fallback settings = false ->
        try_catch (fallback_or_error st settings ticket ticket_id (clock w) s)
                  (handle st ticket ticket_id (clock w)) w'
        = try_catch (simulate st ticket ticket_id)
                    (handle st ticket ticket_id (clock w)) w').
Proof.
  intros Hf1 Hf2 Hs. unfold fallback_or_error. split; intros ->; [|reflexivity].
  destruct (persist_error_spec (strict_message st s)
              ((clock w' - clock w) / 1000) w' Hf1 Hf2 Hs)
    as (doc' & Heq & Hst & _ & Hmsg).
  exists doc'. split; [|now split].
  unfold try_catch, bind at 1, elapsed_ms, bind at 1, perf_counter, ret at 1.
  unfold bind at 1. now rewrite Heq.
Qed.

(** The handler of a timeout persists the error whatever the settings;
    the handler of a connection failure runs the local simulation. *)
Lemma handle_timeout_spec msg w' :
  record_field st <> "status" -> record_field st <> "updatedAt" ->
  tickets w' !! ticket_id = Some ticket ->
  exists doc',
    handle st ticket ticket_id (clock w) (TimeoutException msg) w'
    = (Ret (failure (JStr (timeout_message st))),
       with_tickets (<[ticket_id := doc']> (tickets w')) w')
    /\ get_path ["status"] (JObj doc') = Some (JStr "error")
    /\ get_path [record_field st; "errorMessage"] (JObj doc')
       = Some (JStr (timeout_message st)).
Proof.
  intros Hf1 Hf2 Hs.
  destruct (persist_error_spec (timeout_message st)
              ((clock w' - clock w) / 1000) w' Hf1 Hf2 Hs)
    as (doc' & Heq & Hst & _ & Hmsg).
  exists doc'. split; [|now split].
  unfold handle, bind at 1, elapsed_ms, bind at 1, perf_counter, ret at 1.
  unfold bind at 1. now rewrite Heq.
Qed.

End RemoteStage.

Lemma pipeline_stage_fields `{PyLib} st :
  pipeline_stage st ->
  remote_stage.record_field st <> "status"
  /\ remote_stage.record_field st <> "updatedAt"
  /\ remote_stage.retry_delay st = 10
  /\ remote_stage.timeout_seconds st = 240.
Proof. intros [[sim ->] | ->]; repeat split; discriminate. Qed.

(** ** Claims on the stage triggers *)

Section TriggerClaims.

Import remote_stage.
Context `{PyLib}.

(** C3 (as amended). On the remote path of stage 2 and of stage 3, a
    first response that is not 200, 404 or 409 is handled as follows. A
    503 is followed by the cooldown and exactly one more post; when that
    retry is answered 200 with a JSON object, the object is returned as
    the success result. When the retry fails in any way, and when the
    first status is any other one, the caller gives up where it stands,
    without a further post: in strict mode it persists status [error]
    with the message and returns failure, otherwise it runs the local
    simulation. *)
Theorem retry_once_then_fallback
    (st : Stage) (settings : Settings) (ticket_id : string) (w : World)
    (ticket : dict) (s : Z) (b1 : http_body) (dt1 : Z)
    (script : list (http_outcome * Z)) :
  pipeline_stage st ->
  tickets w !! ticket_id = Some ticket ->
  ticket <> [] ->
  guard_rejects st (status_of ticket) = false ->
  uses_remote st settings = true ->
  remote w = (HttpResponse s b1, dt1) :: script ->
  s <> 200 -> s <> 404 -> s <> 409 ->
  let w1 := after_first_post st settings ticket_id dt1 script w in
  let second := second_post st settings ticket_id dt1 script w in
  let resort :=
    try_catch (fallback_or_error st settings ticket ticket_id (clock w) s)
              (handle st ticket ticket_id (clock w)) in
  (* 503: one cooldown, one retry *)
  (s = 503 ->
     retry_delay st = 10
     /\ trace (snd second)
        = (trace w ++ [post_event st settings ticket_id; EvSleep 10;
                       post_event st settings ticket_id])%list
     /\ tickets (snd second) = tickets w
     /\ (forall result,
           fst second = Ret (200, JsonBody (JObj result)) ->
           trigger st settings ticket_id w
           = (Ret (Dict.update [("success", JBool true)]
                     (Dict.set "processingTimeMs"
                        (JInt ((clock (snd second) - clock w) / 1000))
                        result)),
              snd second))
     /\ ((forall result, fst second <> Ret (200, JsonBody (JObj result))) ->
           trigger st settings ticket_id w = resort (snd second)))
  (* any other status: no retry *)
  /\ (s <> 503 ->
        trace w1 = (trace w ++ [post_event st settings ticket_id])%list
        /\ tickets w1 = tickets w
        /\ trigger st settings ticket_id w = resort w1)
  (* giving up: strict error, or the local simulation *)
  /\ (forall w', tickets w' = tickets w ->
        (disable_simulation_fallback settings = true ->
           exists doc',
             resort w'
             = (Ret (failure (JStr (strict_message st s))),
                with_tickets (<[ticket_id := doc']> (tickets w')) w')
             /\ get_path ["status"] (JObj doc') = Some (JStr "error")
             /\ get_path [record_field st; "errorMessage"] (JObj doc')
                = Some (JStr (strict_message st s)))
        /\ (disable_simulation_fallback settings = false ->
              resort w'
              = try_catch (simulate st ticket ticket_id)
                          (handle st ticket ticket_id (clock w)) w')).
Proof.
  intros Hst Hstored Hne Hguard Hremote Hscript H200 H404 H409 w1 second resort.
  destruct (pipeline_stage_fields st Hst) as (Hf1 & Hf2 & Hdelay & _).
  pose proof (trigger_calls_remote st settings ticket_id w ticket
                Hstored Hne Hguard Hremote) as Htrig.
  pose proof (call_remote_response st settings ticket_id w ticket dt1 script
                s b1 Hscript) as Hcall.
  apply Z.eqb_neq in H200, H404, H409.
  rewrite H200, H404, H409 in Hcall.
  split; [|split].
  - intros ->. cbn [Z.eqb Pos.eqb] in Hcall.
    destruct (second_world st settings ticket_id w dt1 script)
      as (Htrace & Htickets & _).
    rewrite Hdelay in Htrace.
    repeat split; try assumption.
    + intros result Hres. rewrite Htrig. unfold try_catch. rewrite Hcall.
      unfold second in Hres. now rewrite Hres.
    + intros Hfail. rewrite Htrig. unfold resort, try_catch at 1 2.
      rewrite Hcall. unfold second in Hfail |- *.
      destruct (fst (second_post st settings ticket_id dt1 script w))
        as [[s2 b2]|e] eqn:E; [|reflexivity].
      destruct (Z.eqb_spec s2 200) as [->|Hs2].
      * destruct b2 as [[| | | | | |result]|]; try reflexivity.
        now destruct (Hfail result).
      * destruct s2 as [|p|p]; try reflexivity.
        do 8 (destruct p; try reflexivity). congruence.
  - intros Hs. apply Z.eqb_neq in Hs. rewrite Hs in Hcall.
    repeat split. rewrite Htrig. unfold resort, try_catch at 1 2.
    now rewrite Hcall.
  - intros w' Hw'. apply fallback_or_error_spec; try assumption.
    now rewrite Hw'.
Qed.

(** C4 (as amended). On the remote path of stage 2 and of stage 3, when
    the first post times out the caller persists status [error] with
    the timeout message and returns failure, whatever the strict-mode
    flag and without running the local simulation; when the first post
    cannot connect, the caller runs the local simulation and writes
    nothing itself. *)
Theorem first_post_timeout_or_connect_error
    (st : Stage) (settings : Settings) (ticket_id : string) (w : World)
    (ticket : dict) (dt1 : Z) (script : list (http_outcome * Z))
    (msg : string) :
  pipeline_stage st ->
  tickets w !! ticket_id = Some ticket ->
  ticket <> [] ->
  guard_rejects st (status_of ticket) = false ->
  uses_remote st settings = true ->
  let w1 := after_first_post st settings ticket_id dt1 script w in
  (remote w = (HttpTimeout msg, dt1) :: script ->
     exists doc',
       trigger st settings ticket_id w
       = (Ret (failure (JStr (timeout_message st))),
          with_tickets (<[ticket_id := doc']> (tickets w)) w1)
       /\ timeout_message st
          = "Stage " ++ letter st ++ " function timed out after 240s"
       /\ get_path ["status"] (JObj doc') = Some (JStr "error")
       /\ get_path [record_field st; "errorMessage"] (JObj doc')
          = Some (JStr (timeout_message st)))
  /\ (remote w = (HttpConnectError msg, dt1) :: script ->
        trigger st settings ticket_id w = simulate st ticket ticket_id w1
        /\ tickets w1 = tickets w).
Proof.
  intros Hst Hstored Hne Hguard Hremote w1.
  destruct (pipeline_stage_fields st Hst) as (Hf1 & Hf2 & _ & Htimeout).
  pose proof (trigger_calls_remote st settings ticket_id w ticket
                Hstored Hne Hguard Hremote) as Htrig.
  split; intros Hscript.
  - destruct (handle_timeout_spec st ticket_id w ticket msg w1 Hf1 Hf2)
      as (doc' & Heq & Hstatus & Hmsg); [exact Hstored|].
    exists doc'. repeat split; try assumption.
    + rewrite Htrig. unfold try_catch, call_remote, bind at 1.
      rewrite (post_first st settings ticket_id w dt1 script _ Hscript).
      exact Heq.
    + unfold timeout_message. now rewrite Htimeout.
  - split; [|reflexivity].
    rewrite Htrig. unfold try_catch, call_remote, bind at 1.
    now rewrite (post_first st settings ticket_id w dt1 script _ Hscript).
Qed.

(** The guard, for a stored ticket whose status is [v]. *)
Lemma guard_rejects_iff (st : Stage) (v : json) :
  guard_rejects st v = true
  <-> forall s, In s (accepted st) -> v <> JStr s.
Proof.
  unfold guard_rejects. rewrite negb_true_iff.
  induction (accepted st) as [|a r IH]; simpl.
  - split; [intros _ s [] | reflexivity].
  - rewrite orb_false_iff, IH. split.
    + intros [Ha Hr] s [<-|Hin]; [|now apply Hr].
      intros ->. simpl in Ha. now rewrite String.eqb_refl in Ha.
    + intros Hall. split; [|intros s Hin; apply Hall; now right].
      destruct v; try reflexivity. simpl.
      apply String.eqb_neq. intros ->. now apply (Hall a); [left|].
Qed.

Lemma trigger_rejected (st : Stage) settings ticket_id w ticket :
  tickets w !! ticket_id = Some ticket ->
  guard_rejects st (status_of ticket) = true ->
  exists r msg,
    trigger st settings ticket_id w = (Ret r, w)
    /\ Dict.get "success" r = Some (JBool false)
    /\ Dict.get "error" r = Some (JStr msg).
Proof.
  intros Hstored Hrej. unfold trigger, bind at 1, perf_counter.
  unfold bind at 1, storage.get_ticket, memory_store.get_ticket.
  rewrite Hstored. destruct ticket as [|kv rest].
  - eexists _, _. repeat split; reflexivity.
  - cbn [truthy]. rewrite Hrej. eexists _, _. repeat split; reflexivity.
Qed.

Lemma trigger_accepted (st : Stage) settings ticket_id w ticket :
  tickets w !! ticket_id = Some ticket ->
  ticket <> [] ->
  guard_rejects st (status_of ticket) = false ->
  trigger st settings ticket_id w
  = if uses_remote st settings
    then try_catch (call_remote st settings ticket ticket_id (clock w))
                   (handle st ticket ticket_id (clock w)) w
    else simulate st ticket ticket_id w.
Proof.
  intros Hstored Hne Hguard.
  destruct (uses_remote st settings) eqn:Hremote.
  - now apply trigger_calls_remote.
  - unfold trigger, bind at 1, perf_counter. unfold bind at 1.
    rewrite (get_ticket_found _ _ _ Hstored Hne), Hguard.
    unfold uses_remote in Hremote.
    destruct (nonempty (function_url st settings)); [|reflexivity].
    cbn [negb andb] in Hremote |- *.
    apply negb_false_iff in Hremote. now rewrite Hremote.
Qed.

(** C6. For a stored ticket, [trigger_ai_processing] goes on exactly when
    the status is one of [extracted], [ai_processing], [error], and
    [trigger_invoice_processing] exactly when it is one of
    [ai_processed], [invoice_processing], [error]. Any other status is
    answered with a failure result that carries an error message, and
    the world (the stored tickets included) is left as it was. *)
Theorem trigger_status_guard
    (sim : dict -> string -> M dict) (settings : Settings)
    (ticket_id : string) (w : World) (ticket : dict) :
  tickets w !! ticket_id = Some ticket ->
  ticket <> [] ->
  ((forall s, In s ["extracted"; "ai_processing"; "error"] ->
              status_of ticket <> JStr s) ->
     exists r msg,
       ai_processing.trigger_ai_processing sim settings ticket_id w = (Ret r, w)
       /\ Dict.get "success" r = Some (JBool false)
       /\ Dict.get "error" r = Some (JStr msg))
  /\ ((exists s, In s ["extracted"; "ai_processing"; "error"]
                 /\ status_of ticket = JStr s) ->
        ai_processing.trigger_ai_processing sim settings ticket_id w
        = if uses_remote (ai_processing.stage_b sim) settings
          then try_catch
                 (call_remote (ai_processing.stage_b sim) settings ticket
                    ticket_id (clock w))
                 (handle (ai_processing.stage_b sim) ticket ticket_id (clock w))
                 w
          else sim ticket ticket_id w)
  /\ ((forall s, In s ["ai_processed"; "invoice_processing"; "error"] ->
                 status_of ticket <> JStr s) ->
        exists r msg,
          invoice_processing.trigger_invoice_processing settings ticket_id w
          = (Ret r, w)
          /\ Dict.get "success" r = Some (JBool false)
          /\ Dict.get "error" r = Some (JStr msg))
  /\ ((exists s, In s ["ai_processed"; "invoice_processing"; "error"]
                 /\ status_of ticket = JStr s) ->
        invoice_processing.trigger_invoice_processing settings ticket_id w
        = if uses_remote invoice_processing.stage_c settings
          then try_catch
                 (call_remote invoice_processing.stage_c settings ticket
                    ticket_id (clock w))
                 (handle invoice_processing.stage_c ticket ticket_id (clock w))
                 w
          else invoice_processing._simulate_invoice_processing
                 ticket ticket_id w).
Proof.
  intros Hstored Hne.
  assert (Hacc : forall (st : Stage) s,
             In s (accepted st) -> status_of ticket = JStr s ->
             guard_rejects st (status_of ticket) = false).
  { intros st s Hin Heq.
    destruct (guard_rejects st (status_of ticket)) eqn:E; [|reflexivity].
    pose proof (proj1 (guard_rejects_iff _ _) E s Hin) as Hcontra.
    now destruct Hcontra. }
  repeat split.
  - intros Hout. eapply trigger_rejected; [exact Hstored|].
    apply (proj2 (guard_rejects_iff _ _)). exact Hout.
  - intros (s & Hin & Heq).
    unfold ai_processing.trigger_ai_processing.
    rewrite (trigger_accepted (ai_processing.stage_b sim) settings ticket_id
               w ticket Hstored Hne
               (Hacc (ai_processing.stage_b sim) s Hin Heq)).
    reflexivity.
  - intros Hout. eapply trigger_rejected; [exact Hstored|].
    apply (proj2 (guard_rejects_iff _ _)). exact Hout.
  - intros (s & Hin & Heq).
    unfold invoice_processing.trigger_invoice_processing.
    rewrite (trigger_accepted invoice_processing.stage_c settings ticket_id
               w ticket Hstored Hne
               (Hacc invoice_processing.stage_c s Hin Heq)).
    reflexivity.
Qed.

End TriggerClaims.

(** ** The stage triggers at work *)

Section TriggerExamples.

Import remote_stage invoice_processing.
#[local] Existing Instance Sample.pylib.

(** A cold start: 503, then 200 on the retry. *)
Lemma retry_once_then_fallback_witness :
  let answer :=
    (HttpResponse 200
       (JsonBody (JObj [("ticketId", JStr "ZAVA-0001");
                        ("status", JStr "invoice_processed")])), 20000000) in
  let w := Sample.world Sample.cleared [Sample.busy; answer] in
  trigger_invoice_processing (Sample.settings false) "ZAVA-0001" w
  = (Ret [ ("success", JBool true); ("ticketId", JStr "ZAVA-0001");
           ("status", JStr "invoice_processed");
           ("processingTimeMs", JInt 35000) ],
     snd (second_post stage_c (Sample.settings false) "ZAVA-0001" 5000000
            [answer] w))
  /\ trace (snd (second_post stage_c (Sample.settings false) "ZAVA-0001"
                   5000000 [answer] w))
     = [ post_event stage_c (Sample.settings false) "ZAVA-0001";
         EvSleep 10;
         post_event stage_c (Sample.settings false) "ZAVA-0001" ].
Proof.
  intros answer w.
  destruct (retry_once_then_fallback stage_c (Sample.settings false)
              "ZAVA-0001" w Sample.cleared 503
              (NotJson "Expecting value: line 1 column 1 (char 0)")
              5000000 [answer]) as [H503 _];
    [ right; reflexivity | reflexivity | discriminate | reflexivity
    | reflexivity | reflexivity | discriminate | discriminate
    | discriminate | ].
  destruct (H503 eq_refl) as (_ & Htrace & _ & Hok & _).
  split; [|exact Htrace].
  exact (Hok _ eq_refl).
Defined.

(** The claim as worded sends every non-2xx answer other than a 503 to
    the fallback. A 404 is not: the caller reports failure at once, in
    either mode, and neither runs the simulation nor writes to the
    ticket (the simulation would have answered success). *)
Lemma not_found_is_not_a_fallback :
  let w := Sample.world Sample.cleared
             [(HttpResponse 404
                 (JsonBody (JObj [("error", JStr "Ticket not found")])),
               1000000)] in
  let w1 := after_first_post stage_c (Sample.settings false) "ZAVA-0001"
              1000000 [] w in
  trigger_invoice_processing (Sample.settings false) "ZAVA-0001" w
  = (Ret (failure (JStr "Ticket not found by processing function")), w1)
  /\ trigger_invoice_processing (Sample.settings true) "ZAVA-0001" w
     = (Ret (failure (JStr "Ticket not found by processing function")), w1)
  /\ tickets w1 = tickets w
  /\ stored_path ["status"] "ZAVA-0001" w1 = Some (JStr "ai_processed")
  /\ result_field "success"
       (_simulate_invoice_processing Sample.cleared "ZAVA-0001" w1)
     = Some (JBool true)
  /\ stored_path ["status"] "ZAVA-0001"
       (snd (_simulate_invoice_processing Sample.cleared "ZAVA-0001" w1))
     = Some (JStr "invoice_processed").
Proof. cbv zeta. repeat split; vm_compute; reflexivity. Qed.

(** The first post timing out, with strict mode off. *)
Lemma first_post_timeout_or_connect_error_witness :
  let w := Sample.world Sample.cleared [(HttpTimeout "The read operation timed out", 240000000)] in
  exists doc',
    trigger_invoice_processing (Sample.settings false) "ZAVA-0001" w
    = (Ret (failure (JStr "Stage C function timed out after 240s")),
       with_tickets (<["ZAVA-0001" := doc']> (tickets w))
         (after_first_post stage_c (Sample.settings false) "ZAVA-0001"
            240000000 [] w))
    /\ get_path ["status"] (JObj doc') = Some (JStr "error")
    /\ get_path ["invoiceProcessing"; "errorMessage"] (JObj doc')
       = Some (JStr "Stage C function timed out after 240s").
Proof.
  intros w.
  destruct (first_post_timeout_or_connect_error stage_c
              (Sample.settings false) "ZAVA-0001" w Sample.cleared 240000000 []
              "The read operation timed out")
    as [Htimeout _];
    [ right; reflexivity | reflexivity | discriminate | reflexivity
    | reflexivity | ].
  destruct (Htimeout eq_refl) as (doc' & Heq & _ & Hstatus & Hmsg).
  exists doc'. split; [exact Heq|]. split; [exact Hstatus | exact Hmsg].
Defined.

(** The claim as worded covers every remote call that times out. The
    retry after a 503 is one, and its timeout is swallowed: with strict
    mode off the simulation runs and the ticket ends [invoice_processed],
    not [error]. Likewise a connection failure of the retry, in strict
    mode, does write the error status. *)
Lemma retry_timeout_is_swallowed :
  let w := Sample.world Sample.cleared
             [Sample.busy;
              (HttpTimeout "The read operation timed out", 240000000)] in
  let w' := Sample.world Sample.cleared
              [Sample.busy;
               (HttpConnectError "[Errno 111] Connection refused", 1000)] in
  let lenient :=
    trigger_invoice_processing (Sample.settings false) "ZAVA-0001" w in
  let strict :=
    trigger_invoice_processing (Sample.settings true) "ZAVA-0001" w' in
  result_field "success" lenient = Some (JBool true)
  /\ stored_path ["status"] "ZAVA-0001" (snd lenient)
     = Some (JStr "invoice_processed")
  /\ stored_path ["invoiceProcessing"; "status"] "ZAVA-0001" (snd lenient)
     = Some (JStr "completed")
  /\ remote (snd lenient) = []
  /\ result_field "success" strict = Some (JBool false)
  /\ stored_path ["status"] "ZAVA-0001" (snd strict) = Some (JStr "error").
Proof. cbv zeta. repeat split; vm_compute; reflexivity. Qed.

(** A ticket that has only been extracted is not taken by stage 3. *)
Lemma trigger_status_guard_witness :
  let w := Sample.world (Sample.ticket "extracted" JNull) [] in
  exists r msg,
    trigger_invoice_processing (Sample.settings false) "ZAVA-0001" w
    = (Ret r, w)
    /\ Dict.get "success" r = Some (JBool false)
    /\ Dict.get "error" r = Some (JStr msg).
Proof.
  intros w.
  destruct (trigger_status_guard (fun _ _ => ret []) (Sample.settings false)
              "ZAVA-0001" w (Sample.ticket "extracted" JNull))
    as (_ & _ & Hrej & _); [reflexivity | discriminate |].
  apply Hrej. intros s [<-|[<-|[<-|[]]]]; discriminate.
Defined.

End TriggerExamples.

(** ** Stage 3: properties of the local simulation *)

Section MonadInversion.

Lemma bind_inv {A B} (m : M A) (f : A -> M B) w r w' :
  bind m f w = (Ret r, w') ->
  exists a w1, m w = (Ret a, w1) /\ f a w1 = (Ret r, w').
Proof.
  unfold bind. destruct (m w) as [[a|e] w1]; [eauto | discriminate].
Qed.

Lemma ret_inv {A} (a r : A) w w' :
  ret a w = (Ret r, w') -> r = a /\ w' = w.
Proof. unfold ret. now intros [= -> ->]. Qed.

Lemma py_get_world v k d w o w1 : Py.get v k d w = (o, w1) -> w1 = w.
Proof. destruct v; cbn; now intros [= _ <-]. Qed.

Lemma py_get_by_value_world v key d w o w1 :
  Py.get_by_value v key d w = (o, w1) -> w1 = w.
Proof. destruct v, key; cbn; now intros [= _ <-]. Qed.

End MonadInversion.

(** One step of inversion of a run that returned: name the intermediate
    value, and put the world back when the step does not touch it. *)
Ltac invert_step_as H a Hstep :=
  let w1 := fresh "w" in
  apply bind_inv in H as (a & w1 & Hstep & H);
  try (first [ apply py_get_world in Hstep
             | apply py_get_by_value_world in Hstep ]; subst w1).

Ltac invert_step H a :=
  let Hstep := fresh "Hstep" in invert_step_as H a Hstep.

Section Stage3.

Import invoice_processing.
Context `{PyLib}.

Lemma read_inputs_world ticket w o w1 :
  read_inputs ticket w = (o, w1) -> w1 = w.
Proof.
  unfold read_inputs.
  repeat (unfold bind at 1;
          match goal with
          | |- context [Py.get ?v ?k ?d w] =>
              let E := fresh "E" in
              destruct (Py.get v k d w) as [[?|?] ?] eqn:E;
              apply py_get_world in E; subst;
              [|now intros [= _ <-]]
          end).
  now intros [= _ <-].
Qed.

Lemma invoice_number_check_world v w o w1 :
  invoice_number_check v w = (o, w1) -> w1 = w.
Proof.
  unfold invoice_number_check.
  destruct (truthy v); [destruct v|]; cbn; now intros [= _ <-].
Qed.

Lemma number_of_world v w o w1 : number_of v w = (o, w1) -> w1 = w.
Proof.
  unfold number_of. destruct (as_number v); cbn; now intros [= _ <-].
Qed.

Lemma eq_str_false v s : v <> JStr s -> eq_str v s = false.
Proof.
  destruct v; try reflexivity. intros Hne. simpl.
  apply String.eqb_neq. congruence.
Qed.

(** The payload of the skipped path. *)
Lemma simulate_skipped ticket ticket_id w inp :
  read_inputs ticket w = (Ret inp, w) ->
  truthy (next_action inp) = true ->
  next_action inp <> JStr "invoice_processing" ->
  let payload : dict :=
    [ ("status", JStr "invoice_processed");
      ("invoiceProcessing",
        JObj [ ("status", JStr "skipped");
               ("completedAt", JStr (Clock.isoformat (clock w)));
               ("agentName", JStr agent_name);
               ("agentVersion", JStr "1");
               ("validations", JNull);
               ("paymentSubmission", JNull);
               ("errors", JList [JStr (skipped_message (next_action inp))]);
               ("processingTimeMs", JInt 120) ]) ] in
  _simulate_invoice_processing ticket ticket_id w
  = (Ret (("success", JBool true) :: payload),
     snd (storage.update_ticket ticket_id payload w)).
Proof.
  intros Hread Htruthy Hne payload.
  apply eq_str_false in Hne.
  unfold _simulate_invoice_processing, bind at 1, perf_counter.
  unfold bind at 1, _load_code_mappings. unfold bind at 1. rewrite Hread.
  destruct inp as [inv ven tot due next]. cbn [next_action] in *.
  unfold bind at 1. rewrite Htruthy, Hne. cbn [negb andb].
  unfold bind at 1, elapsed_ms, bind at 1, perf_counter, ret at 1.
  rewrite Z.sub_diag. cbn [Z.div Z.add].
  unfold bind, storage.update_ticket, memory_store.update_ticket.
  subst payload. destruct (tickets w !! ticket_id); reflexivity.
Qed.

(** The shape of every completed run. *)
Lemma simulate_completed ticket ticket_id w r w' :
  _simulate_invoice_processing ticket ticket_id w = (Ret r, w') ->
  get_path ["invoiceProcessing"; "status"] (JObj r)
  = Some (JStr "completed") ->
  exists (inv amt due bud : bool) (ven : json) (m1 m2 m3 m4 m5 : string),
    let all_valid := inv && amt && due && truthy ven && bud in
    get_path ["invoiceProcessing"; "validations"] (JObj r)
    = Some (JObj [ ("invoiceNumberValid", JBool inv);
                   ("amountCorrect", JBool amt);
                   ("dueDateValid", JBool due);
                   ("vendorApproved", ven);
                   ("budgetAvailable", JBool bud) ])
    /\ get_path ["invoiceProcessing"; "paymentSubmission"; "submitted"]
         (JObj r) = Some (JBool all_valid)
    /\ (all_valid = true ->
          exists payment_id expected,
            get_path ["invoiceProcessing"; "paymentSubmission"; "paymentId"]
              (JObj r) = Some (JStr payment_id)
            /\ get_path ["invoiceProcessing"; "paymentSubmission";
                         "expectedPaymentDate"] (JObj r)
               = Some (JStr expected)
            /\ get_path ["invoiceProcessing"; "paymentSubmission"; "status"]
                 (JObj r) = Some (JStr "submitted"))
    /\ (all_valid = false ->
          get_path ["invoiceProcessing"; "paymentSubmission"; "paymentId"]
            (JObj r) = Some JNull
          /\ get_path ["invoiceProcessing"; "paymentSubmission";
                       "submittedAt"] (JObj r) = Some JNull
          /\ get_path ["invoiceProcessing"; "paymentSubmission";
                       "expectedPaymentDate"] (JObj r) = Some JNull
          /\ get_path ["invoiceProcessing"; "paymentSubmission";
                       "paymentMethod"] (JObj r) = Some JNull
          /\ get_path ["invoiceProcessing"; "paymentSubmission"; "status"]
               (JObj r) = Some (JStr "not_submitted")
          /\ randoms w' = randoms w)
    /\ get_path ["invoiceProcessing"; "errors"] (JObj r)
       = Some (JList (concat [ (if inv then [] else [JStr m1]);
                               (if amt then [] else [JStr m2]);
                               (if due then [] else [JStr m3]);
                               (if truthy ven then [] else [JStr m4]);
                               (if bud then [] else [JStr m5]) ]))
    /\ Dict.get "success" r = Some (JBool true)
    /\ Dict.get "status" r = Some (JStr "invoice_processed")
    /\ exists w0, tickets w0 = tickets w
                  /\ w' = snd (storage.update_ticket ticket_id (tl r) w0).
Proof.
  intros Hrun Hdone. unfold _simulate_invoice_processing in Hrun.
  invert_step Hrun start. injection Hstep as <- <-.
  invert_step Hrun mappings. injection Hstep as <- <-.
  invert_step Hrun inp. apply read_inputs_world in Hstep as ->.
  destruct inp as [inv ven tot due next].
  invert_step Hrun now. injection Hstep as <- <-.
  destruct (truthy next && negb (eq_str next "invoice_processing")) eqn:Eskip.
  { invert_step Hrun elapsed. injection Hstep as <- <-.
    invert_step Hrun o. apply ret_inv in Hrun as [-> _]. discriminate Hdone. }
  invert_step Hrun vendor_codes.
  invert_step Hrun vendor_mappings.
  invert_step Hrun vendor_info.
  invert_step Hrun vendor_approved.
  destruct (due_date_check due (Clock.day_of (clock w))) as [due_ok past_due].
  invert_step Hrun inv_ok. apply invoice_number_check_world in Hstep as ->.
  invert_step Hrun amount. apply number_of_world in Hstep as ->.
  cbv zeta in Hrun.
  invert_step_as Hrun payment Hpay.
  invert_step_as Hrun elapsed Hel. injection Hel as <- <-.
  invert_step_as Hrun o Hupd. apply ret_inv in Hrun as [-> ->].
  apply (f_equal snd) in Hupd. cbn [snd] in Hupd.
  exists inv_ok, (Py.ltb 0 amount && Py.ltb amount 500000), due_ok,
    (Py.ltb amount 100000), vendor_approved.
  do 5 eexists. cbv zeta.
  assert (Hall :
    forallb truthy
      (map snd [ ("invoiceNumberValid", JBool inv_ok);
                 ("amountCorrect",
                   JBool (Py.ltb 0 amount && Py.ltb amount 500000));
                 ("dueDateValid", JBool due_ok);
                 ("vendorApproved", vendor_approved);
                 ("budgetAvailable", JBool (Py.ltb amount 100000)) ])
    = inv_ok && (Py.ltb 0 amount && Py.ltb amount 500000) && due_ok
      && truthy vendor_approved && Py.ltb amount 100000).
  { cbn. now rewrite andb_true_r, !andb_assoc. }
  rewrite Hall in Hpay.
  destruct (inv_ok && (Py.ltb 0 amount && Py.ltb amount 500000) && due_ok
            && truthy vendor_approved && Py.ltb amount 100000) eqn:Evalid.
  - invert_step_as Hpay draw Hdraw. apply ret_inv in Hpay as [-> ->].
    split; [reflexivity|]. split; [reflexivity|].
    split; [intros _; eexists _, _; repeat split; reflexivity|].
    split; [discriminate|].
    split; [reflexivity|]. split; [reflexivity|]. split; [reflexivity|].
    eexists. split; [|symmetry; exact Hupd].
    unfold randint in Hdraw.
    destruct (randoms w); now injection Hdraw as _ <-.
  - apply ret_inv in Hpay as [-> ->].
    split; [reflexivity|]. split; [reflexivity|].
    split; [discriminate|].
    split.
    { intros _. repeat split; try reflexivity.
      rewrite <- Hupd.
      unfold storage.update_ticket, memory_store.update_ticket.
      now destruct (tickets w !! ticket_id). }
    split; [reflexivity|]. split; [reflexivity|]. split; [reflexivity|].
    exists w. split; [reflexivity | symmetry; exact Hupd].
Qed.

(** Every run that returns reports success and the status
    [invoice_processed], on the skipped path and on the completed one. *)
Lemma simulate_returns ticket ticket_id w r w' :
  _simulate_invoice_processing ticket ticket_id w = (Ret r, w') ->
  Dict.get "success" r = Some (JBool true)
  /\ Dict.get "status" r = Some (JStr "invoice_processed").
Proof.
  intros Hrun. unfold _simulate_invoice_processing in Hrun.
  invert_step Hrun start. invert_step Hrun mappings.
  invert_step Hrun inp. destruct inp as [inv ven tot due next].
  invert_step Hrun now.
  destruct (truthy next && negb (eq_str next "invoice_processing")).
  - invert_step Hrun elapsed. invert_step Hrun o.
    apply ret_inv in Hrun as [-> _]. split; reflexivity.
  - invert_step Hrun vendor_codes.
    invert_step Hrun vendor_mappings.
    invert_step Hrun vendor_info.
    invert_step Hrun vendor_approved.
    destruct (due_date_check due (Clock.day_of now)) as [due_ok past_due].
    invert_step Hrun inv_ok. invert_step Hrun amount.
    cbv zeta in Hrun.
    invert_step Hrun payment. invert_step Hrun elapsed.
    invert_step Hrun o. apply ret_inv in Hrun as [-> _]. split; reflexivity.
Qed.

(** What an update leaves under the id, for a value the patch writes. *)
Lemma stored_after_update ticket_id patch stored w p v :
  tickets w !! ticket_id = Some stored ->
  wf_dict patch = true ->
  hd_error p <> Some "updatedAt" ->
  written p (JObj stored) (JObj patch) = Some v ->
  stored_path p ticket_id (snd (storage.update_ticket ticket_id patch w))
  = Some v.
Proof.
  intros Hs Hwf Hp Hw.
  destruct (update_ticket_merge ticket_id patch stored w Hs Hwf)
    as (doc' & Heq & _ & Hwritten & _).
  unfold storage.update_ticket. rewrite Heq. unfold stored_path. cbn.
  rewrite lookup_insert_eq. now apply Hwritten.
Qed.


(** C10. On the skipped path the simulation still returns success and
    sets the ticket's status to [invoice_processed], in the result and
    in the store; and that pair is what every returning run reports, a
    validated and paid invoice included. *)
Theorem skipped_is_terminal_success
    (ticket : dict) (ticket_id : string) (w : World) (inp : Inputs)
    (stored : dict) :
  read_inputs ticket w = (Ret inp, w) ->
  truthy (next_action inp) = true ->
  next_action inp <> JStr "invoice_processing" ->
  tickets w !! ticket_id = Some stored ->
  let run := _simulate_invoice_processing ticket ticket_id w in
  result_path ["invoiceProcessing"; "status"] run = Some (JStr "skipped")
  /\ result_field "success" run = Some (JBool true)
  /\ result_field "status" run = Some (JStr "invoice_processed")
  /\ stored_path ["status"] ticket_id (snd run)
     = Some (JStr "invoice_processed")
  /\ (forall ticket2 ticket_id2 w2 r2 w2',
        _simulate_invoice_processing ticket2 ticket_id2 w2 = (Ret r2, w2') ->
        Dict.get "success" r2 = Some (JBool true)
        /\ Dict.get "status" r2 = Some (JStr "invoice_processed")).
Proof.
  intros Hread Htruthy Hne Hstored run. subst run.
  rewrite (simulate_skipped ticket ticket_id w inp Hread Htruthy Hne).
  cbv zeta. unfold result_path, result_field. cbn [fst snd].
  repeat split; try reflexivity.
  - apply (stored_after_update _ _ stored); try assumption;
      [reflexivity | discriminate | reflexivity].
  - eapply simulate_returns; eassumption.
  - eapply simulate_returns; eassumption.
Qed.

(** C7. When the simulation completes (does not skip), the result holds
    the five validations, and [paymentSubmission.submitted] is their
    conjunction (a value counts as true by Python's truth test; four of
    the five are booleans, [vendorApproved] is the reference table's
    entry). With all five true a payment identifier and date are
    produced; with any of them false the payment identifier, dates and
    method are null, the payment status is [not_submitted], no identifier
    is drawn, and the errors list holds exactly one string per failing
    validation, in the order of the validations. *)
Theorem payment_iff_all_validations
    (ticket : dict) (ticket_id : string) (w : World) (r : dict)
    (w' : World) :
  _simulate_invoice_processing ticket ticket_id w = (Ret r, w') ->
  get_path ["invoiceProcessing"; "status"] (JObj r)
  = Some (JStr "completed") ->
  exists (inv amt due bud : bool) (ven : json) (m1 m2 m3 m4 m5 : string),
    let all_valid := inv && amt && due && truthy ven && bud in
    get_path ["invoiceProcessing"; "validations"] (JObj r)
    = Some (JObj [ ("invoiceNumberValid", JBool inv);
                   ("amountCorrect", JBool amt);
                   ("dueDateValid", JBool due);
                   ("vendorApproved", ven);
                   ("budgetAvailable", JBool bud) ])
    /\ get_path ["invoiceProcessing"; "paymentSubmission"; "submitted"]
         (JObj r) = Some (JBool all_valid)
    /\ (all_valid = true ->
          exists payment_id expected,
            get_path ["invoiceProcessing"; "paymentSubmission"; "paymentId"]
              (JObj r) = Some (JStr payment_id)
            /\ get_path ["invoiceProcessing"; "paymentSubmission";
                         "expectedPaymentDate"] (JObj r)
               = Some (JStr expected)
            /\ get_path ["invoiceProcessing"; "paymentSubmission"; "status"]
                 (JObj r) = Some (JStr "submitted"))
    /\ (all_valid = false ->
          get_path ["invoiceProcessing"; "paymentSubmission"; "paymentId"]
            (JObj r) = Some JNull
          /\ get_path ["invoiceProcessing"; "paymentSubmission";
                       "submittedAt"] (JObj r) = Some JNull
          /\ get_path ["invoiceProcessing"; "paymentSubmission";
                       "expectedPaymentDate"] (JObj r) = Some JNull
          /\ get_path ["invoiceProcessing"; "paymentSubmission";
                       "paymentMethod"] (JObj r) = Some JNull
          /\ get_path ["invoiceProcessing"; "paymentSubmission"; "status"]
               (JObj r) = Some (JStr "not_submitted")
          /\ randoms w' = randoms w)
    /\ get_path ["invoiceProcessing"; "errors"] (JObj r)
       = Some (JList (concat [ (if inv then [] else [JStr m1]);
                               (if amt then [] else [JStr m2]);
                               (if due then [] else [JStr m3]);
                               (if truthy ven then [] else [JStr m4]);
                               (if bud then [] else [JStr m5]) ]))
    /\ Dict.get "success" r = Some (JBool true)
    /\ Dict.get "status" r = Some (JStr "invoice_processed")
    /\ exists w0, tickets w0 = tickets w
                  /\ w' = snd (storage.update_ticket ticket_id (tl r) w0).
Proof. exact (simulate_completed ticket ticket_id w r w'). Qed.

End Stage3.

(** ** The local simulation at work *)

Section Stage3Examples.

Import invoice_processing.
#[local] Existing Instance Sample.pylib.

(** An invoice that fails four of the five validations. *)
Lemma payment_iff_all_validations_witness :
  let run :=
    _simulate_invoice_processing Sample.over_budget "ZAVA-0001"
      Sample.audit_world in
  result_path ["invoiceProcessing"; "validations"] run
  = Some (JObj [ ("invoiceNumberValid", JBool false);
                 ("amountCorrect", JBool true);
                 ("dueDateValid", JBool false);
                 ("vendorApproved", JBool false);
                 ("budgetAvailable", JBool false) ])
  /\ result_path ["invoiceProcessing"; "paymentSubmission"; "submitted"] run
     = Some (JBool false)
  /\ result_path ["invoiceProcessing"; "paymentSubmission"; "paymentId"] run
     = Some JNull
  /\ exists m1 m3 m4 m5,
       result_path ["invoiceProcessing"; "errors"] run
       = Some (JList [JStr m1; JStr m3; JStr m4; JStr m5]).
Proof.
  intros run.
  assert (Hrun : run = (Ret (returned run), snd run))
    by (vm_compute; reflexivity).
  destruct (payment_iff_all_validations Sample.over_budget "ZAVA-0001"
              Sample.audit_world (returned run) (snd run))
    as (inv & amt & due & bud & ven & m1 & m2 & m3 & m4 & m5
        & Hval & Hsub & _ & Hnone & Herr & _);
    [exact Hrun | vm_compute; reflexivity |].
  assert (Hfields :
    get_path ["invoiceProcessing"; "validations"] (JObj (returned run))
    = Some (JObj [ ("invoiceNumberValid", JBool false);
                   ("amountCorrect", JBool true);
                   ("dueDateValid", JBool false);
                   ("vendorApproved", JBool false);
                   ("budgetAvailable", JBool false) ]))
    by (vm_compute; reflexivity).
  rewrite Hval in Hfields. injection Hfields as -> -> -> -> ->.
  unfold result_path. rewrite Hrun. cbn [fst].
  split; [exact Hval|]. split; [exact Hsub|].
  split; [exact (proj1 (Hnone eq_refl))|].
  exists m1, m3, m4, m5. exact Herr.
Defined.



(** The skipped ticket ends with the status of a paid one. *)
Lemma skipped_is_terminal_success_witness :
  let skipped :=
    _simulate_invoice_processing Sample.held "ZAVA-0001"
      (Sample.world Sample.held []) in
  let paid :=
    _simulate_invoice_processing Sample.cleared "ZAVA-0001"
      (Sample.world Sample.cleared []) in
  result_field "success" skipped = Some (JBool true)
  /\ stored_path ["status"] "ZAVA-0001" (snd skipped)
     = Some (JStr "invoice_processed")
  /\ result_path ["invoiceProcessing"; "paymentSubmission"; "submitted"] paid
     = Some (JBool true)
  /\ result_field "status" paid = result_field "status" skipped.
Proof.
  intros skipped paid.
  destruct (skipped_is_terminal_success Sample.held "ZAVA-0001"
              (Sample.world Sample.held []) Sample.held_inputs Sample.held)
    as (_ & Hsuccess & Hstatus & Hstored & Hall);
    [reflexivity | reflexivity | discriminate | reflexivity |].
  assert (Hpaid : paid = (Ret (returned paid), snd paid))
    by (vm_compute; reflexivity).
  destruct (Hall _ _ _ _ _ Hpaid) as [_ Hpaid_status].
  split; [exact Hsuccess|]. split; [exact Hstored|].
  split; [vm_compute; reflexivity|].
  fold skipped in Hstatus. rewrite Hstatus.
  unfold result_field. rewrite Hpaid. exact Hpaid_status.
Defined.

End Stage3Examples.

(** ** Stage 1: the structured field extractor *)

Section LineItemAmounts.

Import extraction.
Local Open Scope Q_scope.

Lemma is_zero_iff q : is_zero q = true <-> q == 0.
Proof. unfold is_zero. apply Qeq_bool_iff. Qed.

Lemma is_zero_pos q : 0 < q -> is_zero q = false.
Proof.
  intros Hpos. destruct (is_zero q) eqn:E; [|reflexivity].
  apply is_zero_iff in E. rewrite E in Hpos. now apply Qlt_irrefl in Hpos.
Qed.

(** What the reconciliation does to one item. *)
Lemma fix_item_spec item :
  description (fix_item item) = description item
  /\ productCode (fix_item item) = productCode item
  /\ quantity (fix_item item) = quantity item
  /\ unitPrice (fix_item item) = unitPrice item
  /\ (amount item == 0 -> 0 < quantity item -> 0 < unitPrice item ->
      amount (fix_item item)
      = Py.round2 (quantity item * unitPrice item))
  /\ (~ amount item == 0 -> amount (fix_item item) = amount item).
Proof.
  unfold fix_item.
  destruct (is_zero (amount item)) eqn:Ez.
  - assert (Hz : amount item == 0) by now apply is_zero_iff.
    destruct (negb (is_zero (quantity item))
              && negb (is_zero (unitPrice item)))%bool eqn:Eqp; cbn.
    + do 5 (split; [reflexivity|]). intros Hnz. now destruct Hnz.
    + do 4 (split; [reflexivity|]). split.
      * intros _ Hq Hu.
        now rewrite (is_zero_pos _ Hq), (is_zero_pos _ Hu) in Eqp.
      * intros Hnz. now destruct Hnz.
  - do 4 (split; [reflexivity|]). split; [|reflexivity].
    intros Hz. apply is_zero_iff in Hz. congruence.
Qed.

Variable _extract_with_cu_sdk : string -> Settings -> CuResult.

(** With the cloud tier configured and not overridden, the result is the
    reconciled cloud result. *)
Lemma cloud_tier_result settings blob_url pdf_bytes extraction_method :
  extraction_method <> "regex" ->
  content_understanding_configured settings = true ->
  extract_with_content_understanding _extract_with_cu_sdk settings blob_url
    pdf_bytes extraction_method
  = _fix_line_item_amounts (_extract_with_cu_sdk blob_url settings).
Proof.
  intros Hm Hc. unfold extract_with_content_understanding.
  apply String.eqb_neq in Hm. rewrite Hm, Hc.
  now destruct (String.eqb extraction_method "cu").
Qed.


End LineItemAmounts.

Section LineItemExamples.

Import extraction.
Local Open Scope Q_scope.



End LineItemExamples.

(** ** Stage 1: the columnar header block *)

Section Columnar.

Import extraction.

Variable labels : list string.
Hypothesis Hdistinct : nodup_keys (map PyStr.upper labels) = true.

Lemma nodup_keys_NoDup (ks : list string) :
  nodup_keys ks = true <-> List.NoDup ks.
Proof.
  induction ks as [|k r IH]; simpl.
  - split; [constructor | reflexivity].
  - rewrite andb_true_iff, negb_true_iff, existsb_eqb_false, IH.
    split; [intros [? ?]; now constructor | now inversion 1].
Qed.

(** Two labels that match the same line are the same label. *)
Lemma matching_label_unique line a b :
  In a labels -> In b labels ->
  label_matches line a = true -> label_matches line b = true -> a = b.
Proof using Hdistinct.
  unfold label_matches. intros Ha Hb Hma Hmb.
  apply String.eqb_eq in Hma, Hmb.
  assert (Hup : PyStr.upper a = PyStr.upper b) by congruence.
  apply nodup_keys_NoDup in Hdistinct. clear Hma Hmb.
  induction labels as [|l r IH]; [contradiction|].
  simpl in Hdistinct. inversion Hdistinct as [|? ? Hnotin Hnd]; subst.
  destruct Ha as [->|Ha], Hb as [->|Hb]; try reflexivity.
  - exfalso. apply Hnotin. rewrite Hup. now apply in_map.
  - exfalso. apply Hnotin. rewrite <- Hup. now apply in_map.
  - now apply IH.
Qed.

Lemma first_unset_some line (ls : list string) acc l :
  first_unset line ls acc = Some l ->
  In l ls /\ label_matches line l = true /\ Dict.mem l acc = false.
Proof.
  induction ls as [|a r IH]; simpl; [discriminate|].
  destruct (label_matches line a && negb (Dict.mem a acc)) eqn:E.
  - intros [= <-]. apply andb_true_iff in E as [? ?%negb_true_iff]. auto.
  - intros Hr. destruct (IH Hr) as (? & ? & ?). auto.
Qed.

Lemma first_unset_none line (ls : list string) acc l :
  first_unset line ls acc = None ->
  In l ls -> label_matches line l = true -> Dict.mem l acc = true.
Proof.
  induction ls as [|a r IH]; simpl; [contradiction|].
  destruct (label_matches line a && negb (Dict.mem a acc)) eqn:E;
    [discriminate|].
  intros Hnone [<-|Hin] Hm; [|now apply IH].
  rewrite Hm in E. simpl in E. now apply negb_false_iff in E.
Qed.

(** The index a label ends up with: the one it had, or its first line. *)
Lemma find_labels_get lines : forall i acc l,
  In l labels ->
  Dict.get l (find_labels labels lines i acc)
  = match Dict.get l acc with
    | Some j => Some j
    | None => option_map (fun k => (i + k)%nat) (label_line lines l)
    end.
Proof using Hdistinct.
  induction lines as [|line rest IH]; intros i acc l Hl; simpl.
  - now destruct (Dict.get l acc).
  - destruct (first_unset line labels acc) as [l'|] eqn:Ef.
    + destruct (first_unset_some _ _ _ _ Ef) as (Hl' & Hm' & Hmem').
      rewrite IH by assumption.
      destruct (String.eqb_spec l l') as [->|Hne].
      * rewrite get_set_eq. unfold Dict.mem in Hmem'.
        destruct (Dict.get l' acc); [discriminate|].
        rewrite Hm'. simpl. f_equal. lia.
      * rewrite get_set_ne by assumption.
        destruct (Dict.get l acc) eqn:Eg; [reflexivity|].
        destruct (label_matches line l) eqn:Eml.
        { exfalso. apply Hne.
          now apply (matching_label_unique line). }
        destruct (label_line rest l); simpl; [f_equal; lia | reflexivity].
    + rewrite IH by assumption.
      destruct (Dict.get l acc) eqn:Eg; [reflexivity|].
      destruct (label_matches line l) eqn:Eml.
      { pose proof (first_unset_none _ _ _ l Ef Hl Eml) as Hmem.
        unfold Dict.mem in Hmem. now rewrite Eg in Hmem. }
      destruct (label_line rest l); simpl; [f_equal; lia | reflexivity].
Qed.



Lemma set_fresh {V} k (v : V) d :
  Dict.mem k d = false -> Dict.set k v d = (d ++ [(k, v)])%list.
Proof.
  unfold Dict.mem. induction d as [|[k0 v0] r IH]; simpl; [reflexivity|].
  destruct (String.eqb k k0); [discriminate|].
  intros Hr. now rewrite IH.
Qed.

Lemma mem_false_notin {V} k (d : list (string * V)) :
  Dict.mem k d = false <-> ~ In k (map fst d).
Proof.
  unfold Dict.mem. rewrite <- (get_none_iff k d).
  destruct (Dict.get k d); split; congruence.
Qed.

Lemma increasing_snoc l p :
  increasing l -> Forall (fun q => (snd q < snd p)%nat) l ->
  increasing (l ++ [p]).
Proof.
  unfold increasing. induction 1 as [|q r Hr IH Hall]; simpl; intros Hlt.
  - repeat constructor.
  - inversion Hlt as [|? ? Hq Hrest]; subst. constructor; [now apply IH|].
    apply Forall_app. split; [assumption | now repeat constructor].
Qed.

Lemma find_labels_shape lines : forall i acc,
  increasing acc ->
  Forall (fun p => (snd p < i)%nat) acc ->
  List.NoDup (map fst acc) ->
  Forall (fun p => In (fst p) labels) acc ->
  increasing (find_labels labels lines i acc)
  /\ List.NoDup (map fst (find_labels labels lines i acc))
  /\ Forall (fun p => In (fst p) labels) (find_labels labels lines i acc).
Proof.
  induction lines as [|line rest IH]; intros i acc Hinc Hlt Hnd Hin; simpl.
  - auto.
  - destruct (first_unset line labels acc) as [l'|] eqn:Ef.
    + destruct (first_unset_some _ _ _ _ Ef) as (Hl' & _ & Hmem').
      rewrite (set_fresh _ _ _ Hmem'). apply IH.
      * now apply increasing_snoc.
      * apply Forall_app. split.
        -- eapply List.Forall_impl; [|exact Hlt]. simpl. intros; lia.
        -- constructor; [simpl; lia | constructor].
      * rewrite map_app. simpl.
        apply mem_false_notin in Hmem'.
        apply List.NoDup_app; try assumption.
        -- repeat constructor. intros [].
        -- intros x Hx [<-|[]]. contradiction.
      * apply Forall_app. split; [assumption | now repeat constructor].
    + apply IH; try assumption.
      eapply List.Forall_impl; [|exact Hlt]. simpl. intros; lia.
Qed.

Lemma sorted_increasing l : increasing l -> sorted_by_index l = l.
Proof.
  unfold increasing, sorted_by_index.
  induction 1 as [|p r Hr IH Hall]; simpl; [reflexivity|].
  rewrite IH. destruct r as [|q r']; [reflexivity|]. simpl.
  inversion Hall as [|? ? Hpq _]; subst.
  apply Nat.ltb_lt in Hpq. now rewrite Hpq.
Qed.


Lemma get_some_in {V} k (v : V) d : Dict.get k d = Some v -> In (k, v) d.
Proof.
  induction d as [|[k0 v0] r IH]; simpl; [discriminate|].
  destruct (String.eqb_spec k k0) as [->|Hne].
  - intros [= ->]. now left.
  - intros Hr. right. now apply IH.
Qed.

Lemma in_get_some {V} k (v : V) d :
  List.NoDup (map fst d) -> In (k, v) d -> Dict.get k d = Some v.
Proof.
  induction d as [|[k0 v0] r IH]; simpl; [contradiction|].
  intros Hnd. inversion Hnd as [|? ? Hnotin Hnd']; subst.
  intros [[= -> ->]|Hin].
  - now rewrite String.eqb_refl.
  - destruct (String.eqb_spec k k0) as [->|Hne]; [|now apply IH].
    exfalso. apply Hnotin. now apply (in_map fst _ (k0, v)).
Qed.

(** The value loop: the pair at position [k] gets the line at
    [last_label_idx + 1 + offset + k]; other keys keep what they had. *)
Lemma assign_values_other lines m sp : forall off res l,
  ~ In l (map fst sp) ->
  Dict.get l (assign_values lines m sp off res) = Dict.get l res.
Proof.
  induction sp as [|[l0 i0] rest IH]; intros off res l Hnotin; simpl;
    [reflexivity|].
  simpl in Hnotin. rewrite IH by tauto.
  apply get_set_ne. intros ->. apply Hnotin. now left.
Qed.

Lemma assign_values_get lines m sp : forall off res k l i,
  List.NoDup (map fst sp) ->
  nth_error sp k = Some (l, i) ->
  Dict.get l (assign_values lines m sp off res)
  = Some (line_value lines (m + 1 + off + k)).
Proof.
  induction sp as [|[l0 i0] rest IH]; intros off res k l i Hnd Hk;
    [now destruct k|].
  simpl in Hnd. inversion Hnd as [|? ? Hnotin Hnd']; subst.
  destruct k as [|k']; simpl in Hk |- *.
  - injection Hk as -> ->.
    rewrite assign_values_other by assumption.
    rewrite get_set_eq. do 2 f_equal. lia.
  - rewrite (IH _ _ k' l i Hnd' Hk). do 2 f_equal. lia.
Qed.

Lemma setdefault_get k l (res : list (string * string)) :
  Dict.get l (Dict.setdefault k "" res)
  = match Dict.get l res with
    | Some v => Some v
    | None => if String.eqb l k then Some "" else None
    end.
Proof.
  unfold Dict.setdefault, Dict.mem.
  destruct (Dict.get k res) eqn:Ek.
  - destruct (Dict.get l res) eqn:El; [reflexivity|].
    destruct (String.eqb_spec l k) as [->|]; [congruence | reflexivity].
  - destruct (String.eqb_spec l k) as [->|Hne].
    + now rewrite get_set_eq, Ek.
    + rewrite get_set_ne by assumption. now destruct (Dict.get l res).
Qed.

Lemma fill_missing_keeps (ls : list string) : forall res l v,
  Dict.get l res = Some v -> Dict.get l (fill_missing ls res) = Some v.
Proof.
  unfold fill_missing.
  induction ls as [|a r IH]; intros res l v Hg; simpl; [assumption|].
  apply IH. now rewrite setdefault_get, Hg.
Qed.

Lemma fill_missing_get (ls : list string) : forall res l,
  In l ls ->
  Dict.get l (fill_missing ls res) = Some (get_or_empty l res).
Proof.
  unfold get_or_empty.
  induction ls as [|a r IH]; intros res l Hin; [contradiction|].
  change (fill_missing (a :: r) res)
    with (fill_missing r (Dict.setdefault a "" res)).
  destruct (Dict.get l res) as [v|] eqn:Hg.
  - apply fill_missing_keeps. now rewrite setdefault_get, Hg.
  - destruct (String.eqb_spec l a) as [->|Hne].
    + apply fill_missing_keeps.
      now rewrite setdefault_get, Hg, String.eqb_refl.
    + destruct Hin as [->|Hin]; [congruence|].
      rewrite IH by assumption.
      rewrite setdefault_get, Hg.
      apply String.eqb_neq in Hne. now rewrite Hne.
Qed.

(** In an increasing list the position of a pair is the number of pairs
    with a smaller index. *)
Lemma increasing_position l : forall k p,
  increasing l -> nth_error l k = Some p ->
  length (List.filter (fun j => (j <? snd p)%nat) (map snd l)) = k.
Proof.
  unfold increasing.
  induction l as [|q r IH]; intros k p Hinc Hk; [now destruct k|].
  inversion Hinc as [|? ? Hr Hall]; subst.
  destruct k as [|k']; simpl in Hk |- *.
  - injection Hk as ->. rewrite Nat.ltb_irrefl.
    clear IH Hr Hinc. induction r as [|q r IHr]; [reflexivity|].
    inversion Hall as [|? ? Hq Hrest]; subst. simpl.
    assert (Hge : (snd q <? snd p)%nat = false)
      by (apply Nat.ltb_ge; lia).
    rewrite Hge. now apply IHr.
  - assert (Hlt : (snd q < snd p)%nat).
    { rewrite List.Forall_forall in Hall. apply Hall.
      eapply nth_error_In; eassumption. }
    apply Nat.ltb_lt in Hlt. rewrite Hlt. simpl. f_equal.
    now apply IH.
Qed.

Lemma increasing_last l d :
  increasing l -> l <> [] ->
  snd (List.last l d) = fold_right Nat.max O (map snd l).
Proof.
  unfold increasing. induction 1 as [|q r Hr IH Hall]; [congruence|].
  intros _. destruct r as [|q' r']; [simpl; lia|].
  change (List.last (q :: q' :: r') d) with (List.last (q' :: r') d).
  rewrite IH by discriminate.
  change (fold_right Nat.max O (map snd (q :: q' :: r')))
    with (Nat.max (snd q) (fold_right Nat.max O (map snd (q' :: r')))).
  inversion Hall as [|? ? Hq _]; subst. simpl in *. lia.
Qed.

Lemma count_below_perm i (l l' : list nat) :
  Permutation l l' ->
  length (List.filter (fun j => (j <? i)%nat) l)
  = length (List.filter (fun j => (j <? i)%nat) l').
Proof.
  induction 1 as [|x l l' _ IH|x y l|l l' l'' _ IH1 _ IH2]; simpl.
  - reflexivity.
  - destruct (x <? i)%nat; simpl; now rewrite IH.
  - destruct (x <? i)%nat, (y <? i)%nat; reflexivity.
  - now rewrite IH1.
Qed.

Lemma max_perm (l l' : list nat) :
  Permutation l l' ->
  fold_right Nat.max O l = fold_right Nat.max O l'.
Proof.
  induction 1 as [|x l l' _ IH|x y l|l l' l'' _ IH1 _ IH2]; simpl; lia.
Qed.


Lemma located_pairs_snd lines ls :
  map snd (located_pairs lines ls) = located lines ls.
Proof.
  unfold located_pairs, located.
  induction ls as [|a r IH]; simpl; [reflexivity|].
  rewrite map_app, IH. now destruct (label_line lines a).
Qed.

Lemma located_pairs_in lines ls l i :
  In (l, i) (located_pairs lines ls)
  <-> In l ls /\ label_line lines l = Some i.
Proof.
  unfold located_pairs. rewrite in_flat_map. split.
  - intros (a & Ha & Hin). destruct (label_line lines a) eqn:E; [|contradiction].
    destruct Hin as [[= <- <-]|[]]. auto.
  - intros [Hl Hi]. exists l. split; [assumption|]. rewrite Hi. now left.
Qed.

Lemma located_pairs_nodup lines ls :
  List.NoDup ls -> List.NoDup (located_pairs lines ls).
Proof.
  induction 1 as [|a r Hnotin Hnd IH]; [constructor|].
  change (located_pairs lines (a :: r))
    with ((match label_line lines a with
           | Some i => [(a, i)]
           | None => []
           end ++ located_pairs lines r)%list).
  destruct (label_line lines a) as [i|]; [|exact IH].
  simpl. constructor; [|exact IH].
  intros Hin. apply located_pairs_in in Hin as [Hin _]. contradiction.
Qed.

Lemma labels_nodup : List.NoDup labels.
Proof using Hdistinct.
  apply nodup_keys_NoDup in Hdistinct.
  exact (List.NoDup_map_inv PyStr.upper _ Hdistinct).
Qed.

Variable lines : list string.

Local Abbreviation F := (find_labels labels lines 0 []).

Lemma found_get l : In l labels -> Dict.get l F = label_line lines l.
Proof using Hdistinct.
  intros Hl. rewrite find_labels_get by assumption. simpl.
  now destruct (label_line lines l).
Qed.

Lemma found_shape :
  increasing F /\ List.NoDup (map fst F)
  /\ Forall (fun p => In (fst p) labels) F.
Proof.
  apply find_labels_shape; constructor.
Qed.

Lemma found_perm : Permutation F (located_pairs lines labels).
Proof using Hdistinct.
  destruct found_shape as (_ & Hnd & Hin).
  apply Permutation.NoDup_Permutation.
  - exact (List.NoDup_map_inv fst _ Hnd).
  - apply located_pairs_nodup, labels_nodup.
  - intros [l i]. rewrite located_pairs_in. split.
    + intros Hp. rewrite List.Forall_forall in Hin.
      pose proof (Hin _ Hp) as Hl. simpl in Hl. split; [assumption|].
      rewrite <- found_get by assumption. now apply in_get_some.
    + intros [Hl Hi]. apply get_some_in. now rewrite found_get.
Qed.

Lemma found_indices : Permutation (map snd F) (located lines labels).
Proof using Hdistinct.
  rewrite <- located_pairs_snd. apply Permutation_map, found_perm.
Qed.

Lemma columnar_block_by_position label :
  In label labels ->
  Dict.get label (_extract_columnar_block lines labels)
  = Some (columnar_by_position lines labels label).
Proof using Hdistinct.
  intros Hl. unfold _extract_columnar_block, columnar_by_position.
  destruct found_shape as (Hinc & Hnd & Hin).
  pose proof (found_get label Hl) as Hget.
  destruct F as [|p0 rest] eqn:EF.
  - rewrite fill_missing_get by assumption.
    simpl in Hget. now rewrite <- Hget.
  - rewrite <- EF in *.
    rewrite (sorted_increasing _ Hinc).
    rewrite fill_missing_get by assumption. f_equal.
    unfold get_or_empty.
    destruct (label_line lines label) as [i|] eqn:Ei.
    + apply get_some_in in Hget.
      apply In_nth_error in Hget as [k Hk].
      rewrite (assign_values_get lines _ F 0 [] k label i Hnd Hk).
      f_equal.
      rewrite (increasing_last F ("", O) Hinc) by (rewrite EF; discriminate).
      unfold boundary, rank.
      rewrite <- (max_perm _ _ found_indices).
      rewrite <- (count_below_perm i _ _ found_indices).
      pose proof (increasing_position F k (label, i) Hinc Hk) as Hpos.
      cbn [snd] in Hpos. rewrite Hpos. lia.
    + rewrite assign_values_other; [reflexivity|].
      intros Hk. apply get_none_iff in Hk; [contradiction|].
      exact Hget.
Qed.

End Columnar.


Section ColumnarExamples.

Import extraction.



End ColumnarExamples.

(** ** The auto-chain *)

Section Words.
Import PyStr.

Lemma is_space_lower c : is_space (lower_char c) = is_space c.
Proof. destruct c as [[] [] [] [] [] [] [] []]; reflexivity. Qed.

Lemma all_space_lower s :
  all_chars is_space (lower s) = all_chars is_space s.
Proof.
  unfold lower. induction s as [|c r IH]; simpl; [reflexivity|].
  now rewrite is_space_lower, IH.
Qed.

Lemma lstrip_empty s : lstrip s = "" -> all_chars is_space s = true.
Proof.
  induction s as [|c r IH]; simpl; [reflexivity|].
  destruct (is_space c); [assumption | discriminate].
Qed.

Lemma lstrip_head s c r : lstrip s = String c r -> is_space c = false.
Proof.
  induction s as [|c0 r0 IH]; simpl; [discriminate|].
  destruct (is_space c0) eqn:E; [assumption|].
  now intros [= <- _].
Qed.

Lemma rstrip_head c r :
  is_space c = false -> exists r', rstrip (String c r) = String c r'.
Proof.
  intros Hc. simpl. destruct (rstrip r); rewrite ?Hc; eauto.
Qed.

(** An all-whitespace string has no first word, and the other way
    round, through [strip] and [lower]. *)
Lemma no_first_word s :
  first_word (lower (strip s)) = None -> all_chars is_space s = true.
Proof.
  unfold first_word. intros Hnone.
  assert (Hall : all_chars is_space (strip s) = true).
  { rewrite <- all_space_lower. apply lstrip_empty.
    now destruct (lstrip (lower (strip s))). }
  unfold strip in Hall.
  destruct (lstrip s) as [|c r] eqn:El; [now apply lstrip_empty|].
  pose proof (lstrip_head _ _ _ El) as Hc.
  destruct (rstrip_head c r Hc) as [r' Hr].
  rewrite Hr in Hall. simpl in Hall. now rewrite Hc in Hall.
Qed.

Lemma contains_all_space s :
  all_chars is_space s = true -> contains "invoice_processing" s = false.
Proof.
  induction s as [|c r IH]; [reflexivity|].
  intros [Hc Hr]%andb_true_iff.
  change (contains "invoice_processing" (String c r))
    with (String.prefix "invoice_processing" (String c r)
          || contains "invoice_processing" r).
  rewrite (IH Hr), orb_false_r. clear IH Hr.
  destruct c as [[] [] [] [] [] [] [] []];
    first [discriminate Hc | reflexivity].
Qed.

End Words.

Section AutoChain.

Import auto_chain.
Context `{PyLib}.
Variable sim : dict -> string -> M dict.
Variable settings : Settings.

Lemma only_marked_refl w : only_marked w w.
Proof. unfold only_marked. repeat split; auto. Qed.

Lemma only_marked_trans w1 w2 w3 :
  only_marked w1 w2 -> only_marked w2 w3 -> only_marked w1 w3.
Proof.
  unfold only_marked.
  intros (Hc & Hr & Hd & Hm & Ht & Hs) (Hc' & Hr' & Hd' & Hm' & Ht' & Hs').
  repeat split; try congruence.
  - intros Hx. apply (Hs ticket_id), (Hs' ticket_id), Hx.
  - intros Hx. apply (Hs' ticket_id), (Hs ticket_id), Hx.
  - intros p k Hp Hk1 Hk2.
    destruct (Hs ticket_id) as [_ Hp1]. destruct (Hs' ticket_id) as [_ Hp2].
    rewrite (Hp2 p k Hp Hk1 Hk2). now apply (Hp1 p k).
Qed.

Lemma mark_spec ticket_id stage extra w :
  exists w', mark ticket_id stage extra w = (Ret tt, w') /\ only_marked w w'.
Proof.
  unfold mark, bind, memory_store._now_iso, storage.update_ticket,
    memory_store.update_ticket, ret.
  destruct (tickets w !! ticket_id) as [cur|] eqn:Ecur.
  - eexists. split; [reflexivity|].
    unfold only_marked. cbn. repeat split; try reflexivity.
    + destruct (decide (ticket_id0 = ticket_id)) as [->|Hne].
      * rewrite lookup_insert_eq. intros _. now rewrite Ecur.
      * now rewrite lookup_insert_ne by congruence.
    + destruct (decide (ticket_id0 = ticket_id)) as [->|Hne].
      * rewrite lookup_insert_eq. eauto.
      * now rewrite lookup_insert_ne by congruence.
    + intros p k Hp Hk1 Hk2. unfold stored_path. cbn.
      destruct (decide (ticket_id0 = ticket_id)) as [->|Hne].
      * rewrite lookup_insert_eq, Ecur.
        destruct p as [|k0 rest]; [discriminate|].
        injection Hp as ->. cbn [get_path].
        rewrite !get_set_ne by congruence. reflexivity.
      * now rewrite lookup_insert_ne by congruence.
  - eexists. split; [reflexivity | apply only_marked_refl].
Qed.

Lemma chain_stage_c_returns ticket_id w :
  exists w', chain_stage_c settings ticket_id w = (Ret tt, w').
Proof.
  unfold chain_stage_c, try_catch.
  match goal with |- context [match ?m w with _ => _ end] =>
    destruct (m w) as [[[]|e] w'] end.
  - eauto.
  - destruct (mark_spec ticket_id "stage_c_error"
                [("error", JStr (truncated 500 (exn_message e)))] w')
      as (w'' & Hm & _).
    rewrite Hm. eauto.
Qed.

Lemma bind_step {A B} (m : M A) (f : A -> M B) w a w' :
  m w = (Ret a, w') -> bind m f w = f a w'.
Proof. unfold bind. now intros ->. Qed.

Lemma bind_raise {A B} (m : M A) (f : A -> M B) w e w' :
  m w = (Raise e, w') -> bind m f w = (Raise e, w').
Proof. unfold bind. now intros ->. Qed.

Lemma auto_chain_decision ticket_id w ai_result w1 :
  ai_processing.trigger_ai_processing sim settings ticket_id
    (snd (mark ticket_id "calling_stage_b" [] w)) = (Ret ai_result, w1) ->
  truthy (get_or "success" JNull ai_result) = true ->
  (forall s,
      next_action_of ai_result = Ret (JStr s) ->
      PyStr.contains "invoice_processing" (PyStr.lower s) = true ->
      exists w3,
        only_marked w1 w3
        /\ auto_chain sim settings ticket_id w
           = chain_stage_c settings ticket_id w3)
  /\ ((forall s,
          next_action_of ai_result = Ret (JStr s) ->
          PyStr.contains "invoice_processing" (PyStr.lower s) = false) ->
      exists wf,
        only_marked w1 wf
        /\ auto_chain sim settings ticket_id w = (Ret tt, wf)).
Proof.
  intros Hb Hsuccess.
  destruct (mark_spec ticket_id "calling_stage_b" [] w) as (w0 & Hm0 & _).
  rewrite Hm0 in Hb. cbn [snd] in Hb.
  destruct (mark_spec ticket_id "stage_b_done"
              [ ("success", get_or "success" JNull ai_result);
                ("result_keys", key_list ai_result) ] w1)
    as (w2 & Hm2 & Ho2).
  assert (Hexc : forall e,
    exists wf,
      only_marked w1 wf
      /\ mark ticket_id "stage_b_exception"
           [("error", JStr (truncated 500 (exn_message e)))] w2
         = (Ret tt, wf)).
  { intros e.
    destruct (mark_spec ticket_id "stage_b_exception"
                [("error", JStr (truncated 500 (exn_message e)))] w2)
      as (wf & Hmf & Hof).
    exists wf. split; [now apply (only_marked_trans _ w2) | exact Hmf]. }
  unfold auto_chain, try_catch.
  rewrite (bind_step _ _ _ _ _ Hm0), (bind_step _ _ _ _ _ Hb),
    (bind_step _ _ _ _ _ Hm2).
  unfold after_stage_b. rewrite Hsuccess.
  destruct (next_action_of ai_result) as [next_act|e] eqn:Enext.
  2:{ rewrite (bind_raise _ _ w2 e w2) by reflexivity.
      split; [intros s [=]|]. intros _. apply Hexc. }
  rewrite (bind_step _ _ w2 next_act w2) by reflexivity.
  destruct (normalized next_act) as [word|e] eqn:Enorm.
  2:{ rewrite (bind_raise _ _ w2 e w2) by reflexivity.
      split; [|intros _; apply Hexc].
      intros s [= ->] Hcontains. exfalso.
      unfold normalized in Enorm.
      destruct (truthy (JStr s)); [|discriminate].
      destruct (PyStr.first_word (PyStr.lower (PyStr.strip s))) eqn:Ew;
        [discriminate|].
      apply no_first_word in Ew.
      rewrite <- all_space_lower in Ew.
      apply contains_all_space in Ew. congruence. }
  rewrite (bind_step _ _ w2 word w2) by reflexivity.
  match goal with |- context [mark ticket_id "checking_next_action" ?x] =>
    destruct (mark_spec ticket_id "checking_next_action" x w2)
      as (w3 & Hm3 & Ho3) end.
  rewrite (bind_step _ _ _ _ _ Hm3).
  pose proof (only_marked_trans _ _ _ Ho2 Ho3) as Ho13.
  destruct (should_invoice next_act) eqn:Eshould.
  - destruct (chain_stage_c_returns ticket_id w3) as [w4 Hc].
    rewrite Hc. split.
    + intros s _ _. exists w3. split; [assumption | now rewrite Hc].
    + intros Hno. exfalso. destruct next_act; try discriminate.
      simpl in Eshould. rewrite (Hno s eq_refl) in Eshould. discriminate.
  - destruct (mark_spec ticket_id "skipped_stage_c"
                [("next_action", next_act)] w3) as (wf & Hmf & Hof).
    rewrite Hmf. split.
    + intros s [= ->] Hcontains. simpl in Eshould. congruence.
    + intros _. exists wf. split; [|reflexivity].
      now apply (only_marked_trans _ w3).
Qed.

(** Where the inner block stands when it calls stage 3: after the
    cooldown and one more marker. *)
Lemma chain_stage_c_invokes ticket_id w3 :
  exists w4,
    only_marked (slept 30 w3) w4
    /\ chain_stage_c settings ticket_id w3
       = try_catch
           (do inv_result <-
              invoice_processing.trigger_invoice_processing settings
                ticket_id;
            mark ticket_id "stage_c_done"
              [("success", get_or "success" JNull inv_result)])
           (fun inv_err =>
              mark ticket_id "stage_c_error"
                [("error", JStr (truncated 500 (exn_message inv_err)))])
           w4.
Proof.
  destruct (mark_spec ticket_id "calling_stage_c" [] (slept 30 w3))
    as (w4 & Hm & Ho).
  exists w4. split; [assumption|].
  unfold chain_stage_c, try_catch.
  rewrite (bind_step _ _ _ _ _ (sleep_step 30 w3)).
  now rewrite (bind_step _ _ _ _ _ Hm).
Qed.

(** C5. After stage 2 has returned a result whose [success] is true, the
    auto-chain invokes stage 3 (after the cooldown, through
    [trigger_invoice_processing]) when the next-action it reads from
    that result is a string that contains ["invoice_processing"] up to
    case; in every other case (another string, an unrecognized one, an
    empty or missing one, a value that is not a string) it ends without
    invoking stage 3: nothing is posted, nothing sleeps, and the ticket
    differs at most in its debug marker, so its status is not turned into
    an error. *)
Theorem stage_c_iff_next_action_has_token
    (ticket_id : string) (w : World) (ai_result : dict) (w1 : World) :
  ai_processing.trigger_ai_processing sim settings ticket_id
    (snd (mark ticket_id "calling_stage_b" [] w)) = (Ret ai_result, w1) ->
  truthy (get_or "success" JNull ai_result) = true ->
  (forall s,
      next_action_of ai_result = Ret (JStr s) ->
      PyStr.contains "invoice_processing" (PyStr.lower s) = true ->
      exists w3 w4,
        only_marked w1 w3
        /\ only_marked (slept 30 w3) w4
        /\ auto_chain sim settings ticket_id w
           = try_catch
               (do inv_result <-
                  invoice_processing.trigger_invoice_processing settings
                    ticket_id;
                mark ticket_id "stage_c_done"
                  [("success", get_or "success" JNull inv_result)])
               (fun inv_err =>
                  mark ticket_id "stage_c_error"
                    [("error",
                       JStr (truncated 500 (exn_message inv_err)))])
               w4)
  /\ ((forall s,
          next_action_of ai_result = Ret (JStr s) ->
          PyStr.contains "invoice_processing" (PyStr.lower s) = false) ->
      exists wf,
        auto_chain sim settings ticket_id w = (Ret tt, wf)
        /\ only_marked w1 wf
        /\ trace wf = trace w1
        /\ remote wf = remote w1
        /\ stored_path ["status"] ticket_id wf
           = stored_path ["status"] ticket_id w1
        /\ stored_path ["invoiceProcessing"] ticket_id wf
           = stored_path ["invoiceProcessing"] ticket_id w1).
Proof.
  intros Hb Hsuccess.
  destruct (auto_chain_decision ticket_id w ai_result w1 Hb Hsuccess)
    as [Hyes Hno].
  split.
  - intros s Hs Hc. destruct (Hyes s Hs Hc) as (w3 & Ho3 & Heq).
    destruct (chain_stage_c_invokes ticket_id w3) as (w4 & Ho4 & Heq4).
    exists w3, w4. split; [assumption|]. split; [assumption|].
    now rewrite Heq.
  - intros Hnone. destruct (Hno Hnone) as (wf & Ho & Heq).
    exists wf. split; [assumption|]. split; [assumption|].
    destruct Ho as (_ & Hr & _ & _ & Ht & Hs).
    split; [assumption|]. split; [assumption|].
    destruct (Hs ticket_id) as [_ Hp].
    split.
    + apply (Hp ["status"] "status" eq_refl); discriminate.
    + apply (Hp ["invoiceProcessing"] "invoiceProcessing" eq_refl);
        discriminate.
Qed.

End AutoChain.

Section AutoChainExamples.

Import auto_chain.
#[local] Existing Instance Sample.pylib.

(** The remote agent answers with a sentence that starts with the token
    in another case: stage 3 is invoked. *)
Lemma stage_c_iff_next_action_has_token_witness :
  let w :=
    Sample.world Sample.extracted
      [Sample.stage_b_answer "Invoice_Processing - all checks passed"] in
  exists w4,
    auto_chain Sample.no_simulation (Sample.settings false) "ZAVA-0001" w
    = try_catch
        (do inv_result <-
           invoice_processing.trigger_invoice_processing
             (Sample.settings false) "ZAVA-0001";
         mark "ZAVA-0001" "stage_c_done"
           [("success", get_or "success" JNull inv_result)])
        (fun inv_err =>
           mark "ZAVA-0001" "stage_c_error"
             [("error", JStr (truncated 500 (exn_message inv_err)))])
        w4.
Proof.
  intros w.
  pose (run :=
    ai_processing.trigger_ai_processing Sample.no_simulation
      (Sample.settings false) "ZAVA-0001"
      (snd (mark "ZAVA-0001" "calling_stage_b" [] w))).
  assert (Hrun : run = (Ret (returned run), snd run))
    by (vm_compute; reflexivity).
  destruct (stage_c_iff_next_action_has_token Sample.no_simulation
              (Sample.settings false) "ZAVA-0001" w (returned run) (snd run))
    as [Hyes _]; [exact Hrun | vm_compute; reflexivity |].
  destruct (Hyes "Invoice_Processing - all checks passed")
    as (w3 & w4 & _ & _ & Heq);
    [vm_compute; reflexivity | vm_compute; reflexivity |].
  exists w4. exact Heq.
Defined.

(** An action the chain does not know: stage 3 is left alone and the
    ticket keeps the status stage 2 left. *)
Example auto_chain_skips_other_actions :
  let w :=
    Sample.world Sample.extracted [Sample.stage_b_answer "escalate"] in
  let run :=
    auto_chain Sample.no_simulation (Sample.settings false) "ZAVA-0001" w in
  fst run = Ret tt
  /\ trace (snd run)
     = [EvPost "https://zava-stage-b.example.net/api/process-ticket" None
          "ZAVA-0001"]
  /\ stored_path ["status"] "ZAVA-0001" (snd run) = Some (JStr "extracted")
  /\ stored_path ["_autochain"; "stage"] "ZAVA-0001" (snd run)
     = Some (JStr "skipped_stage_c").
Proof. cbv zeta. repeat split; vm_compute; reflexivity. Qed.

(** The next action the chain reads is [agentOutput.next_action] or the
    top-level [nextAction] of the result. A result of the shape the
    stage-2 local simulation returns has neither: the chain reads the
    empty string and does not go on to stage 3. *)
Example simulated_result_reads_empty :
  next_action_of Sample.simulated_ai_result = Ret (JStr "")
  /\ should_invoice (JStr "") = false.
Proof. split; reflexivity. Qed.

End AutoChainExamples.

(** ** The ticket table: create, read, delete *)

Section TicketTable.

Import memory_store.

Lemma setdefault_keeps {V} k k' (v x : V) d :
  Dict.get k d = Some x -> Dict.get k (Dict.setdefault k' v d) = Some x.
Proof.
  intros Hget. unfold Dict.setdefault, Dict.mem.
  destruct (Dict.get k' d) eqn:E; [exact Hget|].
  rewrite get_set_ne; [exact Hget|]. intros ->. congruence.
Qed.

Lemma setdefault_has {V} k (v : V) d :
  Dict.get k (Dict.setdefault k v d)
  = Some (match Dict.get k d with Some x => x | None => v end).
Proof.
  unfold Dict.setdefault, Dict.mem.
  destruct (Dict.get k d) eqn:E; [exact E | apply get_set_eq].
Qed.

Lemma with_defaults_keeps tid created updated doc k x :
  Dict.get k doc = Some x ->
  Dict.get k (with_defaults tid created updated doc) = Some x.
Proof.
  intros Hget. unfold with_defaults. now do 4 apply setdefault_keeps.
Qed.

Lemma with_defaults_has tid created updated doc :
  let stored := with_defaults tid created updated doc in
  Dict.get "id" stored
  = Some (match Dict.get "id" doc with Some x => x | None => tid end)
  /\ Dict.get "ticketId" stored
     = Some (match Dict.get "ticketId" doc with Some x => x | None => tid end)
  /\ Dict.get "createdAt" stored
     = Some (match Dict.get "createdAt" doc with
             | Some x => x
             | None => JStr created
             end)
  /\ Dict.get "updatedAt" stored
     = Some (match Dict.get "updatedAt" doc with
             | Some x => x
             | None => JStr updated
             end).
Proof.
  assert (Hother : forall (k k' : string) (v : json) d,
             k <> k' ->
             Dict.get k (Dict.setdefault k' v d) = Dict.get k d).
  { intros k k' v d Hne. unfold Dict.setdefault.
    destruct (Dict.mem k' d); [reflexivity | now apply get_set_ne]. }
  cbv zeta. unfold with_defaults.
  repeat split;
    rewrite ?Hother by discriminate; rewrite setdefault_has;
    rewrite ?Hother by discriminate; reflexivity.
Qed.


(** X2. Create, then read. For a document whose id (its [ticketId], or
    its [id] when that one is missing or falsy) is a non-empty string,
    [create_ticket] returns the stored document and [get_ticket] of that
    id returns the same document afterwards. The stored document keeps
    every field of the given one and has [id], [ticketId], [createdAt] and
    [updatedAt] (the given values when present, else the id and the
    current time); no other ticket changes. *)
Theorem create_then_get (doc : dict) (key : string) (w : World) :
  ticket_id_of doc = JStr key -> key <> "" ->
  exists m stored w',
    create_ticket doc = Some m
    /\ m w = (Ret stored, w')
    /\ get_ticket key w' = (Ret (Some stored), w')
    /\ (forall k v, Dict.get k doc = Some v -> Dict.get k stored = Some v)
    /\ Dict.get "id" stored
       = Some (match Dict.get "id" doc with
               | Some x => x | None => JStr key end)
    /\ Dict.get "ticketId" stored
       = Some (match Dict.get "ticketId" doc with
               | Some x => x | None => JStr key end)
    /\ Dict.get "createdAt" stored
       = Some (match Dict.get "createdAt" doc with
               | Some x => x
               | None => JStr (Clock.isoformat (clock w))
               end)
    /\ Dict.get "updatedAt" stored
       = Some (match Dict.get "updatedAt" doc with
               | Some x => x
               | None => JStr (Clock.isoformat (clock w))
               end)
    /\ (forall other, other <> key ->
          tickets w' !! other = tickets w !! other).
Proof.
  intros Hid Hne.
  set (now := Clock.isoformat (clock w)).
  set (stored := with_defaults (JStr key) now now doc).
  exists (do created <- _now_iso;
          do updated <- _now_iso;
          let stored := with_defaults (JStr key) created updated doc in
          (fun w => (Ret stored,
                     with_tickets (<[key := stored]> (tickets w)) w))),
         stored, (with_tickets (<[key := stored]> (tickets w)) w).
  destruct (with_defaults_has (JStr key) now now doc)
    as (Hi & Ht & Hc & Hu).
  split; [|split; [reflexivity|split; [|split; [|repeat split]]]];
    try assumption.
  - unfold create_ticket. rewrite Hid. cbn [truthy].
    apply String.eqb_neq in Hne. now rewrite Hne.
  - unfold get_ticket. cbn [tickets with_tickets].
    rewrite lookup_insert_eq. fold stored.
    destruct stored eqn:E; [|reflexivity].
    fold stored in Hi. rewrite E in Hi. discriminate.
  - intros k v Hget. now apply with_defaults_keeps.
  - intros other Hother. cbn [tickets with_tickets].
    now rewrite lookup_insert_ne.
Qed.

(** X3. [delete_ticket] returns whether the id was stored. Afterwards
    [get_ticket] of that id returns [None], every other ticket is as it
    was, and nothing else in the world has changed. *)
Theorem delete_ticket_spec (ticket_id : string) (w : World) :
  exists w',
    delete_ticket ticket_id w
    = (Ret (bool_decide (is_Some (tickets w !! ticket_id))), w')
    /\ get_ticket ticket_id w' = (Ret None, w')
    /\ (forall other, other <> ticket_id ->
          tickets w' !! other = tickets w !! other)
    /\ clock w' = clock w /\ remote w' = remote w /\ trace w' = trace w.
Proof.
  unfold delete_ticket, get_ticket.
  destruct (tickets w !! ticket_id) as [doc|] eqn:E.
  - eexists. split; [reflexivity|]. cbn [tickets with_tickets].
    rewrite lookup_delete_eq. repeat split.
    intros other Hne. now rewrite lookup_delete_ne.
  - exists w. rewrite E. repeat split.
Qed.

(** X4. Delete undoes create: creating a ticket under an id that is not
    in the table and deleting that id again gives back the world as it
    was. *)
Theorem delete_undoes_create (doc : dict) (key : string) (w : World) :
  ticket_id_of doc = JStr key -> key <> "" ->
  tickets w !! key = None ->
  exists m stored w',
    create_ticket doc = Some m
    /\ m w = (Ret stored, w')
    /\ delete_ticket key w' = (Ret true, w).
Proof.
  intros Hid Hne Hfresh. unfold create_ticket.
  rewrite Hid. cbn [truthy].
  apply String.eqb_neq in Hne. rewrite Hne. cbn [negb].
  eexists _, _, _. split; [reflexivity|]. split; [reflexivity|].
  unfold delete_ticket. cbn [tickets with_tickets].
  rewrite lookup_insert_eq. f_equal.
  unfold with_tickets. cbn. rewrite delete_insert_id by exact Hfresh.
  now destruct w.
Qed.

End TicketTable.

Section TicketTableExamples.

Import memory_store.


End TicketTableExamples.

Section TicketTableRoundTrips.

Import memory_store.

Lemma create_then_get_witness :
  let doc := [ ("ticketId", JStr "ZAVA-2026-00000042");
               ("status", JStr "ingested") ] in
  let w := Sample.world (Sample.ticket "extracted" JNull) [] in
  exists m stored w',
    create_ticket doc = Some m
    /\ m w = (Ret stored, w')
    /\ get_ticket "ZAVA-2026-00000042" w' = (Ret (Some stored), w')
    /\ Dict.get "status" stored = Some (JStr "ingested")
    /\ Dict.get "id" stored = Some (JStr "ZAVA-2026-00000042").
Proof.
  intros doc w.
  destruct (create_then_get doc "ZAVA-2026-00000042" w)
    as (m & stored & w' & Hm & Hrun & Hget & Hkeep & Hid & _);
    [reflexivity | discriminate |].
  exists m, stored, w'. repeat split; try assumption.
  now apply Hkeep.
Defined.

Lemma delete_undoes_create_witness :
  let doc := [ ("ticketId", JStr "ZAVA-2026-00000042");
               ("status", JStr "ingested") ] in
  let w := Sample.world (Sample.ticket "extracted" JNull) [] in
  exists m stored w',
    create_ticket doc = Some m
    /\ m w = (Ret stored, w')
    /\ delete_ticket "ZAVA-2026-00000042" w' = (Ret true, w).
Proof.
  intros doc w.
  apply (delete_undoes_create doc "ZAVA-2026-00000042" w);
    [reflexivity | discriminate | reflexivity].
Defined.

End TicketTableRoundTrips.

(** ** Deep merge: what a repeated or a partial patch does *)

Section DeepMergeAgain.

Import memory_store.

Lemma json_nested_ind (P : json -> Prop) :
  P JNull -> (forall b, P (JBool b)) -> (forall n, P (JInt n)) ->
  (forall q, P (JFloat q)) -> (forall s, P (JStr s)) ->
  (forall xs, List.Forall P xs -> P (JList xs)) ->
  (forall kvs, List.Forall (fun kv => P (snd kv)) kvs -> P (JObj kvs)) ->
  forall v, P v.
Proof.
  intros Hnull Hbool Hint Hfloat Hstr Hlist Hobj.
  fix IH 1. intros [| b | n | q | s | xs | kvs].
  - exact Hnull.
  - apply Hbool.
  - apply Hint.
  - apply Hfloat.
  - apply Hstr.
  - apply Hlist. induction xs as [|x r IHr]; constructor;
      [apply IH | exact IHr].
  - apply Hobj. induction kvs as [|[k x] r IHr]; constructor;
      [apply IH | exact IHr].
Qed.

Lemma set_same {V} k (v : V) d : Dict.get k d = Some v -> Dict.set k v d = d.
Proof.
  induction d as [|[k0 v0] r IH]; simpl; [discriminate|].
  destruct (String.eqb_spec k k0) as [->|Hne].
  - now intros [= ->].
  - intros Hr. now rewrite IH.
Qed.

(** A document that already holds, under every key of the overlay, what
    the merge would put there is left as it is. *)
Lemma deep_merge_fixed overlay : forall base,
  (forall k x, In (k, x) overlay ->
     Dict.get k base = Some (merge_value (Dict.get k base) x)) ->
  _deep_merge base overlay = base.
Proof.
  induction overlay as [|[k x] rest IH]; intros base Hfix; simpl;
    [reflexivity|].
  rewrite set_same by (symmetry; symmetry; apply Hfix; now left).
  apply IH. intros k' x' Hin. apply Hfix. now right.
Qed.

Lemma wf_dict_values d :
  wf_dict d = true -> List.Forall (fun kv => wf_json (snd kv) = true) d.
Proof.
  unfold wf_dict. simpl. intros [_ H]%andb_true_iff. revert H.
  induction d as [|[k x] r IH]; simpl; [constructor|].
  intros [Hx Hr]%andb_true_iff. constructor; auto.
Qed.

Lemma merge_value_leaf old v :
  (forall ov, v <> JObj ov) -> merge_value old v = v.
Proof. destruct v; try reflexivity. intros Hv. now destruct (Hv kvs). Qed.

(** Merging a value into itself changes nothing. *)
Lemma merge_value_self v : wf_json v = true -> merge_value (Some v) v = v.
Proof.
  induction v as [| | | | | xs _ | kvs IH] using json_nested_ind;
    try reflexivity.
  intros Hwf. rewrite merge_value_obj. f_equal.
  apply deep_merge_fixed. intros k x Hin.
  pose proof (in_get_some k x kvs
                (proj1 (nodup_keys_NoDup _) (wf_dict_nodup _ Hwf)) Hin) as Hget.
  rewrite Hget. f_equal. symmetry.
  rewrite List.Forall_forall in IH. apply (IH (k, x) Hin).
  exact (wf_dict_get _ _ _ Hwf Hget).
Qed.

(** Merging a value a second time changes nothing. *)
Lemma merge_value_again v : wf_json v = true -> forall old,
  merge_value (Some (merge_value old v)) v = merge_value old v.
Proof.
  induction v as [| | | | | xs _ | kvs IH] using json_nested_ind;
    try reflexivity.
  intros Hwf old.
  destruct old as [[| | | | | | bv]|];
    try (exact (merge_value_self (JObj kvs) Hwf)).
  rewrite !merge_value_obj. f_equal.
  apply deep_merge_fixed. intros k x Hin.
  pose proof (proj1 (nodup_keys_NoDup _) (wf_dict_nodup _ Hwf)) as Hnd.
  pose proof (in_get_some k x kvs Hnd Hin) as Hget.
  rewrite (deep_merge_get_in k x kvs bv (wf_dict_nodup _ Hwf) Hget).
  f_equal. symmetry.
  rewrite List.Forall_forall in IH. apply (IH (k, x) Hin).
  exact (wf_dict_get _ _ _ Hwf Hget).
Qed.

Lemma deep_merge_again base overlay :
  wf_dict overlay = true ->
  _deep_merge (_deep_merge base overlay) overlay = _deep_merge base overlay.
Proof.
  intros Hwf. apply deep_merge_fixed. intros k x Hin.
  pose proof (in_get_some k x overlay
                (proj1 (nodup_keys_NoDup _) (wf_dict_nodup _ Hwf)) Hin) as Hget.
  rewrite (deep_merge_get_in k x overlay base (wf_dict_nodup _ Hwf) Hget).
  f_equal. symmetry. apply merge_value_again.
  exact (wf_dict_get _ _ _ Hwf Hget).
Qed.

(** X5. The deep merge is idempotent: merging the same overlay a second
    time leaves the document as the first merge made it, key order
    included. *)
Theorem deep_merge_idempotent (base overlay : dict) :
  wf_dict overlay = true ->
  _deep_merge (_deep_merge base overlay) overlay = _deep_merge base overlay.
Proof. exact (deep_merge_again base overlay). Qed.

(** The keys of the merged document: those of the base in their order,
    then the new ones. *)
Lemma deep_merge_keys overlay : forall base,
  exists added,
    Dict.keys (_deep_merge base overlay) = (Dict.keys base ++ added)%list
    /\ List.Forall (fun k => In k (Dict.keys overlay)
                             /\ ~ In k (Dict.keys base)) added.
Proof.
  induction overlay as [|[k x] rest IH]; intros base; simpl.
  - exists []. split; [now rewrite app_nil_r | constructor].
  - destruct (IH (Dict.set k (merge_value (Dict.get k base) x) base))
      as (added & Hkeys & Hadded).
    destruct (Dict.mem k base) eqn:Hmem.
    + exists added. split.
      * now rewrite Hkeys, keys_set_mem.
      * eapply List.Forall_impl; [|exact Hadded]. cbn.
        intros a [Ha Hnew]. split; [now right|].
        now rewrite keys_set_mem in Hnew.
    + exists (k :: added). split.
      * rewrite Hkeys, set_fresh by exact Hmem.
        unfold Dict.keys. rewrite map_app. cbn. now rewrite <- app_assoc.
      * constructor.
        { split; [now left | now apply mem_false_notin]. }
        eapply List.Forall_impl; [|exact Hadded]. cbn.
        intros a [Ha Hnew]. split; [now right|].
        intros Hin. apply Hnew. rewrite set_fresh by exact Hmem.
        unfold Dict.keys. rewrite map_app. apply in_or_app. now left.
Qed.

Lemma keys_set {V} k (v : V) d :
  Dict.keys (Dict.set k v d)
  = (Dict.keys d ++ if Dict.mem k d then [] else [k])%list.
Proof.
  destruct (Dict.mem k d) eqn:Hmem.
  - now rewrite keys_set_mem, app_nil_r.
  - rewrite set_fresh by exact Hmem. unfold Dict.keys. now rewrite map_app.
Qed.

(** X6. A retried update is harmless: when [update_ticket] has applied a
    patch (one that does not set [updatedAt] itself), applying the same
    patch again before the clock moves returns the same document and
    leaves the table as it is. *)
Theorem update_ticket_twice (ticket_id : string) (patch doc' : dict)
    (w w' : World) :
  wf_dict patch = true ->
  Dict.get "updatedAt" patch = None ->
  update_ticket ticket_id patch w = (Ret (Some doc'), w') ->
  update_ticket ticket_id patch w' = (Ret (Some doc'), w').
Proof.
  intros Hwf Hstamp. unfold update_ticket.
  destruct (tickets w !! ticket_id) as [current|] eqn:Hcur; [|discriminate].
  intros [= <- <-]. cbn [tickets with_tickets clock].
  rewrite lookup_insert_eq.
  set (now := JStr (Clock.isoformat (clock w))).
  set (merged := _deep_merge current patch).
  assert (Hfixed : _deep_merge (Dict.set "updatedAt" now merged) patch
                   = Dict.set "updatedAt" now merged).
  { apply deep_merge_fixed. intros k x Hin.
    pose proof (in_get_some k x patch
                  (proj1 (nodup_keys_NoDup _) (wf_dict_nodup _ Hwf)) Hin) as Hget.
    assert (Hk : k <> "updatedAt") by (intros ->; congruence).
    rewrite get_set_ne by exact Hk. subst merged.
    rewrite (deep_merge_get_in k x patch current (wf_dict_nodup _ Hwf) Hget).
    f_equal. symmetry. apply merge_value_again.
    exact (wf_dict_get _ _ _ Hwf Hget). }
  rewrite Hfixed.
  rewrite (set_same "updatedAt" now) by apply get_set_eq.
  f_equal. unfold with_tickets. cbn. now rewrite insert_insert_eq.
Qed.

(** X7. An update never removes a top-level field and never reorders
    the existing ones: the keys of the updated document are the keys of
    the stored one, in their order, followed by the keys that are new
    (keys of the patch, and [updatedAt]). *)
Theorem update_ticket_keeps_fields (ticket_id : string) (patch doc : dict)
    (w : World) :
  tickets w !! ticket_id = Some doc ->
  exists doc' added,
    update_ticket ticket_id patch w
    = (Ret (Some doc'), with_tickets (<[ticket_id := doc']> (tickets w)) w)
    /\ Dict.keys doc' = (Dict.keys doc ++ added)%list
    /\ List.Forall (fun k => (In k (Dict.keys patch) \/ k = "updatedAt")
                             /\ ~ In k (Dict.keys doc)) added.
Proof.
  intros Hdoc. unfold update_ticket. rewrite Hdoc.
  destruct (deep_merge_keys patch doc) as (added & Hkeys & Hadded).
  set (merged := _deep_merge doc patch) in *.
  eexists _, (added ++ if Dict.mem "updatedAt" merged
                       then [] else ["updatedAt"])%list.
  split; [reflexivity|]. split.
  - now rewrite keys_set, Hkeys, <- app_assoc.
  - apply Forall_app. split.
    + eapply List.Forall_impl; [|exact Hadded]. cbn. tauto.
    + destruct (Dict.mem "updatedAt" merged) eqn:Hmem; constructor;
        [|constructor].
      split; [now right|]. intros Hin.
      apply mem_false_notin in Hmem. apply Hmem.
      fold (Dict.keys merged). rewrite Hkeys. apply in_or_app. now left.
Qed.

End DeepMergeAgain.

Section DeepMergeExamples.

Import memory_store.

Lemma deep_merge_idempotent_witness :
  _deep_merge
    (_deep_merge (Sample.ticket "ai_processed" JNull) Sample.error_patch)
    Sample.error_patch
  = _deep_merge (Sample.ticket "ai_processed" JNull) Sample.error_patch.
Proof. apply deep_merge_idempotent. reflexivity. Defined.

Lemma update_ticket_twice_witness :
  let w := Sample.world (Sample.ticket "ai_processed" JNull) [] in
  let run := update_ticket "ZAVA-0001" Sample.error_patch w in
  update_ticket "ZAVA-0001" Sample.error_patch (snd run) = run.
Proof.
  intros w run. subst run.
  destruct (update_ticket "ZAVA-0001" Sample.error_patch w)
    as [[[doc'|]|e] w'] eqn:E;
    [| vm_compute in E; discriminate | vm_compute in E; discriminate].
  apply (update_ticket_twice "ZAVA-0001" Sample.error_patch doc' w w');
    [reflexivity | reflexivity | exact E].
Defined.

Lemma update_ticket_keeps_fields_witness :
  let w := Sample.world (Sample.ticket "ai_processed" JNull) [] in
  exists doc' added,
    update_ticket "ZAVA-0001" [("_autochain", JObj [("stage", JStr "x")])] w
    = (Ret (Some doc'),
       with_tickets (<["ZAVA-0001" := doc']> (tickets w)) w)
    /\ Dict.keys doc'
       = (Dict.keys (Sample.ticket "ai_processed" JNull) ++ added)%list
    /\ List.Forall
         (fun k => (In k ["_autochain"] \/ k = "updatedAt")
                   /\ ~ In k (Dict.keys (Sample.ticket "ai_processed" JNull)))
         added.
Proof.
  intros w.
  apply (update_ticket_keeps_fields "ZAVA-0001"
           [("_autochain", JObj [("stage", JStr "x")])]
           (Sample.ticket "ai_processed" JNull) w).
  reflexivity.
Defined.

End DeepMergeExamples.
(** ** Computations: closure of the predicates under the monad *)

Section Computations.

Context {A B : Type}.
Implicit Types (m : M A) (f : A -> M B) (h : exn -> M A).

Lemma quiet_ret (a : A) : quiet (ret a).
Proof. intros w. reflexivity. Qed.

Lemma quiet_raise e : quiet (@raise A e).
Proof. intros w. reflexivity. Qed.

Lemma quiet_bind m f : quiet m -> (forall a, quiet (f a)) -> quiet (bind m f).
Proof.
  intros Hm Hf w. unfold bind. specialize (Hm w).
  destruct (m w) as [[a|e] w1]; cbn in *; [rewrite Hf|]; assumption.
Qed.

Lemma quiet_try_catch m h :
  quiet m -> (forall e, quiet (h e)) -> quiet (try_catch m h).
Proof.
  intros Hm Hh w. unfold try_catch. specialize (Hm w).
  destruct (m w) as [[a|e] w1]; cbn in *; [|rewrite Hh]; assumption.
Qed.

Lemma read_only_quiet m : read_only m -> quiet m.
Proof. intros Hm w. now rewrite Hm. Qed.

Lemma read_only_ret (a : A) : read_only (ret a).
Proof. intros w. reflexivity. Qed.

Lemma read_only_raise e : read_only (@raise A e).
Proof. intros w. reflexivity. Qed.

Lemma read_only_bind m f :
  read_only m -> (forall a, read_only (f a)) -> read_only (bind m f).
Proof.
  intros Hm Hf w. unfold bind. specialize (Hm w).
  destruct (m w) as [[a|e] w1]; cbn in *; subst; [apply Hf | reflexivity].
Qed.

Lemma never_raises_ret (a : A) : never_raises (ret a).
Proof. intros w. now exists a. Qed.

Lemma never_raises_bind m f :
  never_raises m -> (forall a, never_raises (f a)) -> never_raises (bind m f).
Proof.
  intros Hm Hf w. unfold bind. destruct (Hm w) as [a Ha].
  destruct (m w) as [[a'|e] w1]; cbn in *; [apply Hf | discriminate].
Qed.

Lemma never_raises_try_catch m h :
  (forall e, never_raises (h e)) -> never_raises (try_catch m h).
Proof.
  intros Hh w. unfold try_catch.
  destruct (m w) as [[a|e] w1]; cbn; [now exists a | apply Hh].
Qed.

Lemma python_errors_only_ret (a : A) : python_errors_only (ret a).
Proof. intros w e. discriminate. Qed.

Lemma python_errors_only_raise msg : python_errors_only (@raise A (PyError msg)).
Proof. intros w e [= <-]. now exists msg. Qed.

Lemma python_errors_only_bind m f :
  python_errors_only m -> (forall a, python_errors_only (f a)) ->
  python_errors_only (bind m f).
Proof.
  intros Hm Hf w e. unfold bind. specialize (Hm w).
  destruct (m w) as [[a|e'] w1]; cbn in *; [apply Hf|].
  intros [= <-]. now apply Hm.
Qed.

Lemma never_raises_python_errors_only m :
  never_raises m -> python_errors_only m.
Proof. intros Hm w e He. destruct (Hm w) as [a Ha]. congruence. Qed.

Lemma all_or_nothing_ret (a : A) : all_or_nothing (ret a).
Proof. intros w e w'. discriminate. Qed.

Lemma all_or_nothing_raise e : all_or_nothing (@raise A e).
Proof. intros w e' w'. now intros [= _ <-]. Qed.

Lemma never_raises_all_or_nothing m : never_raises m -> all_or_nothing m.
Proof.
  intros Hm w e w' He. destruct (Hm w) as [a Ha].
  rewrite He in Ha. discriminate.
Qed.

Lemma all_or_nothing_bind m f :
  read_only m -> (forall a, all_or_nothing (f a)) ->
  all_or_nothing (bind m f).
Proof.
  intros Hm Hf w e w'. unfold bind. specialize (Hm w).
  destruct (m w) as [[a|e'] w1]; cbn in *; subst w1.
  - apply Hf.
  - now intros [= _ <-].
Qed.

Lemma bind_trace_after m f w evs :
  trace (snd (m w)) = (trace w ++ evs)%list ->
  (forall a, quiet (f a)) ->
  trace (snd (bind m f w)) = (trace w ++ evs)%list.
Proof.
  intros Hm Hf. unfold bind.
  destruct (m w) as [[a|e] w1]; cbn [snd] in *; [rewrite Hf|]; exact Hm.
Qed.

Lemma try_catch_trace_after m h w evs :
  trace (snd (m w)) = (trace w ++ evs)%list ->
  (forall e, quiet (h e)) ->
  trace (snd (try_catch m h w)) = (trace w ++ evs)%list.
Proof.
  intros Hm Hh. unfold try_catch.
  destruct (m w) as [[a|e] w1]; cbn [snd] in *; [|rewrite Hh]; exact Hm.
Qed.

Lemma try_catch_python_errors m h :
  python_errors_only m ->
  (forall msg, never_raises (h (PyError msg))) ->
  never_raises (try_catch m h).
Proof.
  intros Hm Hh w. unfold try_catch. specialize (Hm w).
  destruct (m w) as [[a|e] w1]; cbn [fst] in *; [now exists a|].
  destruct (Hm e eq_refl) as [msg ->]. apply Hh.
Qed.

Lemma changes_only_ticket_refl ticket_id w : changes_only_ticket ticket_id w w.
Proof. repeat split. Qed.

Lemma changes_only_ticket_trans ticket_id w1 w2 w3 :
  changes_only_ticket ticket_id w1 w2 ->
  changes_only_ticket ticket_id w2 w3 ->
  changes_only_ticket ticket_id w1 w3.
Proof.
  intros (Hc & Hr & Hm & Ht & Ho) (Hc' & Hr' & Hm' & Ht' & Ho').
  repeat split; try congruence.
  intros other Hne. now rewrite Ho', Ho.
Qed.

Lemma local_to_ret ticket_id (a : A) : local_to ticket_id (ret a).
Proof. intros w. apply changes_only_ticket_refl. Qed.

Lemma local_to_raise ticket_id e : local_to ticket_id (@raise A e).
Proof. intros w. apply changes_only_ticket_refl. Qed.

Lemma read_only_local_to ticket_id m : read_only m -> local_to ticket_id m.
Proof. intros Hm w. rewrite Hm. apply changes_only_ticket_refl. Qed.

Lemma local_to_bind ticket_id m f :
  local_to ticket_id m -> (forall a, local_to ticket_id (f a)) ->
  local_to ticket_id (bind m f).
Proof.
  intros Hm Hf w. unfold bind. specialize (Hm w).
  destruct (m w) as [[a|e] w1]; cbn in *; [|assumption].
  eapply changes_only_ticket_trans; [exact Hm | apply Hf].
Qed.

Lemma local_to_try_catch ticket_id m h :
  local_to ticket_id m -> (forall e, local_to ticket_id (h e)) ->
  local_to ticket_id (try_catch m h).
Proof.
  intros Hm Hh w. unfold try_catch. specialize (Hm w).
  destruct (m w) as [[a|e] w1]; cbn in *; [assumption|].
  eapply changes_only_ticket_trans; [exact Hm | apply Hh].
Qed.

Lemma local_to_quiet ticket_id m : local_to ticket_id m -> quiet m.
Proof. intros Hm w. now destruct (Hm w) as (_ & _ & _ & Ht & _). Qed.

End Computations.

Lemma try_catch_bind_ret {A B} (m : M A) (f : A -> M B) h w a w1 :
  m w = (Ret a, w1) -> try_catch (bind m f) h w = try_catch (f a) h w1.
Proof. intros Hm. unfold try_catch, bind. now rewrite Hm. Qed.

Lemma try_catch_bind_raise {A B} (m : M A) (f : A -> M B) h w e w1 :
  m w = (Raise e, w1) -> try_catch (bind m f) h w = h e w1.
Proof. intros Hm. unfold try_catch, bind. now rewrite Hm. Qed.

(** The primitives. *)
Section Primitives.

Lemma read_only_perf_counter : read_only perf_counter.
Proof. intros w. reflexivity. Qed.

Lemma read_only_elapsed_ms start : read_only (elapsed_ms start).
Proof. intros w. reflexivity. Qed.

Lemma never_raises_perf_counter : never_raises perf_counter.
Proof. intros w. now eexists. Qed.

Lemma never_raises_elapsed_ms start : never_raises (elapsed_ms start).
Proof. intros w. now eexists. Qed.

Lemma read_only_now_iso : read_only memory_store._now_iso.
Proof. intros w. reflexivity. Qed.

Lemma never_raises_now_iso : never_raises memory_store._now_iso.
Proof. intros w. now eexists. Qed.

Lemma read_only_py_get v k d : read_only (Py.get v k d).
Proof. intros w. now destruct v. Qed.

Lemma python_errors_only_py_get v k d : python_errors_only (Py.get v k d).
Proof. intros w e. destruct v; cbn; intros [= <-]; now eexists. Qed.

Lemma read_only_py_get_by_value v key d : read_only (Py.get_by_value v key d).
Proof. intros w. now destruct v, key. Qed.

Lemma python_errors_only_py_get_by_value v key d :
  python_errors_only (Py.get_by_value v key d).
Proof. intros w e. destruct v, key; cbn; intros [= <-]; now eexists. Qed.

Lemma read_only_get_ticket ticket_id : read_only (storage.get_ticket ticket_id).
Proof. intros w. apply get_ticket_world. Qed.

Lemma quiet_update_ticket ticket_id patch :
  quiet (storage.update_ticket ticket_id patch).
Proof.
  intros w. unfold storage.update_ticket, memory_store.update_ticket.
  now destruct (tickets w !! ticket_id).
Qed.

Lemma never_raises_update_ticket ticket_id patch :
  never_raises (storage.update_ticket ticket_id patch).
Proof.
  intros w. unfold storage.update_ticket, memory_store.update_ticket.
  destruct (tickets w !! ticket_id); now eexists.
Qed.

Lemma local_to_update_ticket ticket_id patch :
  local_to ticket_id (storage.update_ticket ticket_id patch).
Proof.
  intros w. unfold storage.update_ticket, memory_store.update_ticket.
  destruct (tickets w !! ticket_id); repeat split.
  intros other Hne. cbn. now rewrite lookup_insert_ne.
Qed.

Lemma local_to_randint ticket_id lo hi : local_to ticket_id (randint lo hi).
Proof. intros w. unfold randint. destruct (randoms w); repeat split. Qed.

Lemma quiet_randint lo hi : quiet (randint lo hi).
Proof. intros w. unfold randint. now destruct (randoms w). Qed.

Lemma never_raises_randint lo hi : never_raises (randint lo hi).
Proof. intros w. unfold randint. destruct (randoms w); now eexists. Qed.

End Primitives.

Create HintDb quiet discriminated.
Create HintDb read_only discriminated.
Create HintDb never_raises discriminated.
Create HintDb python_errors_only discriminated.
Create HintDb local_to discriminated.
#[export] Hint Resolve quiet_ret quiet_raise quiet_update_ticket quiet_randint
  : quiet.
#[export] Hint Resolve read_only_ret read_only_raise read_only_perf_counter
  read_only_elapsed_ms read_only_now_iso read_only_py_get
  read_only_py_get_by_value read_only_get_ticket : read_only.
#[export] Hint Resolve never_raises_ret never_raises_perf_counter
  never_raises_elapsed_ms never_raises_now_iso never_raises_update_ticket
  never_raises_randint : never_raises.
#[export] Hint Resolve python_errors_only_ret python_errors_only_raise
  python_errors_only_py_get python_errors_only_py_get_by_value
  : python_errors_only.

#[export] Hint Resolve local_to_ret local_to_raise local_to_update_ticket
  local_to_randint : local_to.

(** Case analysis on whatever the computation in the goal branches on. *)
Ltac branch :=
  match goal with
  | |- _ (if ?c then _ else _) => destruct c
  | |- _ (match ?x with _ => _ end) => destruct x
  | |- _ (let '(_, _) := ?x in _) => destruct x
  end.

Ltac read_only_tac :=
  repeat first
    [ solve [auto with read_only]
    | apply read_only_bind; [|intros ?]
    | branch ].

Ltac never_raises_tac :=
  repeat first
    [ solve [auto with never_raises]
    | apply never_raises_bind; [|intros ?]
    | branch ].

Ltac python_errors_only_tac :=
  repeat first
    [ solve [auto with python_errors_only]
    | solve [apply never_raises_python_errors_only; never_raises_tac]
    | apply python_errors_only_bind; [|intros ?]
    | branch ].

Ltac quiet_tac :=
  repeat first
    [ solve [auto with quiet]
    | solve [apply read_only_quiet; read_only_tac]
    | apply quiet_bind; [|intros ?]
    | apply quiet_try_catch; [|intros ?]
    | branch ].

Ltac local_to_tac :=
  repeat first
    [ solve [auto with local_to]
    | solve [apply read_only_local_to; read_only_tac]
    | apply local_to_bind; [|intros ?]
    | apply local_to_try_catch; [|intros ?]
    | branch ].

Ltac all_or_nothing_tac :=
  repeat first
    [ apply all_or_nothing_ret
    | apply all_or_nothing_raise
    | solve [apply never_raises_all_or_nothing; never_raises_tac]
    | apply all_or_nothing_bind; [solve [read_only_tac] | intros ?]
    | branch ].

(** ** The stage-3 local simulation as a computation *)

Section Stage3Computation.

Import invoice_processing.
Context `{PyLib}.

Lemma read_only_read_inputs ticket : read_only (read_inputs ticket).
Proof. unfold read_inputs. read_only_tac. Qed.

Lemma python_errors_only_read_inputs ticket :
  python_errors_only (read_inputs ticket).
Proof. unfold read_inputs. python_errors_only_tac. Qed.

Lemma read_only_invoice_number_check v : read_only (invoice_number_check v).
Proof. unfold invoice_number_check. read_only_tac. Qed.

Lemma python_errors_only_invoice_number_check v :
  python_errors_only (invoice_number_check v).
Proof.
  unfold invoice_number_check, Py.attribute_error. python_errors_only_tac.
Qed.

Lemma read_only_number_of v : read_only (number_of v).
Proof. unfold number_of. read_only_tac. Qed.

Lemma python_errors_only_number_of v : python_errors_only (number_of v).
Proof. unfold number_of, Py.compare_error. python_errors_only_tac. Qed.

Lemma read_only_load_code_mappings : read_only _load_code_mappings.
Proof. intros w. reflexivity. Qed.

Lemma never_raises_load_code_mappings : never_raises _load_code_mappings.
Proof. intros w. now eexists. Qed.

#[local] Hint Resolve read_only_read_inputs read_only_invoice_number_check
  read_only_number_of read_only_load_code_mappings : read_only.
#[local] Hint Resolve python_errors_only_read_inputs
  python_errors_only_invoice_number_check python_errors_only_number_of
  : python_errors_only.
#[local] Hint Resolve never_raises_load_code_mappings : never_raises.

Lemma quiet_simulate_invoice ticket ticket_id :
  quiet (_simulate_invoice_processing ticket ticket_id).
Proof. unfold _simulate_invoice_processing. quiet_tac. Qed.

Lemma python_errors_only_simulate_invoice ticket ticket_id :
  python_errors_only (_simulate_invoice_processing ticket ticket_id).
Proof. unfold _simulate_invoice_processing. python_errors_only_tac. Qed.

Lemma all_or_nothing_simulate_invoice ticket ticket_id :
  all_or_nothing (_simulate_invoice_processing ticket ticket_id).
Proof. unfold _simulate_invoice_processing. all_or_nothing_tac. Qed.

Lemma local_to_simulate_invoice ticket ticket_id :
  local_to ticket_id (_simulate_invoice_processing ticket ticket_id).
Proof. unfold _simulate_invoice_processing. local_to_tac. Qed.

(** X8. The stage-3 local simulation is local and atomic. Whatever the
    ticket holds, a run changes nothing but the document stored under
    its own id and the state of the random generator: it makes no
    network call, does not sleep, and leaves every other ticket alone.
    A run that raises does so with an ordinary Python error (never one
    of the transport exceptions) before anything is written: the world
    is then exactly as it was. *)
Theorem stage3_simulation_is_local_and_atomic
    (ticket : dict) (ticket_id : string) (w : World) :
  let run := _simulate_invoice_processing ticket ticket_id w in
  changes_only_ticket ticket_id w (snd run)
  /\ forall e, fst run = Raise e ->
       snd run = w /\ exists msg, e = PyError msg.
Proof.
  cbv zeta. split; [apply local_to_simulate_invoice|].
  intros e He. split.
  - apply (all_or_nothing_simulate_invoice ticket ticket_id w e).
    destruct (_simulate_invoice_processing ticket ticket_id w) as [o w'].
    cbn in He |- *. now subst o.
  - exact (python_errors_only_simulate_invoice ticket ticket_id w e He).
Qed.

End Stage3Computation.
(** ** The stage triggers: what a call may cost, and what it never does *)

Section TriggerBudget.

Import remote_stage.
Context `{PyLib}.

Variables (st : Stage) (settings : Settings) (ticket_id : string).

Lemma quiet_persist_error msg elapsed :
  quiet (persist_error st ticket_id msg elapsed).
Proof. apply quiet_update_ticket. Qed.

Lemma never_raises_persist_error msg elapsed :
  never_raises (persist_error st ticket_id msg elapsed).
Proof. apply never_raises_update_ticket. Qed.

Lemma quiet_success_of body elapsed : quiet (success_of body elapsed).
Proof. unfold success_of. quiet_tac. Qed.

Lemma python_errors_only_success_of body elapsed :
  python_errors_only (success_of body elapsed).
Proof. unfold success_of. python_errors_only_tac. Qed.

Lemma quiet_conflict_of body : quiet (conflict_of body).
Proof. unfold conflict_of. quiet_tac. Qed.

Lemma python_errors_only_conflict_of body :
  python_errors_only (conflict_of body).
Proof. unfold conflict_of. python_errors_only_tac. Qed.

(** One post adds one event, whatever it meets. *)
Lemma post_trace w :
  trace (snd (post st settings ticket_id w))
  = (trace w ++ [post_event st settings ticket_id])%list.
Proof.
  unfold post, post_event, http_post, bind, log_event. cbn.
  destruct (remote w) as [|[o dt] rest]; [reflexivity|].
  now destruct o.
Qed.

(** A post that returns met a response. *)
Lemma post_returns w status body w1 :
  post st settings ticket_id w = (Ret (status, body), w1) ->
  exists dt rest, remote w = (HttpResponse status body, dt) :: rest.
Proof.
  unfold post, http_post, bind, log_event. cbn.
  destruct (remote w) as [|[o dt] rest]; [discriminate|].
  destruct o; try discriminate. intros [= -> -> _]. now eexists _, _.
Qed.

(** A post that fails with a connection error met one, or nothing. *)
Lemma post_connect_error w msg w1 :
  post st settings ticket_id w = (Raise (ConnectError msg), w1) ->
  remote w = []
  \/ exists dt rest, remote w = (HttpConnectError msg, dt) :: rest.
Proof.
  unfold post, http_post, bind, log_event. cbn.
  destruct (remote w) as [|[o dt] rest]; [now left|].
  destruct o; try discriminate. intros [= -> _]. right. now eexists _, _.
Qed.

Lemma never_raises_retry_once start :
  never_raises (retry_once st settings ticket_id start).
Proof.
  unfold retry_once. apply never_raises_bind.
  - intros w. now eexists.
  - intros _. apply never_raises_try_catch. intros e. apply never_raises_ret.
Qed.

(** The retry: one sleep and one post. *)
Lemma retry_once_trace start w :
  trace (snd (retry_once st settings ticket_id start w))
  = (trace w ++ [EvSleep (retry_delay st);
                 post_event st settings ticket_id])%list.
Proof.
  unfold retry_once, bind at 1. rewrite sleep_step.
  change (trace w ++ [EvSleep (retry_delay st);
                      post_event st settings ticket_id])%list
    with (trace w ++ [EvSleep (retry_delay st)]
          ++ [post_event st settings ticket_id])%list.
  rewrite app_assoc.
  change (trace w ++ [EvSleep (retry_delay st)])%list
    with (trace (slept (retry_delay st) w)).
  apply try_catch_trace_after; [|intros e; apply quiet_ret].
  apply bind_trace_after; [apply post_trace|].
  intros [status body]. pose proof quiet_success_of. quiet_tac.
Qed.

Section WithSimulation.

(** The local simulation makes no network call and does not sleep. *)
Hypothesis Hquiet : forall ticket id, quiet (simulate st ticket id).

Lemma quiet_handle ticket start e : quiet (handle st ticket ticket_id start e).
Proof using Hquiet.
  pose proof quiet_persist_error. unfold handle. destruct e; quiet_tac.
Qed.

Lemma quiet_fallback_or_error ticket start status :
  quiet (fallback_or_error st settings ticket ticket_id start status).
Proof using Hquiet.
  pose proof quiet_persist_error. unfold fallback_or_error. quiet_tac.
Qed.

(** What follows the first response, when it is not a 503. *)
Lemma quiet_after_response ticket start status body :
  status <> 503 ->
  quiet (do elapsed <- elapsed_ms start;
         if status =? 200 then success_of body elapsed
         else if status =? 404 then
           ret (failure (JStr "Ticket not found by processing function"))
         else if status =? 409 then conflict_of body
         else
           do retried <- (if status =? 503
                          then retry_once st settings ticket_id start
                          else ret None);
           match retried with
           | Some result => ret result
           | None =>
               fallback_or_error st settings ticket ticket_id start status
           end).
Proof using Hquiet.
  intros Hne. apply Z.eqb_neq in Hne. rewrite Hne.
  pose proof quiet_success_of. pose proof quiet_conflict_of.
  pose proof quiet_fallback_or_error. quiet_tac.
Qed.

(** X9. The network budget of a trigger. Provided the local simulation
    itself stays off the network, one call of a stage trigger makes no
    request at all, or one POST, or one POST, one sleep of the retry
    delay and a second POST; the third only after a 503 answer to the
    first. Both requests go to the stage's URL with the same key and
    ticket id. With no URL configured, or in development mode with a
    [localhost] URL, there is no request. *)
Theorem trigger_network_budget (w : World) :
  let request := post_event st settings ticket_id in
  let after := trace (snd (trigger st settings ticket_id w)) in
  (uses_remote st settings = false -> after = trace w)
  /\ (after = trace w
      \/ after = (trace w ++ [request])%list
      \/ (after = (trace w
                   ++ [request; EvSleep (retry_delay st); request])%list
          /\ exists body dt rest,
               remote w = (HttpResponse 503 body, dt) :: rest)).
Proof using Hquiet.
  cbv zeta.
  destruct (tickets w !! ticket_id) as [ticket|] eqn:Hstored.
  2: { assert (Hrun : snd (trigger st settings ticket_id w) = w).
       { unfold trigger, bind at 1, perf_counter. unfold bind at 1.
         unfold storage.get_ticket, memory_store.get_ticket.
         now rewrite Hstored. }
       rewrite Hrun. split; [reflexivity | now left]. }
  destruct (guard_rejects st (status_of ticket)) eqn:Hguard.
  { destruct (trigger_rejected st settings ticket_id w ticket Hstored Hguard)
      as (r & msg & Hrun & _).
    rewrite Hrun. split; [reflexivity | now left]. }
  destruct ticket as [|kv more] eqn:Hticket.
  { assert (Hrun : snd (trigger st settings ticket_id w) = w).
    { unfold trigger, bind at 1, perf_counter. unfold bind at 1.
      unfold storage.get_ticket, memory_store.get_ticket.
      now rewrite Hstored. }
    rewrite Hrun. split; [reflexivity | now left]. }
  rewrite <- Hticket in *.
  assert (Hne : ticket <> []) by (rewrite Hticket; discriminate).
  rewrite (trigger_accepted st settings ticket_id w ticket Hstored Hne Hguard).
  destruct (uses_remote st settings).
  2: { rewrite Hquiet. split; [reflexivity | now left]. }
  split; [discriminate|].
  unfold call_remote.
  pose proof (post_trace w) as Hpost.
  destruct (post st settings ticket_id w) as [[[status body]|e] w1] eqn:Hrun;
    cbn [snd] in Hpost.
  2: { right. left. rewrite (try_catch_bind_raise _ _ _ _ _ _ Hrun).
       now rewrite quiet_handle. }
  rewrite (try_catch_bind_ret _ _ _ _ _ _ Hrun).
  destruct (Z.eq_dec status 503) as [->|Hother].
  - right. right. split; [|exists body; exact (post_returns _ _ _ _ Hrun)].
    change (trace w ++ [post_event st settings ticket_id;
                        EvSleep (retry_delay st);
                        post_event st settings ticket_id])%list
      with (trace w ++ [post_event st settings ticket_id]
            ++ [EvSleep (retry_delay st);
                post_event st settings ticket_id])%list.
    rewrite app_assoc, <- Hpost.
    apply try_catch_trace_after; [|intros e; apply quiet_handle].
    unfold bind at 1, elapsed_ms, bind at 1, perf_counter, ret at 1.
    cbn [Z.eqb Pos.eqb].
    apply bind_trace_after; [apply retry_once_trace|].
    intros [result|]; [apply quiet_ret | apply quiet_fallback_or_error].
  - right. left. rewrite <- Hpost.
    apply (quiet_try_catch _ _
             (quiet_after_response ticket (clock w) status body Hother)
             (quiet_handle ticket (clock w))).
Qed.

End WithSimulation.

Section WithPythonErrors.

(** The local simulation raises ordinary Python errors only. *)
Hypothesis Hpython :
  forall ticket id, python_errors_only (simulate st ticket id).

Lemma never_raises_handle ticket start e :
  (forall msg, e <> ConnectError msg) ->
  never_raises (handle st ticket ticket_id start e).
Proof.
  pose proof never_raises_persist_error.
  intros Hne. unfold handle. destruct e as [msg|msg|msg].
  - never_raises_tac.
  - now destruct (Hne msg).
  - never_raises_tac.
Qed.

Lemma python_errors_only_after_response ticket start status body :
  python_errors_only
    (do elapsed <- elapsed_ms start;
     if status =? 200 then success_of body elapsed
     else if status =? 404 then
       ret (failure (JStr "Ticket not found by processing function"))
     else if status =? 409 then conflict_of body
     else
       do retried <- (if status =? 503
                      then retry_once st settings ticket_id start
                      else ret None);
       match retried with
       | Some result => ret result
       | None =>
           fallback_or_error st settings ticket ticket_id start status
       end).
Proof using Hpython.
  pose proof python_errors_only_success_of.
  pose proof python_errors_only_conflict_of.
  pose proof never_raises_persist_error.
  pose proof never_raises_retry_once.
  unfold fallback_or_error. python_errors_only_tac.
Qed.


End WithPythonErrors.

End TriggerBudget.

(** ** The stage triggers: the answers of the remote function *)

Section RemoteAnswers.

Import remote_stage.
Context `{PyLib}.

(** [{**base, **overlay}]: the overlay wins. *)
Lemma get_update {V} k (overlay : list (string * V)) : forall base,
  nodup_keys (Dict.keys overlay) = true ->
  Dict.get k (Dict.update base overlay)
  = match Dict.get k overlay with
    | Some x => Some x
    | None => Dict.get k base
    end.
Proof.
  unfold Dict.update.
  induction overlay as [|[k0 v0] rest IH]; intros base; cbn -[String.eqb];
    [reflexivity|].
  rewrite andb_true_iff, negb_true_iff, existsb_eqb_false.
  intros [Hfresh Hnd]. rewrite (IH _ Hnd).
  destruct (String.eqb_spec k k0) as [->|Hne].
  - apply get_none_iff in Hfresh. rewrite Hfresh. apply get_set_eq.
  - destruct (Dict.get k rest); [reflexivity | now apply get_set_ne].
Qed.

Lemma nodup_keys_set {V} k (v : V) d :
  nodup_keys (Dict.keys d) = true ->
  nodup_keys (Dict.keys (Dict.set k v d)) = true.
Proof.
  rewrite !nodup_keys_NoDup, keys_set. intros Hnd.
  destruct (Dict.mem k d) eqn:Hmem; [now rewrite app_nil_r|].
  apply List.NoDup_app; repeat split; try assumption.
  - repeat constructor. intros [].
  - intros a Ha [<-|[]]. now apply mem_false_notin in Hmem.
Qed.

Variables (st : Stage) (settings : Settings) (ticket_id : string).
Variables (w : World) (ticket : dict).
Variables (dt : Z) (rest : list (http_outcome * Z)).

Hypothesis Hstored : tickets w !! ticket_id = Some ticket.
Hypothesis Hnonempty : ticket <> [].
Hypothesis Hguard : guard_rejects st (status_of ticket) = false.
Hypothesis Hremote : uses_remote st settings = true.

(** X11. A 200 answer with a JSON object is the result. The trigger
    returns the object of the remote function with [processingTimeMs]
    set to the time the request took, and with [success] true unless the
    object has a [success] field of its own, which wins. The caller
    writes nothing to the table and makes that one request. *)
Theorem remote_success_is_returned (body : dict) :
  nodup_keys (Dict.keys body) = true ->
  remote w = (HttpResponse 200 (JsonBody (JObj body)), dt) :: rest ->
  exists result w',
    trigger st settings ticket_id w = (Ret result, w')
    /\ tickets w' = tickets w
    /\ trace w' = (trace w ++ [post_event st settings ticket_id])%list
    /\ Dict.get "processingTimeMs" result = Some (JInt (dt / 1000))
    /\ Dict.get "success" result
       = Some (match Dict.get "success" body with
               | Some v => v
               | None => JBool true
               end)
    /\ forall k, k <> "success" -> k <> "processingTimeMs" ->
                 Dict.get k result = Dict.get k body.
Proof using Hstored Hnonempty Hguard Hremote.
  intros Hnd Hscript.
  rewrite (trigger_calls_remote st settings ticket_id w ticket
             Hstored Hnonempty Hguard Hremote).
  unfold try_catch.
  rewrite (call_remote_response st settings ticket_id w ticket dt rest
             200 _ Hscript).
  cbn [Z.eqb Pos.eqb success_of ret].
  eexists _, _. split; [reflexivity|].
  split; [reflexivity|]. split; [reflexivity|].
  assert (Hel : (clock (after_first_post st settings ticket_id dt rest w)
                 - clock w) / 1000 = dt / 1000)
    by (cbn; f_equal; lia).
  rewrite Hel.
  pose proof (nodup_keys_set "processingTimeMs" (JInt (dt / 1000)) body Hnd)
    as Hnd'.
  repeat split.
  - rewrite get_update by exact Hnd'. now rewrite get_set_eq.
  - rewrite get_update by exact Hnd'.
    rewrite get_set_ne by discriminate.
    now destruct (Dict.get "success" body).
  - intros k Hk1 Hk2. rewrite get_update by exact Hnd'.
    rewrite get_set_ne by exact Hk2.
    destruct (Dict.get k body) eqn:E; [reflexivity|].
    cbn -[String.eqb]. now destruct (String.eqb_spec k "success").
Qed.

(** X12. A refusal of the remote function is final. A 404 answer, and a
    409 answer with a JSON object, are reported as failure (for 409 with
    the [error] text of the object, ["Status conflict"] when it has
    none): one request, no retry, no local simulation, and nothing
    written to the table, with the simulation fallback enabled or not. *)
Theorem remote_refusal_is_final (status : Z) (body : http_body) :
  remote w = (HttpResponse status body, dt) :: rest ->
  status = 404
  \/ (status = 409 /\ exists fields, body = JsonBody (JObj fields)) ->
  trigger st settings ticket_id w
  = (Ret (failure
            (if status =? 404
             then JStr "Ticket not found by processing function"
             else match body with
                  | JsonBody (JObj fields) =>
                      match Dict.get "error" fields with
                      | Some e => e
                      | None => JStr "Status conflict"
                      end
                  | _ => JNull
                  end)),
     after_first_post st settings ticket_id dt rest w).
Proof using Hstored Hnonempty Hguard Hremote.
  intros Hscript Hstatus.
  rewrite (trigger_calls_remote st settings ticket_id w ticket
             Hstored Hnonempty Hguard Hremote).
  unfold try_catch.
  rewrite (call_remote_response st settings ticket_id w ticket dt rest
             status body Hscript).
  destruct Hstatus as [->|[-> [fields ->]]]; reflexivity.
Qed.

(** X13. A 200 answer that cannot be read is an error. When the body of
    a 200 answer is not JSON, the trigger reports failure with the
    message ["Stage <letter> call failed: <decode error>"] and sets the
    ticket to [error] with that message in the stage record: the local
    simulation is not tried, whatever the fallback setting. *)
Theorem unreadable_success_is_an_error (decode_error : string) :
  record_field st <> "status" -> record_field st <> "updatedAt" ->
  remote w
  = (HttpResponse 200 (NotJson decode_error), dt) :: rest ->
  exists w',
    trigger st settings ticket_id w
    = (Ret (failure (JStr (failed_message st decode_error))), w')
    /\ stored_path ["status"] ticket_id w' = Some (JStr "error")
    /\ stored_path [record_field st; "errorMessage"] ticket_id w'
       = Some (JStr (failed_message st decode_error))
    /\ trace w' = (trace w ++ [post_event st settings ticket_id])%list.
Proof using Hstored Hnonempty Hguard Hremote.
  intros Hf1 Hf2 Hscript.
  rewrite (trigger_calls_remote st settings ticket_id w ticket
             Hstored Hnonempty Hguard Hremote).
  unfold try_catch.
  rewrite (call_remote_response st settings ticket_id w ticket dt rest
             200 _ Hscript).
  cbn [Z.eqb Pos.eqb success_of raise handle].
  set (w1 := after_first_post st settings ticket_id dt rest w).
  destruct (persist_error_spec st ticket_id ticket
              (failed_message st decode_error)
              ((clock w1 - clock w) / 1000) w1 Hf1 Hf2 Hstored)
    as (doc' & Heq & Hstatus & _ & Hmsg).
  eexists. unfold bind at 1, elapsed_ms, bind at 1, perf_counter, ret at 1.
  unfold bind at 1. rewrite Heq. split; [reflexivity|].
  unfold stored_path. cbn [tickets with_tickets].
  rewrite lookup_insert_eq. repeat split; assumption.
Qed.

End RemoteAnswers.

Section TriggerBudgetExamples.

Import remote_stage invoice_processing.
#[local] Existing Instance Sample.pylib.

Lemma trigger_network_budget_witness :
  let w := Sample.world Sample.cleared [Sample.busy; Sample.busy] in
  let request := post_event stage_c (Sample.settings false) "ZAVA-0001" in
  let after :=
    trace (snd (trigger stage_c (Sample.settings false) "ZAVA-0001" w)) in
  (uses_remote stage_c (Sample.settings false) = false -> after = trace w)
  /\ (after = trace w
      \/ after = (trace w ++ [request])%list
      \/ (after = (trace w ++ [request; EvSleep 10; request])%list
          /\ exists body dt rest,
               remote w = (HttpResponse 503 body, dt) :: rest)).
Proof.
  intros w.
  apply (trigger_network_budget stage_c (Sample.settings false) "ZAVA-0001").
  intros ticket id. apply quiet_simulate_invoice.
Defined.


Lemma remote_success_is_returned_witness :
  let body := [ ("ticketId", JStr "ZAVA-0001");
                ("status", JStr "invoice_processed");
                ("success", JBool false) ] in
  let w := Sample.world Sample.cleared
             [(HttpResponse 200 (JsonBody (JObj body)), 2500000)] in
  exists result w',
    trigger stage_c (Sample.settings false) "ZAVA-0001" w = (Ret result, w')
    /\ tickets w' = tickets w
    /\ Dict.get "processingTimeMs" result = Some (JInt 2500)
    /\ Dict.get "success" result = Some (JBool false).
Proof.
  intros body w.
  destruct (remote_success_is_returned stage_c (Sample.settings false)
              "ZAVA-0001" w Sample.cleared 2500000 [])
    with (body := body)
    as (result & w' & Hrun & Htickets & _ & Htime & Hsuccess & _);
    try reflexivity; try discriminate.
  exists result, w'. repeat split; assumption.
Defined.

Lemma remote_refusal_is_final_witness :
  let w := Sample.world Sample.cleared
             [(HttpResponse 409
                 (JsonBody (JObj [("error", JStr "Already processed")])),
               400000)] in
  trigger stage_c (Sample.settings true) "ZAVA-0001" w
  = (Ret (failure (JStr "Already processed")),
     after_first_post stage_c (Sample.settings true) "ZAVA-0001" 400000 [] w).
Proof.
  intros w.
  apply (remote_refusal_is_final stage_c (Sample.settings true) "ZAVA-0001"
           w Sample.cleared 400000 [])
    with (status := 409)
         (body := JsonBody (JObj [("error", JStr "Already processed")]));
    try reflexivity; try discriminate.
  right. split; [reflexivity | now eexists].
Defined.

Lemma unreadable_success_is_an_error_witness :
  let w := Sample.world Sample.cleared
             [(HttpResponse 200
                 (NotJson "Expecting value: line 1 column 1 (char 0)"),
               400000)] in
  exists w',
    trigger stage_c (Sample.settings false) "ZAVA-0001" w
    = (Ret (failure
              (JStr "Stage C call failed: Expecting value: line 1 column 1 (char 0)")),
       w')
    /\ stored_path ["status"] "ZAVA-0001" w' = Some (JStr "error").
Proof.
  intros w.
  destruct (unreadable_success_is_an_error stage_c (Sample.settings false)
              "ZAVA-0001" w Sample.cleared 400000 [])
    with (decode_error := "Expecting value: line 1 column 1 (char 0)")
    as (w' & Hrun & Hstatus & _);
    try reflexivity; try discriminate.
  exists w'. split; assumption.
Defined.

End TriggerBudgetExamples.
(** ** The stage-3 local simulation: when a payment is made *)

Section Stage3Payments.

Import invoice_processing.
Context `{PyLib}.

Lemma ltb_lt (a b : Q) : Py.ltb a b = true <-> (a < b)%Q.
Proof.
  unfold Py.ltb. rewrite Qlt_alt.
  destruct (a ?= b)%Q; split; congruence.
Qed.

(** The run of the simulation on the validation path, step by step. *)
Lemma simulate_submitted ticket ticket_id w r w' inp :
  read_inputs ticket w = (Ret inp, w) ->
  _simulate_invoice_processing ticket ticket_id w = (Ret r, w') ->
  get_path ["invoiceProcessing"; "paymentSubmission"; "submitted"] (JObj r)
  = Some (JBool true) ->
  let today := Clock.day_of (clock w) in
  exists total,
    as_number (total_amount inp) = Some total
    /\ Py.ltb 0 total = true /\ Py.ltb total 100000 = true
    /\ invoice_number_check (invoice_number inp) w = (Ret true, w)
    /\ fst (due_date_check (due_date inp) today) = true
    /\ get_path ["invoiceProcessing"; "paymentSubmission";
                 "expectedPaymentDate"] (JObj r)
       = Some (JStr (Clock.fmt_date "-"
                       (today
                        + (if snd (due_date_check (due_date inp) today)
                           then 1 else 3)))).
Proof.
  intros Hread Hrun Hsub. unfold _simulate_invoice_processing in Hrun.
  invert_step Hrun start. injection Hstep as <- <-.
  invert_step Hrun mappings. injection Hstep as <- <-.
  invert_step_as Hrun inp0 Hinp. rewrite Hread in Hinp.
  injection Hinp as <- <-.
  destruct inp as [inv ven tot due next]. cbn [total_amount invoice_number
                                               due_date] in *.
  invert_step Hrun now. injection Hstep as <- <-.
  destruct (truthy next && negb (eq_str next "invoice_processing")).
  { invert_step Hrun elapsed. injection Hstep as <- <-.
    invert_step Hrun o. apply ret_inv in Hrun as [-> _]. discriminate Hsub. }
  invert_step Hrun vendor_codes.
  invert_step Hrun vendor_mappings.
  invert_step Hrun vendor_info.
  invert_step Hrun vendor_approved.
  cbv zeta.
  destruct (due_date_check due (Clock.day_of (clock w)))
    as [due_ok past_due] eqn:Edue.
  invert_step_as Hrun inv_ok Hinv.
  pose proof (invoice_number_check_world _ _ _ _ Hinv) as ->.
  invert_step_as Hrun amount Hamount.
  pose proof (number_of_world _ _ _ _ Hamount) as ->.
  cbv zeta in Hrun.
  invert_step_as Hrun payment Hpay.
  invert_step_as Hrun elapsed Hel. injection Hel as <- <-.
  invert_step_as Hrun o Hupd. apply ret_inv in Hrun as [-> ->].
  assert (Hall :
    forallb truthy
      (map snd [ ("invoiceNumberValid", JBool inv_ok);
                 ("amountCorrect",
                   JBool (Py.ltb 0 amount && Py.ltb amount 500000));
                 ("dueDateValid", JBool due_ok);
                 ("vendorApproved", vendor_approved);
                 ("budgetAvailable", JBool (Py.ltb amount 100000)) ])
    = inv_ok && (Py.ltb 0 amount && Py.ltb amount 500000) && due_ok
      && truthy vendor_approved && Py.ltb amount 100000).
  { cbn. now rewrite andb_true_r, !andb_assoc. }
  rewrite Hall in Hpay.
  destruct (inv_ok && (Py.ltb 0 amount && Py.ltb amount 500000) && due_ok
            && truthy vendor_approved && Py.ltb amount 100000) eqn:Evalid.
  2: { apply ret_inv in Hpay as [-> ->]. discriminate Hsub. }
  invert_step_as Hpay draw Hdraw. apply ret_inv in Hpay as [-> ->].
  rewrite !andb_true_iff in Evalid.
  destruct Evalid as ((((-> & Hpos & Hrange) & ->) & Hvendor) & Hbudget).
  exists amount.
  unfold number_of in Hamount.
  destruct (as_number tot) as [q|]; [|discriminate].
  injection Hamount as ->.
  repeat split; try assumption; try reflexivity.
Qed.

(** X14. A payment is only submitted within the budget. Whenever the
    simulation reports [paymentSubmission.submitted] true, the total
    amount of the ticket is a number strictly between 0 and 100,000, the
    invoice number passed the format check and the due date was
    accepted. *)
Theorem payment_only_within_budget
    (ticket : dict) (ticket_id : string) (w : World) (r : dict)
    (w' : World) (inp : Inputs) :
  read_inputs ticket w = (Ret inp, w) ->
  _simulate_invoice_processing ticket ticket_id w = (Ret r, w') ->
  get_path ["invoiceProcessing"; "paymentSubmission"; "submitted"] (JObj r)
  = Some (JBool true) ->
  exists total,
    as_number (total_amount inp) = Some total
    /\ (0 < total)%Q /\ (total < 100000)%Q
    /\ invoice_number_check (invoice_number inp) w = (Ret true, w)
    /\ fst (due_date_check (due_date inp) (Clock.day_of (clock w))) = true.
Proof.
  intros Hread Hrun Hsub.
  destruct (simulate_submitted ticket ticket_id w r w' inp Hread Hrun Hsub)
    as (total & Htotal & Hpos & Hbudget & Hinv & Hdue & _).
  exists total. rewrite <- !ltb_lt. repeat split; assumption.
Qed.

(** X15. The expected payment date. A submitted payment is expected the
    day after the simulation runs when the due date of the invoice lies
    before that day, and three days after it otherwise (no due date
    included). *)
Theorem expected_payment_date_rule
    (ticket : dict) (ticket_id : string) (w : World) (r : dict)
    (w' : World) (inp : Inputs) :
  read_inputs ticket w = (Ret inp, w) ->
  _simulate_invoice_processing ticket ticket_id w = (Ret r, w') ->
  get_path ["invoiceProcessing"; "paymentSubmission"; "submitted"] (JObj r)
  = Some (JBool true) ->
  let today := Clock.day_of (clock w) in
  let past_due :=
    match due_date inp with
    | JStr s =>
        match fromisoformat s with
        | Some day => negb (String.eqb s "") && (day <? today)
        | None => false
        end
    | _ => false
    end in
  get_path ["invoiceProcessing"; "paymentSubmission"; "expectedPaymentDate"]
    (JObj r)
  = Some (JStr (Clock.fmt_date "-" (today + (if past_due then 1 else 3)))).
Proof.
  intros Hread Hrun Hsub.
  destruct (simulate_submitted ticket ticket_id w r w' inp Hread Hrun Hsub)
    as (total & _ & _ & _ & _ & _ & Hdate).
  cbv zeta in *. rewrite Hdate. do 4 f_equal.
  unfold due_date_check.
  destruct (due_date inp) as [|b|n|q|s|xs|kvs]; cbn [truthy].
  - reflexivity.
  - now destruct b.
  - now destruct (negb (n =? 0)).
  - now destruct (negb (Qeq_bool q 0)).
  - destruct (String.eqb s ""); cbn [negb andb];
      now destruct (fromisoformat s).
  - now destruct xs.
  - now destruct kvs.
Qed.

End Stage3Payments.

Section Stage3PaymentExamples.

Import invoice_processing.
#[local] Existing Instance Sample.pylib.

Lemma payment_only_within_budget_witness :
  let w := Sample.world Sample.cleared [] in
  let run := _simulate_invoice_processing Sample.cleared "ZAVA-0001" w in
  result_path ["invoiceProcessing"; "paymentSubmission"; "submitted"] run
  = Some (JBool true)
  /\ exists total,
       as_number (JFloat (1353125 # 100)) = Some total
       /\ (0 < total)%Q /\ (total < 100000)%Q.
Proof.
  intros w run. split; [vm_compute; reflexivity|].
  destruct (payment_only_within_budget Sample.cleared "ZAVA-0001" w
              (returned run) (snd run)
              {| invoice_number := JStr "INV-2026-78432";
                 vendor_name := JStr "ABC Industrial Supplies";
                 total_amount := JFloat (1353125 # 100);
                 due_date := JStr "";
                 next_action := JStr "invoice_processing" |})
    as (total & Htotal & Hpos & Hbudget & _);
    [reflexivity | vm_compute; reflexivity | vm_compute; reflexivity |].
  exists total. repeat split; assumption.
Defined.

(** An invoice that was due on 10 January, processed on 22 January: the
    payment is expected on the 23rd. *)
Lemma expected_payment_date_rule_witness :
  let overdue : dict :=
    [ ("status", JStr "ai_processed");
      ("extraction",
        JObj [("contentUnderstanding",
                JObj [ ("invoiceNumber", JStr "INV-2026-78432");
                       ("totalAmount", JInt 1200);
                       ("dueDate", JStr "2026-01-10") ])]);
      ("aiProcessing", JObj [("nextAction", JStr "invoice_processing")]) ] in
  let w := Sample.world overdue [] in
  let run := _simulate_invoice_processing overdue "ZAVA-0001" w in
  result_path ["invoiceProcessing"; "paymentSubmission";
               "expectedPaymentDate"] run
  = Some (JStr "2026-01-23").
Proof.
  intros overdue w run.
  pose proof (expected_payment_date_rule overdue "ZAVA-0001" w
                (returned run) (snd run)
                {| invoice_number := JStr "INV-2026-78432";
                   vendor_name := JStr "Unknown Vendor";
                   total_amount := JInt 1200;
                   due_date := JStr "2026-01-10";
                   next_action := JStr "invoice_processing" |}) as Hrule.
  cbv zeta in Hrule.
  assert (Hrun : run = (Ret (returned run), snd run))
    by (vm_compute; reflexivity).
  unfold result_path. rewrite Hrun. cbn [fst].
  rewrite Hrule; [vm_compute; reflexivity | reflexivity | exact Hrun
                 | vm_compute; reflexivity].
Defined.

End Stage3PaymentExamples.
(** ** The stage-2 local simulation *)

Section Stage2Computation.

Import ai_simulation.
Context `{PyLib} `{Interpreter}.

Lemma read_only_lift {A} (o : outcome A) : read_only (lift o).
Proof. intros w. reflexivity. Qed.

(** Every exception of the interpreter functions is a Python error. *)
Lemma python_errors_only_lift {A} (o : outcome A) :
  (forall e, o = Raise e -> exists msg, e = PyError msg) ->
  python_errors_only (lift o).
Proof. intros Ho w e He. now apply Ho. Qed.

Lemma arith_python op fz fq x v e :
  Builtins.arith op fz fq x v = Raise e -> exists msg, e = PyError msg.
Proof.
  unfold Builtins.arith. destruct (Builtins.to_num v); [discriminate|].
  intros [= <-]. now eexists.
Qed.

Lemma iter_python v e : Builtins.iter v = Raise e -> exists msg, e = PyError msg.
Proof. destruct v; cbn; try discriminate; intros [= <-]; now eexists. Qed.

Lemma len_python v e : Builtins.len v = Raise e -> exists msg, e = PyError msg.
Proof. destruct v; cbn; try discriminate; intros [= <-]; now eexists. Qed.

Lemma take_python n v e :
  Builtins.take n v = Raise e -> exists msg, e = PyError msg.
Proof. destruct v; cbn; try discriminate; intros [= <-]; now eexists. Qed.

Lemma cmp_python less a : forall b e,
  Builtins.cmp less a b = Raise e -> exists msg, e = PyError msg.
Proof.
  induction a as [|b0|n|q|s|xs IH|kvs _] using json_nested_ind;
    intros b e; cbn -[Builtins.compare_error];
    try (destruct (as_number b); try discriminate; intros [= <-];
         now eexists).
  - destruct b; cbn; try discriminate; intros [= <-]; now eexists.
  - destruct b as [| | | | |ys|];
      try (intros [= <-]; now eexists).
    revert ys. induction IH as [|x xs' Hx Hxs IHxs]; intros ys.
    + destruct ys; discriminate.
    + destruct ys as [|y ys']; [discriminate|].
      destruct (Builtins.eq x y); [apply IHxs | apply Hx].
Qed.

Lemma above_infinity_python a e :
  Builtins.above_infinity a = Raise e -> exists msg, e = PyError msg.
Proof.
  unfold Builtins.above_infinity. destruct (as_number a); [discriminate|].
  intros [= <-]. now eexists.
Qed.

Lemma format_2f_python v e :
  Builtins.format_2f v = Raise e -> exists msg, e = PyError msg.
Proof.
  unfold Builtins.format_2f. destruct (as_number v); [discriminate|].
  destruct v; intros [= <-]; now eexists.
Qed.

Lemma strings_from_python xs : forall i e,
  Builtins.strings_from i xs = Raise e -> exists msg, e = PyError msg.
Proof.
  induction xs as [|x r IH]; intros i e; cbn; [discriminate|].
  destruct x; try (intros [= <-]; now eexists).
  destruct (Builtins.strings_from (i + 1) r) eqn:E; [discriminate|].
  intros [= <-]. now apply (IH (i + 1)).
Qed.

Lemma join_python sep xs e :
  Builtins.join sep xs = Raise e -> exists msg, e = PyError msg.
Proof.
  unfold Builtins.join. destruct (Builtins.strings_from 0 xs) eqn:E;
    [discriminate|].
  intros [= <-]. now apply (strings_from_python xs 0).
Qed.

#[local] Hint Resolve read_only_lift : read_only.
#[local] Hint Extern 1 (python_errors_only (lift _)) =>
  apply python_errors_only_lift; intros ?;
  first [ apply arith_python | apply iter_python | apply len_python
        | apply take_python | apply cmp_python | apply above_infinity_python
        | apply format_2f_python | apply join_python ]
  : python_errors_only.

Lemma read_only_load_mappings : read_only _load_code_mappings.
Proof. intros w. reflexivity. Qed.

Lemma never_raises_load_mappings : never_raises _load_code_mappings.
Proof. intros w. now eexists. Qed.

Lemma read_only_mappings_of mappings name :
  read_only (mappings_of mappings name).
Proof. unfold mappings_of. read_only_tac. Qed.

Lemma python_errors_only_mappings_of mappings name :
  python_errors_only (mappings_of mappings name).
Proof. unfold mappings_of. python_errors_only_tac. Qed.

Lemma read_only_range_max_of v : read_only (range_max_of v).
Proof. unfold range_max_of. read_only_tac. Qed.

Lemma python_errors_only_range_max_of v : python_errors_only (range_max_of v).
Proof.
  unfold range_max_of, Py.attribute_error. python_errors_only_tac.
Qed.

#[local] Hint Resolve read_only_load_mappings read_only_mappings_of
  read_only_range_max_of : read_only.
#[local] Hint Resolve never_raises_load_mappings : never_raises.
#[local] Hint Resolve python_errors_only_mappings_of
  python_errors_only_range_max_of : python_errors_only.

Lemma read_only_out_of_range r p : read_only (out_of_range r p).
Proof. unfold out_of_range. read_only_tac. Qed.

Lemma python_errors_only_out_of_range r p :
  python_errors_only (out_of_range r p).
Proof. unfold out_of_range. python_errors_only_tac. Qed.

#[local] Hint Resolve read_only_out_of_range : read_only.
#[local] Hint Resolve python_errors_only_out_of_range : python_errors_only.

Lemma read_only_scan_item pm acc item : read_only (scan_item pm acc item).
Proof. unfold scan_item. read_only_tac. Qed.

Lemma python_errors_only_scan_item pm acc item :
  python_errors_only (scan_item pm acc item).
Proof. unfold scan_item. python_errors_only_tac. Qed.

Lemma read_only_scan_items pm items : forall acc,
  read_only (scan_items pm items acc).
Proof.
  induction items as [|item rest IH]; intros acc; cbn.
  - apply read_only_ret.
  - apply read_only_bind; [apply read_only_scan_item | intros a; apply IH].
Qed.

Lemma python_errors_only_scan_items pm items : forall acc,
  python_errors_only (scan_items pm items acc).
Proof.
  induction items as [|item rest IH]; intros acc; cbn.
  - apply python_errors_only_ret.
  - apply python_errors_only_bind;
      [apply python_errors_only_scan_item | intros a; apply IH].
Qed.

Lemma read_only_sum_amounts items : forall acc,
  read_only (sum_amounts items acc).
Proof.
  induction items as [|item rest IH]; intros acc; cbn.
  - apply read_only_ret.
  - read_only_tac.
Qed.

Lemma python_errors_only_sum_amounts items : forall acc,
  python_errors_only (sum_amounts items acc).
Proof.
  induction items as [|item rest IH]; intros acc; cbn.
  - apply python_errors_only_ret.
  - unfold Builtins.add. python_errors_only_tac.
Qed.

Lemma read_only_descriptions_of items : read_only (descriptions_of items).
Proof.
  induction items as [|item rest IH]; cbn.
  - apply read_only_ret.
  - apply read_only_bind; [apply read_only_py_get|]. intros d.
    apply read_only_bind; [exact IH | intros more; apply read_only_ret].
Qed.

Lemma python_errors_only_descriptions_of items :
  python_errors_only (descriptions_of items).
Proof.
  induction items as [|item rest IH]; cbn.
  - apply python_errors_only_ret.
  - apply python_errors_only_bind; [apply python_errors_only_py_get|].
    intros d. apply python_errors_only_bind;
      [exact IH | intros more; apply python_errors_only_ret].
Qed.

#[local] Hint Resolve read_only_scan_items read_only_sum_amounts
  read_only_descriptions_of : read_only.
#[local] Hint Resolve python_errors_only_scan_items
  python_errors_only_sum_amounts python_errors_only_descriptions_of
  : python_errors_only.

Lemma read_only_amount_discrepancy_of s c :
  read_only (amount_discrepancy_of s c).
Proof. unfold amount_discrepancy_of. read_only_tac. Qed.

Lemma python_errors_only_amount_discrepancy_of s c :
  python_errors_only (amount_discrepancy_of s c).
Proof.
  unfold amount_discrepancy_of, Builtins.sub. python_errors_only_tac.
Qed.

Lemma read_only_item_desc_of v : read_only (item_desc_of v).
Proof. unfold item_desc_of. read_only_tac. Qed.

Lemma python_errors_only_item_desc_of v :
  python_errors_only (item_desc_of v).
Proof. unfold item_desc_of. python_errors_only_tac. Qed.

#[local] Hint Resolve read_only_amount_discrepancy_of read_only_item_desc_of
  : read_only.
#[local] Hint Resolve python_errors_only_amount_discrepancy_of
  python_errors_only_item_desc_of : python_errors_only.

Lemma local_to_simulate_ai ticket ticket_id :
  local_to ticket_id (_simulate_ai_processing ticket ticket_id).
Proof. unfold _simulate_ai_processing. local_to_tac. Qed.

Lemma quiet_simulate_ai ticket ticket_id :
  quiet (_simulate_ai_processing ticket ticket_id).
Proof. eapply local_to_quiet, local_to_simulate_ai. Qed.

Lemma python_errors_only_simulate_ai ticket ticket_id :
  python_errors_only (_simulate_ai_processing ticket ticket_id).
Proof. unfold _simulate_ai_processing. python_errors_only_tac. Qed.

Lemma all_or_nothing_simulate_ai ticket ticket_id :
  all_or_nothing (_simulate_ai_processing ticket ticket_id).
Proof. unfold _simulate_ai_processing. all_or_nothing_tac. Qed.

(** X16. The stage-2 local simulation is local and atomic. Whatever the
    ticket and the reference file hold, a run changes nothing but the
    document stored under its own id: no network call, no sleep, no
    other ticket. A run that raises does so with an ordinary Python
    error, before anything is written: the world is then as it was. *)
Theorem stage2_simulation_is_local_and_atomic
    (ticket : dict) (ticket_id : string) (w : World) :
  let run := _simulate_ai_processing ticket ticket_id w in
  changes_only_ticket ticket_id w (snd run)
  /\ forall e, fst run = Raise e ->
       snd run = w /\ exists msg, e = PyError msg.
Proof.
  cbv zeta. split; [apply local_to_simulate_ai|].
  intros e He. split.
  - apply (all_or_nothing_simulate_ai ticket ticket_id w e).
    destruct (_simulate_ai_processing ticket ticket_id w) as [o w'].
    cbn in He |- *. now subst o.
  - exact (python_errors_only_simulate_ai ticket ticket_id w e He).
Qed.

(** One step of inversion of a run that returned, for a step that only
    reads. *)
Ltac invert_ro H a :=
  match type of H with
  | bind ?m _ ?w = (Ret _, _) =>
      let w1 := fresh "w" in
      let Hstep := fresh "H" a in
      apply bind_inv in H as (a & w1 & Hstep & H);
      let E := fresh "E" in
      assert (E : w1 = w)
        by (let RO := fresh "RO" in
            assert (RO : read_only m) by read_only_tac;
            specialize (RO w); rewrite Hstep in RO; exact RO);
      subst w1
  end.

(** What a run of the simulation that returns has done. *)
Lemma simulate_ai_returns ticket ticket_id w r w' :
  _simulate_ai_processing ticket ticket_id w = (Ret r, w') ->
  exists (vendor_mappings vendor_info vendor_approved hazardous due_date
          action_mappings action_info next_action : json)
         (price_discrepancy amount_discrepancy : bool)
         (fields : dict),
    let decision :=
      decide vendor_approved price_discrepancy amount_discrepancy hazardous
        due_date (Clock.day_of (clock w)) in
    r = [ ("success", JBool true); ("status", JStr "ai_processed");
          ("aiProcessing", JObj fields) ]
    /\ w' = snd (storage.update_ticket ticket_id (tl r) w)
    /\ mappings_of (code_mappings w) "vendor_codes" w
       = (Ret vendor_mappings, w)
    /\ Py.get vendor_info "approved" (JBool true) w = (Ret vendor_approved, w)
    /\ (vendor_mappings = JObj [] -> vendor_info = JObj [])
    /\ mappings_of (code_mappings w) "action_codes" w
       = (Ret action_mappings, w)
    /\ Py.get action_mappings (fst decision) (JObj []) w
       = (Ret action_info, w)
    /\ Py.get action_info "nextAction" (JStr "invoice_processing") w
       = (Ret next_action, w)
    /\ Dict.get "status" fields = Some (JStr "completed")
    /\ Dict.get "nextAction" fields = Some next_action
    /\ Dict.get "flags" fields = Some (JList (map JStr (snd decision)))
    /\ Dict.get "confidence" fields
       = Some (JFloat (confidence_of vendor_approved (snd decision))).
Proof.
  intros Hrun. unfold _simulate_ai_processing in Hrun.
  invert_ro Hrun start. injection Hstart as <-.
  invert_ro Hrun mappings. injection Hmappings as <-.
  invert_ro Hrun extraction. invert_ro Hrun cu.
  invert_ro Hrun vendor_name. invert_ro Hrun total_amount.
  invert_ro Hrun invoice_number. invert_ro Hrun due_date.
  invert_ro Hrun hazardous. invert_ro Hrun line_items.
  invert_ro Hrun vendor_mappings. invert_ro Hrun vendor_info.
  invert_ro Hrun vendor_code. invert_ro Hrun vendor_approved.
  invert_ro Hrun product_mappings. invert_ro Hrun items.
  invert_ro Hrun scan. invert_ro Hrun dept_mappings.
  invert_ro Hrun dept_info. invert_ro Hrun department_code.
  invert_ro Hrun cost_center. invert_ro Hrun action_mappings.
  invert_ro Hrun subtotal. invert_ro Hrun computed_subtotal.
  invert_ro Hrun amount_discrepancy. invert_ro Hrun today.
  injection Htoday as <-.
  destruct (decide vendor_approved (price_discrepancy_detected scan)
              amount_discrepancy hazardous due_date
              (Clock.day_of (clock w))) as [action_key flags] eqn:Edecide.
  invert_ro Hrun action_info. invert_ro Hrun next_action.
  invert_ro Hrun item_desc. invert_ro Hrun amount_text.
  invert_ro Hrun description. cbv zeta in Hrun.
  invert_ro Hrun elapsed. invert_ro Hrun now. injection Hnow as <-.
  apply bind_inv in Hrun as (o & w1 & Hupd & Hrun).
  apply ret_inv in Hrun as [-> ->].
  exists vendor_mappings, vendor_info, vendor_approved, hazardous, due_date,
    action_mappings, action_info, next_action,
    (price_discrepancy_detected scan), amount_discrepancy.
  eexists. cbv zeta. rewrite Edecide. cbn [fst snd].
  split; [reflexivity|].
  split; [symmetry; exact (f_equal snd Hupd)|].
  do 2 (split; [assumption|]).
  split.
  { intros ->. destruct vendor_name; cbn in Hvendor_info;
      unfold ret, raise in Hvendor_info; congruence. }
  repeat (split; [assumption || reflexivity|]). reflexivity.
Qed.

(** X17. The simulation reports one issue at a time, and the issue
    fixes the confidence. Every run that returns stores one of five
    flag lists: none; [UNAPPROVED_VENDOR]; [AMOUNT_DISCREPANCY,
    MANUAL_REVIEW_REQUIRED]; [HAZARDOUS, EHS_REVIEW_REQUIRED];
    [PAST_DUE, EXPEDITED_PAYMENT]. The confidence is 0.78 for an
    unapproved vendor, 0.85 for an amount discrepancy and 0.95 in the
    other three cases. *)
Theorem simulation_reports_one_issue
    (ticket : dict) (ticket_id : string) (w : World) (r : dict)
    (w' : World) :
  _simulate_ai_processing ticket ticket_id w = (Ret r, w') ->
  let reported (flags : list string) (confidence : Q) :=
    get_path ["aiProcessing"; "flags"] (JObj r)
    = Some (JList (map JStr flags))
    /\ get_path ["aiProcessing"; "confidence"] (JObj r)
       = Some (JFloat confidence) in
  reported [] (95 # 100)
  \/ reported ["UNAPPROVED_VENDOR"] (78 # 100)
  \/ reported ["AMOUNT_DISCREPANCY"; "MANUAL_REVIEW_REQUIRED"] (85 # 100)
  \/ reported ["HAZARDOUS"; "EHS_REVIEW_REQUIRED"] (95 # 100)
  \/ reported ["PAST_DUE"; "EXPEDITED_PAYMENT"] (95 # 100).
Proof.
  intros Hrun.
  destruct (simulate_ai_returns ticket ticket_id w r w' Hrun)
    as (vm & vi & approved & hazardous & due & am & ai & next & pd & ad
        & fields & Hr & _ & _ & _ & _ & _ & _ & _ & _ & _ & Hflags & Hconf).
  cbv zeta in *. subst r. cbn [get_path Dict.get String.eqb Ascii.eqb
                                 Bool.eqb].
  rewrite Hflags, Hconf. unfold decide, confidence_of.
  destruct (truthy approved); cbn [negb snd].
  2: { right. left. now split. }
  destruct (pd || ad); cbn [snd].
  { right. right. left. now split. }
  destruct (truthy hazardous); cbn [snd].
  { right. right. right. left. now split. }
  destruct (truthy due && past_due_of due (Clock.day_of (clock w)));
    cbn [snd].
  - right. right. right. right. now split.
  - left. now split.
Qed.

(** X18. Without the reference file every invoice is cleared. When
    [code_mappings.json] is missing (the loader then uses an empty
    dict), every run that returns stores the next action
    [invoice_processing], whatever flags it reports, and never reports an
    unapproved vendor. *)
Theorem missing_reference_file_clears_every_invoice
    (ticket : dict) (ticket_id : string) (w : World) (r : dict)
    (w' : World) :
  code_mappings w = JObj [] ->
  _simulate_ai_processing ticket ticket_id w = (Ret r, w') ->
  get_path ["aiProcessing"; "nextAction"] (JObj r)
  = Some (JStr "invoice_processing")
  /\ get_path ["aiProcessing"; "flags"] (JObj r)
     <> Some (JList [JStr "UNAPPROVED_VENDOR"])
  /\ get_path ["aiProcessing"; "confidence"] (JObj r)
     <> Some (JFloat (78 # 100)).
Proof.
  intros Hempty Hrun.
  destruct (simulate_ai_returns ticket ticket_id w r w' Hrun)
    as (vm & vi & approved & hazardous & due & am & ai & next & pd & ad
        & fields & Hr & _ & Hvm & Happroved & Hvi & Ham & Hai & Hnext
        & _ & Hna & Hflags & Hconf).
  cbv zeta in *. rewrite Hempty in Hvm, Ham.
  injection Hvm as <-. injection Ham as <-.
  rewrite (Hvi eq_refl) in Happroved. injection Happroved as <-.
  injection Hai as <-. injection Hnext as <-.
  subst r. cbn [get_path Dict.get String.eqb Ascii.eqb Bool.eqb].
  rewrite Hna, Hflags, Hconf. split; [reflexivity|].
  unfold decide, confidence_of. cbn [truthy negb].
  destruct (pd || ad); cbn [snd]; [split; discriminate|].
  destruct (truthy hazardous); cbn [snd]; [split; discriminate|].
  destruct (truthy due && past_due_of due (Clock.day_of (clock w)));
    cbn [snd]; split; discriminate.
Qed.

(** A write leaves alone what is stored under a top-level key that the
    patch does not have. *)
Lemma update_ticket_other_key ticket_id patch w k rest :
  Dict.get k patch = None -> k <> "updatedAt" ->
  stored_path (k :: rest) ticket_id
    (snd (storage.update_ticket ticket_id patch w))
  = stored_path (k :: rest) ticket_id w.
Proof.
  intros Hk Hstamp.
  unfold storage.update_ticket, memory_store.update_ticket, stored_path.
  destruct (tickets w !! ticket_id) as [doc|] eqn:Hdoc; cbn [snd];
    [|now rewrite Hdoc].
  cbn [tickets with_tickets]. rewrite lookup_insert_eq. cbn [get_path].
  rewrite get_set_ne by exact Hstamp.
  now rewrite deep_merge_get_notin.
Qed.

(** X19. After a local stage 2 the chain never reaches stage 3. When
    stage 2 is served by the local simulation (no URL configured, or
    development mode with a [localhost] URL) for a ticket whose status
    lets stage 2 run, the auto-chain ends without invoking stage 3:
    nothing is posted, nothing sleeps and the [invoiceProcessing] record
    of the ticket is what it was. The simulation stores the next action
    inside [aiProcessing]; the chain looks for it in [agentOutput] and at
    the top of the result, finds none, and skips stage 3 even when the
    simulation decided on [invoice_processing]. *)
Theorem local_stage_b_never_reaches_stage_c
    (settings : Settings) (ticket_id : string) (w : World) (ticket : dict) :
  remote_stage.uses_remote stage_b settings = false ->
  tickets w !! ticket_id = Some ticket ->
  (exists s, In s ["extracted"; "ai_processing"; "error"]
             /\ remote_stage.status_of ticket = JStr s) ->
  exists wf,
    auto_chain.auto_chain _simulate_ai_processing settings ticket_id w
    = (Ret tt, wf)
    /\ trace wf = trace w
    /\ stored_path ["invoiceProcessing"] ticket_id wf
       = stored_path ["invoiceProcessing"] ticket_id w
    /\ (stored_path ["status"] ticket_id wf = Some (JStr "ai_processed")
        \/ stored_path ["status"] ticket_id wf
           = stored_path ["status"] ticket_id w).
Proof.
  intros Hlocal Hstored (s & Hin & Hstatus).
  destruct (mark_spec ticket_id "calling_stage_b" [] w) as (w0 & Hm0 & Ho0).
  pose proof Ho0 as (_ & _ & _ & _ & Htrace0 & Hs0).
  destruct (Hs0 ticket_id) as [[_ Hsome] Hpaths0].
  destruct Hsome as [ticket0 Hstored0]; [now rewrite Hstored|].
  assert (Hget : Dict.get "status" ticket = Some (JStr s)).
  { unfold remote_stage.status_of in Hstatus.
    destruct (Dict.get "status" ticket); [now subst|].
    injection Hstatus as <-.
    repeat (destruct Hin as [Hin|Hin]; [discriminate|]). destruct Hin. }
  assert (Hget0 : Dict.get "status" ticket0 = Some (JStr s)).
  { pose proof (Hpaths0 ["status"] "status" eq_refl) as Hp.
    unfold stored_path in Hp. rewrite Hstored, Hstored0 in Hp.
    cbn [get_path] in Hp. rewrite Hget in Hp.
    destruct (Dict.get "status" ticket0);
      [now apply Hp | discriminate Hp; discriminate]. }
  assert (Hne0 : ticket0 <> []) by (intros ->; discriminate).
  assert (Hguard : remote_stage.guard_rejects stage_b
                     (remote_stage.status_of ticket0) = false).
  { destruct (remote_stage.guard_rejects stage_b
                (remote_stage.status_of ticket0)) eqn:E; [|reflexivity].
    pose proof (proj1 (guard_rejects_iff _ _) E s Hin) as Hcontra.
    unfold remote_stage.status_of in Hcontra. now rewrite Hget0 in Hcontra. }
  pose proof (trigger_accepted stage_b settings ticket_id w0 ticket0
                Hstored0 Hne0 Hguard) as Htrigger.
  rewrite Hlocal in Htrigger.
  change (remote_stage.simulate stage_b ticket0 ticket_id w0)
    with (_simulate_ai_processing ticket0 ticket_id w0) in Htrigger.
  pose proof (local_to_simulate_ai ticket0 ticket_id w0)
    as (_ & _ & _ & Htrace1 & _).
  destruct (_simulate_ai_processing ticket0 ticket_id w0)
    as [[r|e] w1] eqn:Hsim; cbn [snd] in Htrace1.
  - destruct (simulate_ai_returns ticket0 ticket_id w0 r w1 Hsim)
      as (vm & vi & approved & hazardous & due & am & ai & next & pd & ad
          & fields & Hr & Hw1 & _).
    cbv zeta in Hr, Hw1.
    destruct (auto_chain_decision _simulate_ai_processing settings
                ticket_id w r w1) as [_ Hskip].
    { rewrite Hm0. exact Htrigger. }
    { now subst r. }
    destruct Hskip as (wf & Honly & Hchain).
    { intros s' Hnext. subst r. injection Hnext as <-. reflexivity. }
    pose proof Honly as (_ & _ & _ & _ & Htracef & Hsf).
    destruct (Hsf ticket_id) as [_ Hpathsf].
    exists wf. split; [exact Hchain|]. split; [congruence|]. split.
    + rewrite (Hpathsf ["invoiceProcessing"] "invoiceProcessing" eq_refl)
        by discriminate.
      rewrite Hw1. subst r. cbn [tl].
      rewrite update_ticket_other_key by (reflexivity || discriminate).
      apply (Hpaths0 ["invoiceProcessing"] "invoiceProcessing" eq_refl);
        discriminate.
    + left.
      rewrite (Hpathsf ["status"] "status" eq_refl) by discriminate.
      rewrite Hw1. subst r. cbn [tl].
      unfold storage.update_ticket, memory_store.update_ticket, stored_path.
      rewrite Hstored0. cbn [snd tickets with_tickets].
      rewrite lookup_insert_eq. cbn [get_path].
      rewrite get_set_ne by discriminate.
      cbn [memory_store._deep_merge].
      rewrite get_set_ne by discriminate. now rewrite get_set_eq.
  - assert (Hw1 : w1 = w0)
      by exact (all_or_nothing_simulate_ai ticket0 ticket_id w0 e w1 Hsim).
    subst w1.
    destruct (mark_spec ticket_id "stage_b_exception"
                [("error",
                   JStr (auto_chain.truncated 500 (exn_message e)))] w0)
      as (wf & Hmf & Honly).
    pose proof (only_marked_trans _ _ _ Ho0 Honly)
      as (_ & _ & _ & _ & Htracef & Hsf).
    destruct (Hsf ticket_id) as [_ Hpathsf].
    exists wf. split; [|split; [exact Htracef|split; [|right]]].
    + unfold auto_chain.auto_chain, try_catch.
      rewrite (bind_step _ _ _ _ _ Hm0).
      fold (ai_simulation.trigger_ai_processing settings ticket_id).
      unfold ai_simulation.trigger_ai_processing,
        ai_processing.trigger_ai_processing.
      fold stage_b. rewrite (bind_raise _ _ _ _ _ Htrigger). exact Hmf.
    + apply (Hpathsf ["invoiceProcessing"] "invoiceProcessing" eq_refl);
        discriminate.
    + apply (Hpathsf ["status"] "status" eq_refl); discriminate.
Qed.

End Stage2Computation.

Section Stage2Examples.

Import ai_simulation.
#[local] Existing Instance Sample.pylib.
#[local] Existing Instance Sample.interpreter.

(** A hazardous invoice from an approved vendor, checked against the four
    reference tables. *)
Lemma simulation_reports_one_issue_witness :
  let w :=
    mkWorld {[ "ZAVA-0001" := Sample.hazardous_ticket ]} 1769077860000000 []
            [4242] Sample.reference [] in
  let run := _simulate_ai_processing Sample.hazardous_ticket "ZAVA-0001" w in
  result_path ["aiProcessing"; "flags"] run
  = Some (JList [JStr "HAZARDOUS"; JStr "EHS_REVIEW_REQUIRED"])
  /\ result_path ["aiProcessing"; "confidence"] run
     = Some (JFloat (95 # 100)).
Proof.
  intros w run.
  assert (Hrun : run = (Ret (returned run), snd run))
    by (vm_compute; reflexivity).
  pose proof (simulation_reports_one_issue Sample.hazardous_ticket
                "ZAVA-0001" w (returned run) (snd run) Hrun) as Hcases.
  cbv zeta in Hcases. unfold result_path. rewrite Hrun. cbn [fst].
  destruct Hcases as [[Hf _]|[[Hf _]|[[Hf _]|[Hcase|[Hf _]]]]];
    [vm_compute in Hf; discriminate Hf .. | exact Hcase
    | vm_compute in Hf; discriminate Hf].
Defined.

(** The same invoice with no reference file: the hazard is flagged and
    the invoice is cleared all the same. *)
Lemma missing_reference_file_clears_every_invoice_witness :
  let w :=
    mkWorld {[ "ZAVA-0001" := Sample.hazardous_ticket ]} 1769077860000000 []
            [4242] (JObj []) [] in
  let run := _simulate_ai_processing Sample.hazardous_ticket "ZAVA-0001" w in
  result_path ["aiProcessing"; "flags"] run
  = Some (JList [JStr "HAZARDOUS"; JStr "EHS_REVIEW_REQUIRED"])
  /\ result_path ["aiProcessing"; "nextAction"] run
     = Some (JStr "invoice_processing").
Proof.
  intros w run.
  assert (Hrun : run = (Ret (returned run), snd run))
    by (vm_compute; reflexivity).
  destruct (missing_reference_file_clears_every_invoice
              Sample.hazardous_ticket "ZAVA-0001" w (returned run) (snd run)
              eq_refl Hrun) as (Hnext & _).
  split; [vm_compute; reflexivity|].
  unfold result_path. rewrite Hrun. cbn [fst]. exact Hnext.
Defined.

(** A development deployment and an invoice the simulation clears for
    payment: stage 2 completes, stage 3 is not started. *)
Lemma local_stage_b_never_reaches_stage_c_witness :
  let w := Sample.world Sample.extracted [] in
  exists wf,
    auto_chain.auto_chain _simulate_ai_processing Sample.local_settings
      "ZAVA-0001" w = (Ret tt, wf)
    /\ trace wf = []
    /\ stored_path ["aiProcessing"; "nextAction"] "ZAVA-0001" wf
       = Some (JStr "invoice_processing")
    /\ stored_path ["invoiceProcessing"] "ZAVA-0001" wf
       = Some (JObj [("status", JStr "pending")]).
Proof.
  intros w.
  destruct (local_stage_b_never_reaches_stage_c Sample.local_settings
              "ZAVA-0001" w Sample.extracted)
    as (wf & Hchain & Htrace & Hinvoice & _).
  - reflexivity.
  - reflexivity.
  - exists "extracted". split; [now left | reflexivity].
  - exists wf. split; [exact Hchain|]. split; [exact Htrace|]. split.
    + assert (Hrun :
        auto_chain.auto_chain _simulate_ai_processing Sample.local_settings
          "ZAVA-0001" w
        = (Ret tt,
           snd (auto_chain.auto_chain _simulate_ai_processing
                  Sample.local_settings "ZAVA-0001" w)))
        by (vm_compute; reflexivity).
      rewrite Hrun in Hchain. injection Hchain as <-.
      vm_compute. reflexivity.
    + rewrite Hinvoice. vm_compute. reflexivity.
Defined.

End Stage2Examples.
(** ** The extractor: reconciliation twice, and what the tokenizer
    returns *)

Section Reconciliation.

Import extraction.

Lemma fix_item_again item : fix_item (fix_item item) = fix_item item.
Proof.
  unfold fix_item at 2.
  destruct (is_zero (amount item)) eqn:Ez; [|unfold fix_item; now rewrite Ez].
  destruct (negb (is_zero (quantity item))
            && negb (is_zero (unitPrice item))) eqn:Eqp;
    [|unfold fix_item; now rewrite Ez, Eqp].
  unfold fix_item. rewrite Ez, Eqp.
  cbn [amount quantity unitPrice description productCode].
  rewrite Eqp.
  now destruct (is_zero (Py.round2 (quantity item * unitPrice item))).
Qed.

(** X20. The reconciliation of line-item amounts is idempotent and
    touches amounts only: reconciling a result twice gives what
    reconciling it once gives; the number and the order of the line
    items, their descriptions, product codes, quantities and unit prices
    and every other field of the result are as before; and an amount
    that is not zero is never changed. *)
Theorem fix_line_item_amounts_idempotent (cu_result : CuResult) :
  let fixed := _fix_line_item_amounts cu_result in
  _fix_line_item_amounts fixed = fixed
  /\ List.Forall2
       (fun before after =>
          description after = description before
          /\ productCode after = productCode before
          /\ quantity after = quantity before
          /\ unitPrice after = unitPrice before
          /\ (is_zero (amount before) = false ->
              amount after = amount before))
       (lineItems cu_result) (lineItems fixed)
  /\ invoiceNumber fixed = invoiceNumber cu_result
  /\ vendorName fixed = vendorName cu_result
  /\ vendorAddress fixed = vendorAddress cu_result
  /\ poNumber fixed = poNumber cu_result
  /\ currency fixed = currency cu_result
  /\ error fixed = error cu_result.
Proof.
  cbv zeta. split; [|split; [|repeat split]].
  - unfold _fix_line_item_amounts. cbn. f_equal.
    rewrite map_map. apply map_ext. exact fix_item_again.
  - unfold _fix_line_item_amounts. cbn.
    induction (lineItems cu_result) as [|item rest IH]; cbn; constructor;
      [|exact IH].
    destruct (fix_item_spec item) as (Hd & Hc & Hq & Hu & _ & Hkeep).
    repeat split; try assumption.
    intros Hnz. apply Hkeep. intros Hz. apply is_zero_iff in Hz. congruence.
Qed.

End Reconciliation.

Section Tokenizer.

Import extraction.

Lemma span_upper_app s t n tail :
  span_upper s = (n, String "-"%char tail) ->
  span_upper (s ++ t) = (n, String "-"%char (tail ++ t)).
Proof.
  revert n. induction s as [|c r IH]; intros n Hs; [discriminate|].
  change (String c r ++ t) with (String c (r ++ t)).
  cbn [span_upper] in Hs |- *.
  destruct (PyStr.is_upper c) eqn:Hc.
  - destruct (span_upper r) as [m rest] eqn:Hr. injection Hs as <- ->.
    now rewrite (IH m eq_refl).
  - now injection Hs as <- -> ->.
Qed.

Lemma code_tail_app line t tail :
  code_tail line = Some tail -> code_tail (line ++ t) = Some (tail ++ t).
Proof.
  unfold code_tail. destruct (span_upper line) as [n rest] eqn:Hs.
  destruct rest as [|c tail']; [discriminate|].
  destruct (Ascii.eqb_spec c "-"%char) as [->|Hne].
  - destruct ((2 <=? n) && (n <=? 5))%nat eqn:Hn; [|discriminate].
    intros [= ->]. rewrite (span_upper_app _ t _ _ Hs). now rewrite Hn.
  - destruct c as [[] [] [] [] [] [] [] []]; try discriminate.
    now destruct Hne.
Qed.

Lemma all_chars_app p s t :
  PyStr.all_chars p (s ++ t) = PyStr.all_chars p s && PyStr.all_chars p t.
Proof.
  induction s as [|c r IH]; [reflexivity|].
  change (String c r ++ t) with (String c (r ++ t)).
  cbn [PyStr.all_chars]. now rewrite IH, andb_assoc.
Qed.

Lemma all_chars_impl (p q : ascii -> bool) s :
  (forall c, p c = true -> q c = true) ->
  PyStr.all_chars p s = true -> PyStr.all_chars q s = true.
Proof.
  intros Hpq. induction s as [|c r IH]; cbn; [reflexivity|].
  rewrite !andb_true_iff. intros [Hc Hr]. split; auto.
Qed.

Lemma nonempty_app_l s t : nonempty s = true -> nonempty (s ++ t) = true.
Proof. now destruct s. Qed.

Lemma wrapped_code_is_code line :
  matches_wrapped_code line = true -> matches_code line = true.
Proof.
  unfold matches_wrapped_code, matches_code.
  destruct (code_tail line) as [tail|]; [|discriminate].
  rewrite !andb_true_iff. intros [[Hlen Hall] _]. split; [|exact Hall].
  destruct tail; [discriminate | reflexivity].
Qed.

Lemma continued_code_is_code code line :
  matches_code code = true -> matches_continuation line = true ->
  matches_code (code ++ line) = true.
Proof.
  unfold matches_code, matches_continuation.
  destruct (code_tail code) as [tail|] eqn:Htail; [|discriminate].
  rewrite (code_tail_app _ line _ Htail), !andb_true_iff.
  intros [Hne Hall] [_ Hline]. split; [now apply nonempty_app_l|].
  rewrite all_chars_app, Hall. cbn.
  eapply all_chars_impl; [|exact Hline].
  intros c Hc. unfold is_code_char. now rewrite Hc.
Qed.

(** What the tokenizer keeps true of its state: the finished items and
    the pending code, if any, are product codes. *)
Lemma tokenize_line_coded st line :
  List.Forall (fun item => matches_code (productCode item) = true) (items st)
  /\ (current_code st = "" \/ matches_code (current_code st) = true) ->
  List.Forall (fun item => matches_code (productCode item) = true)
    (items (tokenize_line st line))
  /\ (current_code (tokenize_line st line) = ""
      \/ matches_code (current_code (tokenize_line st line)) = true).
Proof.
  intros [Hitems Hcode]. unfold tokenize_line.
  destruct (matches_code line && negb (PyStr.endswith "-" line)) eqn:E1.
  { apply andb_true_iff in E1 as [E1 _]. cbn. split; [exact Hitems | now right]. }
  destruct (matches_wrapped_code line) eqn:E2.
  { cbn. split; [exact Hitems | right; now apply wrapped_code_is_code]. }
  destruct (nonempty (current_code st)
            && PyStr.endswith "-" (current_code st)
            && matches_continuation line) eqn:E3.
  { apply andb_true_iff in E3 as [[Hne _]%andb_true_iff Hcont].
    cbn. split; [exact Hitems|]. right.
    destruct Hcode as [Hempty|Hcode]; [now rewrite Hempty in Hne|].
    now apply continued_code_is_code. }
  destruct (parse_amount line); [cbn; now split|].
  destruct (parse_quantity line).
  { destruct (nonempty (current_code st)); cbn; now split. }
  destruct (pending_item st) as [item|] eqn:Hpending; cbn; [|now split].
  split; [|now left].
  apply Forall_app. split; [exact Hitems|]. constructor; [|constructor].
  unfold pending_item in Hpending.
  destruct (amounts_buffer st) as [|a [|b [|c more]]]; try discriminate.
  destruct (nonempty (current_code st)) eqn:Hne; [|discriminate].
  injection Hpending as <-. cbn.
  destruct Hcode as [Hempty|Hcode]; [now rewrite Hempty in Hne | exact Hcode].
Qed.

Lemma fold_tokenize_coded table_lines : forall st,
  List.Forall (fun item => matches_code (productCode item) = true) (items st)
  /\ (current_code st = "" \/ matches_code (current_code st) = true) ->
  let st' := fold_left tokenize_line table_lines st in
  List.Forall (fun item => matches_code (productCode item) = true) (items st')
  /\ (current_code st' = "" \/ matches_code (current_code st') = true).
Proof.
  induction table_lines as [|line rest IH]; intros st Hst; cbn; [exact Hst|].
  apply IH. now apply tokenize_line_coded.
Qed.

(** X21. Every line item the multi-line tokenizer returns carries a
    product code: a string of the form the tokenizer looks for (two to
    five capital letters, a hyphen, then capitals, digits and hyphens),
    joined with its continuation when the code was wrapped over two
    lines. No item is returned without a code. *)
Theorem line_items_have_product_codes (lines : list string) :
  List.Forall (fun item => matches_code (productCode item) = true)
    (_extract_line_items_multiline lines).
Proof.
  unfold _extract_line_items_multiline.
  destruct (find_table lines 0 None) as [[table_start table_end]|];
    [|constructor].
  match goal with
  | |- context [fold_left tokenize_line ?t ?s] =>
      destruct (fold_tokenize_coded t s) as [Hitems Hcode];
      [split; [constructor | now left]|];
      cbv zeta in Hitems, Hcode;
      set (st := fold_left tokenize_line t s) in *
  end.
  cbv zeta.
  destruct (pending_item st) as [item|] eqn:Hpending; [|exact Hitems].
  apply Forall_app. split; [exact Hitems|]. constructor; [|constructor].
  unfold pending_item in Hpending.
  destruct (amounts_buffer st) as [|a [|b [|c more]]]; try discriminate.
  destruct (nonempty (current_code st)) eqn:Hne; [|discriminate].
  injection Hpending as <-. cbn.
  destruct Hcode as [Hempty|Hcode]; [now rewrite Hempty in Hne | exact Hcode].
Qed.

End Tokenizer.
(** ** The auto-chain: failures of stage 2 *)

Section AutoChainFailures.

Import auto_chain.
Context `{PyLib}.
Variable sim : dict -> string -> M dict.
Variable settings : Settings.

(** The marker a [mark] leaves on a stored ticket. *)
Lemma mark_stage ticket_id stage extra w doc :
  Dict.get "stage" extra = None ->
  Dict.get "ts" extra = None ->
  tickets w !! ticket_id = Some doc ->
  let w' := snd (mark ticket_id stage extra w) in
  stored_path ["_autochain"; "stage"] ticket_id w' = Some (JStr stage)
  /\ forall k, k <> "stage" -> k <> "ts" ->
       Dict.get k extra <> None ->
       nodup_keys (Dict.keys extra) = true ->
       (forall ov, Dict.get k extra <> Some (JObj ov)) ->
       stored_path ["_autochain"; k] ticket_id w' = Dict.get k extra.
Proof.
  intros Hstage Hts Hdoc. cbv zeta.
  unfold mark, bind, memory_store._now_iso, storage.update_ticket,
    memory_store.update_ticket, ret.
  rewrite Hdoc. cbn [snd]. unfold stored_path. cbn [tickets with_tickets].
  rewrite lookup_insert_eq. cbn [get_path memory_store._deep_merge].
  rewrite get_set_ne by discriminate. rewrite get_set_eq.
  set (marker := ("stage", JStr stage)
                 :: ("ts", JStr (Clock.isoformat (clock w))) :: extra).
  assert (Hmarker : Dict.get "stage" marker = Some (JStr stage))
    by reflexivity.
  assert (Hmerged : forall base,
            Dict.get "stage" (memory_store._deep_merge base marker)
            = Some (JStr stage)).
  { intros base. subst marker. cbn [memory_store._deep_merge].
    rewrite deep_merge_get_notin by exact Hstage.
    rewrite get_set_ne by discriminate. cbn [memory_store.merge_value].
    apply get_set_eq. }
  split.
  - destruct (Dict.get "_autochain" doc) as [[| | | | | |old]|];
      try exact Hmarker.
    rewrite merge_value_obj. cbn [get_path]. now rewrite Hmerged.
  - intros k Hk1 Hk2 Hin Hnd Hleaf.
    destruct (Dict.get k extra) as [v|] eqn:Hv; [|congruence].
    assert (Hk : Dict.get k marker = Some v).
    { subst marker. cbn -[String.eqb].
      destruct (String.eqb_spec k "stage"); [congruence|].
      destruct (String.eqb_spec k "ts"); [congruence | exact Hv]. }
    assert (Hndm : nodup_keys (map fst marker) = true).
    { subst marker. cbn -[String.eqb].
      apply get_none_iff, existsb_eqb_false in Hstage, Hts.
      unfold Dict.keys in *. cbn -[String.eqb] in *.
      now rewrite Hstage, Hts, Hnd. }
    destruct (Dict.get "_autochain" doc) as [[| | | | | |old]|];
      cbn [memory_store.merge_value get_path]; try (now rewrite Hk).
    fold (memory_store._deep_merge old marker).
    rewrite (deep_merge_get_in k v marker old Hndm Hk).
    f_equal. destruct v; try reflexivity. now destruct (Hleaf kvs).
Qed.

(** X22. The auto-chain never raises. Whatever stage 2 and stage 3 do
    (return, fail, raise), the block that chains them ends normally:
    what is raised inside is caught and recorded, and
    [process_extraction] goes on to return the extraction result. *)
Theorem auto_chain_never_raises (ticket_id : string) (w : World) :
  exists w', auto_chain sim settings ticket_id w = (Ret tt, w').
Proof.
  unfold auto_chain, try_catch.
  match goal with |- context [match ?m w with _ => _ end] =>
    destruct (m w) as [[[]|e] w'] end.
  - now eexists.
  - destruct (mark_spec ticket_id "stage_b_exception"
                [("error", JStr (truncated 500 (exn_message e)))] w')
      as (w'' & Hm & _).
    rewrite Hm. now eexists.
Qed.

(** X23. An exception of stage 2 is recorded and ends the chain. When
    [trigger_ai_processing] raises, the chain stores the marker
    [stage_b_exception] with the first 500 characters of the message on
    the ticket and ends: stage 3 is not invoked, nothing is posted and
    nothing sleeps, and the ticket differs from what stage 2 left at
    most in its marker and time stamp. *)
Theorem stage_b_exception_is_recorded
    (ticket_id : string) (w : World) (e : exn) (w1 : World) (doc : dict) :
  ai_processing.trigger_ai_processing sim settings ticket_id
    (snd (mark ticket_id "calling_stage_b" [] w)) = (Raise e, w1) ->
  tickets w1 !! ticket_id = Some doc ->
  exists wf,
    auto_chain sim settings ticket_id w = (Ret tt, wf)
    /\ only_marked w1 wf
    /\ stored_path ["_autochain"; "stage"] ticket_id wf
       = Some (JStr "stage_b_exception")
    /\ stored_path ["_autochain"; "error"] ticket_id wf
       = Some (JStr (truncated 500 (exn_message e))).
Proof.
  intros Hrun Hdoc.
  destruct (mark_spec ticket_id "calling_stage_b" [] w) as (w0 & Hm0 & _).
  rewrite Hm0 in Hrun. cbn [snd] in Hrun.
  destruct (mark_spec ticket_id "stage_b_exception"
              [("error", JStr (truncated 500 (exn_message e)))] w1)
    as (wf & Hmf & Honly).
  destruct (mark_stage ticket_id "stage_b_exception"
              [("error", JStr (truncated 500 (exn_message e)))] w1 doc
              eq_refl eq_refl Hdoc) as [Hstage Hextra].
  rewrite Hmf in Hstage, Hextra. cbn [snd] in Hstage, Hextra.
  exists wf. split; [|split; [exact Honly | split; [exact Hstage|]]].
  - unfold auto_chain, try_catch.
    rewrite (bind_step _ _ _ _ _ Hm0), (bind_raise _ _ _ _ _ Hrun).
    exact Hmf.
  - rewrite (Hextra "error"); try reflexivity; try discriminate.
Qed.

(** X24. A failed stage 2 ends the chain. When [trigger_ai_processing]
    returns a result whose [success] is not true (a refusal of the
    guard, a remote failure, a time-out), the chain stores the marker
    [stage_b_not_success] and ends: stage 3 is not invoked, nothing is
    posted and nothing sleeps, and the ticket keeps the status stage 2
    gave it. *)
Theorem failed_stage_b_ends_the_chain
    (ticket_id : string) (w : World) (ai_result : dict) (w1 : World)
    (doc : dict) :
  ai_processing.trigger_ai_processing sim settings ticket_id
    (snd (mark ticket_id "calling_stage_b" [] w)) = (Ret ai_result, w1) ->
  truthy (get_or "success" JNull ai_result) = false ->
  tickets w1 !! ticket_id = Some doc ->
  exists wf,
    auto_chain sim settings ticket_id w = (Ret tt, wf)
    /\ only_marked w1 wf
    /\ trace wf = trace w1
    /\ stored_path ["status"] ticket_id wf
       = stored_path ["status"] ticket_id w1
    /\ stored_path ["_autochain"; "stage"] ticket_id wf
       = Some (JStr "stage_b_not_success").
Proof.
  intros Hrun Hfail Hdoc.
  destruct (mark_spec ticket_id "calling_stage_b" [] w) as (w0 & Hm0 & _).
  rewrite Hm0 in Hrun. cbn [snd] in Hrun.
  destruct (mark_spec ticket_id "stage_b_done"
              [ ("success", get_or "success" JNull ai_result);
                ("result_keys", key_list ai_result) ] w1)
    as (w2 & Hm2 & Ho2).
  set (extra := [("ai_result",
                   JObj (map (fun kv =>
                                (fst kv,
                                 JStr (truncated 200 (Py.str (snd kv)))))
                             ai_result))]).
  destruct (mark_spec ticket_id "stage_b_not_success" extra w2)
    as (wf & Hmf & Hof).
  assert (Hdoc2 : exists doc2, tickets w2 !! ticket_id = Some doc2).
  { destruct Ho2 as (_ & _ & _ & _ & _ & Hs).
    destruct (Hs ticket_id) as [[_ Hsome] _].
    destruct Hsome as [doc2 Hdoc2]; [now rewrite Hdoc | now exists doc2]. }
  destruct Hdoc2 as [doc2 Hdoc2].
  destruct (mark_stage ticket_id "stage_b_not_success" extra w2 doc2
              eq_refl eq_refl Hdoc2) as [Hstage _].
  rewrite Hmf in Hstage. cbn [snd] in Hstage.
  pose proof (only_marked_trans _ _ _ Ho2 Hof) as Honly.
  exists wf. split; [|split; [exact Honly | split; [|split]]].
  - unfold auto_chain, try_catch.
    rewrite (bind_step _ _ _ _ _ Hm0), (bind_step _ _ _ _ _ Hrun).
    rewrite (bind_step _ _ _ _ _ Hm2).
    unfold after_stage_b. rewrite Hfail. fold extra. now rewrite Hmf.
  - now destruct Honly as (_ & _ & _ & _ & Ht & _).
  - destruct Honly as (_ & _ & _ & _ & _ & Hs).
    destruct (Hs ticket_id) as [_ Hp].
    apply (Hp ["status"] "status" eq_refl); discriminate.
  - exact Hstage.
Qed.

End AutoChainFailures.

Section AutoChainFailureExamples.

Import auto_chain.
#[local] Existing Instance Sample.pylib.

(** No URL is configured for stage 2 and its local simulation crashes. *)
Lemma stage_b_exception_is_recorded_witness :
  let settings :=
    {| app_env := "development";
       content_understanding_endpoint := "";
       content_understanding_key := "";
       azure_client_id := "";
       stage_b_function_url := "";
       stage_b_function_key := "";
       stage_c_function_url := "";
       stage_c_function_key := "";
       disable_simulation_fallback := false |} in
  let w := Sample.world Sample.extracted [] in
  exists wf,
    auto_chain Sample.no_simulation settings "ZAVA-0001" w = (Ret tt, wf)
    /\ stored_path ["_autochain"; "stage"] "ZAVA-0001" wf
       = Some (JStr "stage_b_exception")
    /\ stored_path ["_autochain"; "error"] "ZAVA-0001" wf
       = Some (JStr "not reached").
Proof.
  intros settings w.
  pose (run :=
    ai_processing.trigger_ai_processing Sample.no_simulation settings
      "ZAVA-0001" (snd (mark "ZAVA-0001" "calling_stage_b" [] w))).
  assert (Hrun : run = (Raise (PyError "not reached"), snd run))
    by (vm_compute; reflexivity).
  destruct (tickets (snd run) !! "ZAVA-0001") as [doc|] eqn:Hdoc;
    [|vm_compute in Hdoc; discriminate].
  destruct (stage_b_exception_is_recorded Sample.no_simulation settings
              "ZAVA-0001" w (PyError "not reached") (snd run) doc Hrun Hdoc)
    as (wf & Hchain & _ & Hstage & Herror).
  exists wf. repeat split; assumption.
Defined.

(** The ticket has been through stage 3 already: stage 2 refuses it. *)
Lemma failed_stage_b_ends_the_chain_witness :
  let w :=
    Sample.world (Sample.ticket "invoice_processed" JNull) [Sample.busy] in
  exists wf,
    auto_chain Sample.no_simulation (Sample.settings false) "ZAVA-0001" w
    = (Ret tt, wf)
    /\ trace wf = []
    /\ stored_path ["status"] "ZAVA-0001" wf
       = Some (JStr "invoice_processed")
    /\ stored_path ["_autochain"; "stage"] "ZAVA-0001" wf
       = Some (JStr "stage_b_not_success").
Proof.
  intros w.
  pose (run :=
    ai_processing.trigger_ai_processing Sample.no_simulation
      (Sample.settings false) "ZAVA-0001"
      (snd (mark "ZAVA-0001" "calling_stage_b" [] w))).
  assert (Hrun : run = (Ret (returned run), snd run))
    by (vm_compute; reflexivity).
  destruct (tickets (snd run) !! "ZAVA-0001") as [doc|] eqn:Hdoc;
    [|vm_compute in Hdoc; discriminate].
  destruct (failed_stage_b_ends_the_chain Sample.no_simulation
              (Sample.settings false) "ZAVA-0001" w (returned run) (snd run)
              doc Hrun)
    as (wf & Hchain & _ & Htrace & Hstatus & Hstage);
    [vm_compute; reflexivity | exact Hdoc |].
  exists wf. split; [exact Hchain|]. split; [|split; [|exact Hstage]].
  - rewrite Htrace. vm_compute. reflexivity.
  - rewrite Hstatus. vm_compute. reflexivity.
Defined.

End AutoChainFailureExamples.
(** ** The settings: the URLs of the stage functions *)

Section StageUrls.

Lemma append_cons c r t : (String c r ++ t = String c (r ++ t))%string.
Proof. reflexivity. Qed.

Lemma append_nil_r s : (s ++ "" = s)%string.
Proof. induction s as [|c r IH]; [reflexivity|]. now rewrite append_cons, IH. Qed.

Lemma append_assoc s t u : ((s ++ t) ++ u = s ++ (t ++ u))%string.
Proof.
  induction s as [|c r IH]; [reflexivity|]. now rewrite !append_cons, IH.
Qed.

Lemma rev_string_app s t :
  PyStr.rev_string (s ++ t) = (PyStr.rev_string t ++ PyStr.rev_string s)%string.
Proof.
  induction s as [|c r IH].
  - cbn. change ("" ++ t)%string with t. now rewrite append_nil_r.
  - rewrite append_cons. cbn [PyStr.rev_string]. now rewrite IH, append_assoc.
Qed.

Lemma prefix_app s t : String.prefix s (s ++ t) = true.
Proof.
  induction s as [|c r IH]; [now destruct t|].
  rewrite append_cons. cbn [String.prefix].
  destruct (ascii_dec c c); [exact IH | congruence].
Qed.

Lemma endswith_app s p : PyStr.endswith p (s ++ p) = true.
Proof. unfold PyStr.endswith. rewrite rev_string_app. apply prefix_app. Qed.

Lemma rstrip_char_app x s p :
  p <> "" -> PyStr.rstrip_char x p = p ->
  PyStr.rstrip_char x (s ++ p) = (s ++ p)%string.
Proof.
  intros Hne Hp. induction s as [|c r IH]; [exact Hp|].
  rewrite append_cons. cbn [PyStr.rstrip_char]. rewrite IH.
  destruct (r ++ p)%string eqn:E; [|reflexivity].
  destruct r; [now destruct Hne | discriminate].
Qed.

Lemma nonempty_app_r s p : p <> "" -> nonempty (s ++ p) = true.
Proof.
  intros Hne. destruct s; [|reflexivity].
  change ("" ++ p)%string with p. now destruct p.
Qed.

(** What [ensure_path] gives for a route that is not empty and does not
    end in a slash. *)
Lemma ensure_path_spec path url :
  path <> "" -> PyStr.rstrip_char "/" path = path ->
  let result := ensure_path path url in
  (result = "" <-> url = "")
  /\ (result = ""
      \/ PyStr.endswith path (PyStr.rstrip_char "/" result) = true)
  /\ ensure_path path result = result.
Proof.
  intros Hne Hpath. cbv zeta.
  assert (Hres : ensure_path path url
                 = if nonempty url
                      && negb (PyStr.endswith path
                                 (PyStr.rstrip_char "/" url))
                   then (PyStr.rstrip_char "/" url ++ path)%string
                   else url) by reflexivity.
  destruct (nonempty url
            && negb (PyStr.endswith path (PyStr.rstrip_char "/" url)))
    eqn:Hcase; rewrite Hres.
  - apply andb_true_iff in Hcase as [Hurl Hends].
    set (trimmed := PyStr.rstrip_char "/" url) in *.
    assert (Hfull : nonempty (trimmed ++ path) = true)
      by now apply nonempty_app_r.
    split; [|split].
    + split; intros Heq.
      * rewrite Heq in Hfull. discriminate.
      * rewrite Heq in Hurl. discriminate.
    + right. rewrite rstrip_char_app by assumption. apply endswith_app.
    + unfold ensure_path. rewrite rstrip_char_app by assumption.
      rewrite endswith_app. cbn [negb]. now rewrite andb_false_r.
  - split; [tauto|]. split.
    + apply andb_false_iff in Hcase as [Hurl|Hends].
      * left. unfold nonempty in Hurl. apply negb_false_iff in Hurl.
        now apply String.eqb_eq.
      * right. now apply negb_false_iff in Hends.
    + unfold ensure_path. now rewrite Hcase.
Qed.

(** X25. The URLs the triggers post to carry their route. [stage_b_url]
    is empty exactly when no URL is configured; otherwise, up to slashes
    at its end, it ends with [/api/process-ticket]; and ensuring the
    route on it again changes nothing. The same holds of [stage_c_url]
    and [/api/process-invoice]. *)
Theorem stage_urls_carry_their_route (s : Settings) :
  ((stage_b_url s = "" <-> stage_b_function_url s = "")
   /\ (stage_b_url s = ""
       \/ PyStr.endswith "/api/process-ticket"
            (PyStr.rstrip_char "/" (stage_b_url s)) = true)
   /\ ensure_path "/api/process-ticket" (stage_b_url s) = stage_b_url s)
  /\ ((stage_c_url s = "" <-> stage_c_function_url s = "")
      /\ (stage_c_url s = ""
          \/ PyStr.endswith "/api/process-invoice"
               (PyStr.rstrip_char "/" (stage_c_url s)) = true)
      /\ ensure_path "/api/process-invoice" (stage_c_url s) = stage_c_url s).
Proof.
  split; apply ensure_path_spec; solve [discriminate | reflexivity].
Qed.

End StageUrls.

(* ================================================================== *)
(** ** The manual endpoints and the stage services *)
(* ================================================================== *)

Section Endpoints.

Context `{PyLib}.

Import remote_stage.

(** A status the guard lets through is one of the accepted strings. *)
Lemma guard_accepts (st : Stage) (v : json) :
  guard_rejects st v = false ->
  exists s, In s (accepted st) /\ v = JStr s.
Proof.
  unfold guard_rejects. rewrite negb_false_iff.
  induction (accepted st) as [|a r IH]; [discriminate|].
  cbn [existsb]. intros [Ha|Hr]%orb_true_iff.
  - destruct v; try discriminate. cbn [eq_str] in Ha.
    apply String.eqb_eq in Ha as ->. exists a. split; [now left|reflexivity].
  - destruct (IH Hr) as (s & Hin & ->). exists s. split; [now right|reflexivity].
Qed.

(** What the service answers to a ticket the endpoint refuses. *)
Lemma service_refuses_unknown (st : Stage) settings ticket_id w :
  storage.get_ticket ticket_id w = (Ret None, w) ->
  trigger st settings ticket_id w
  = (Ret (failure (JStr ("Ticket '" ++ ticket_id ++ "' not found"))), w).
Proof.
  intros Hget. unfold trigger, bind at 1, perf_counter. unfold bind at 1.
  now rewrite Hget.
Qed.

Lemma service_refuses_status (st : Stage) settings ticket_id w ticket :
  storage.get_ticket ticket_id w = (Ret (Some ticket), w) ->
  guard_rejects st (status_of ticket) = true ->
  exists result,
    trigger st settings ticket_id w = (Ret result, w)
    /\ Dict.get "success" result = Some (JBool false)
    /\ Dict.get "currentStatus" result = Some (status_of ticket).
Proof.
  intros Hget Hguard. eexists. split.
  - unfold trigger, bind at 1, perf_counter. unfold bind at 1.
    rewrite Hget, Hguard. reflexivity.
  - split; reflexivity.
Qed.

Lemma get_ticket_cases ticket_id w :
  storage.get_ticket ticket_id w = (Ret None, w)
  \/ exists ticket,
       storage.get_ticket ticket_id w = (Ret (Some ticket), w)
       /\ tickets w !! ticket_id = Some ticket /\ ticket <> [].
Proof.
  unfold storage.get_ticket, memory_store.get_ticket.
  destruct (tickets w !! ticket_id) as [[|kv doc]|]; [now left| |now left].
  right. exists (kv :: doc). now repeat split.
Qed.

(** X26. The manual endpoints and the stage services share one guard.
    [POST /process-ai] and [POST /process-invoice] read the ticket and
    write nothing. They answer 404 or 409 exactly when the service they
    would queue refuses the ticket (it returns [success: False] and
    leaves the store as it is); when they queue the task, the ticket is
    stored with one of the statuses the service accepts, and the body
    reports that status as [previousStatus]. *)
Theorem endpoints_share_the_service_guard
    (sim : dict -> string -> M dict) (settings : Settings)
    (ticket_id : string) (w : World) :
  let agrees (endpoint : M routers.reply) (st : Stage)
             (queued : routers.task) :=
    exists reply,
      endpoint w = (Ret reply, w)
      /\ match reply with
         | routers.Queued task body =>
             task = queued
             /\ Dict.get "ticketId" body = Some (JStr ticket_id)
             /\ exists ticket s,
                  tickets w !! ticket_id = Some ticket
                  /\ In s (accepted st)
                  /\ status_of ticket = JStr s
                  /\ Dict.get "previousStatus" body = Some (JStr s)
                  /\ guard_rejects st (status_of ticket) = false
         | routers.HTTPException status_code _ =>
             (status_code = 404 \/ status_code = 409)
             /\ exists result,
                  trigger st settings ticket_id w = (Ret result, w)
                  /\ Dict.get "success" result = Some (JBool false)
         end in
  agrees (routers.trigger_ai_processing ticket_id)
         (ai_processing.stage_b sim) (routers.RunStageB ticket_id)
  /\ agrees (routers.trigger_invoice_processing ticket_id)
            invoice_processing.stage_c (routers.RunStageC ticket_id).
Proof.
  cbv zeta.
  split.
  - unfold routers.trigger_ai_processing, bind.
    destruct (get_ticket_cases ticket_id w)
      as [Hget|(ticket & Hget & Hstored & Hne)]; rewrite Hget.
    + eexists. split; [reflexivity|]. split; [now left|].
      eexists. split; [now apply service_refuses_unknown | reflexivity].
    + fold (status_of ticket).
      destruct (guard_rejects (ai_processing.stage_b sim) (status_of ticket))
        eqn:Hguard;
        pose proof Hguard as Hg; unfold guard_rejects in Hg;
        cbn [accepted ai_processing.stage_b invoice_processing.stage_c] in Hg;
        rewrite Hg.
      * eexists. split; [reflexivity|]. split; [now right|].
        destruct (service_refuses_status (ai_processing.stage_b sim) settings
                    ticket_id w ticket Hget Hguard)
          as (result & Hrun & Hfail & _).
        now exists result.
      * destruct (guard_accepts _ _ Hguard) as (s & Hin & Hs).
        eexists. split; [reflexivity|]. split; [reflexivity|].
        split; [reflexivity|]. exists ticket, s.
        repeat split; try assumption. cbn. now rewrite Hs.
  - unfold routers.trigger_invoice_processing, bind.
    destruct (get_ticket_cases ticket_id w)
      as [Hget|(ticket & Hget & Hstored & Hne)]; rewrite Hget.
    + eexists. split; [reflexivity|]. split; [now left|].
      eexists. split; [now apply service_refuses_unknown | reflexivity].
    + fold (status_of ticket).
      destruct (guard_rejects invoice_processing.stage_c (status_of ticket))
        eqn:Hguard;
        pose proof Hguard as Hg; unfold guard_rejects in Hg;
        cbn [accepted ai_processing.stage_b invoice_processing.stage_c] in Hg;
        rewrite Hg.
      * eexists. split; [reflexivity|]. split; [now right|].
        destruct (service_refuses_status invoice_processing.stage_c settings
                    ticket_id w ticket Hget Hguard)
          as (result & Hrun & Hfail & _).
        now exists result.
      * destruct (guard_accepts _ _ Hguard) as (s & Hin & Hs).
        eexists. split; [reflexivity|]. split; [reflexivity|].
        split; [reflexivity|]. exists ticket, s.
        repeat split; try assumption. cbn. now rewrite Hs.
Qed.

End Endpoints.
